(** * cems_arduino: sensor ingestion pipeline and latest-reading distribution

    A shallow embedding of [arduino_sensor.py] (serial decoding, measurement
    extraction, the PostgreSQL store and the ingestion loop) and of
    [routers/api_v1/endpoints/data.py] (the latest-reading cache, [GET /data]
    and the [/replace] event stream), followed by the properties proved about
    them.

    Conventions.
    - A Python [str] is the list of its code points ([list N]); [bytes] is a
      [list byte].
    - A call that can raise returns a [result]; [try ... except] is [catch].
    - Code that talks to the outside (the database driver, the clock) is a
      state transformer over an explicit world. *)

From Stdlib Require Import List Bool Arith NArith ZArith Lia.
From Stdlib Require Import Strings.String Strings.Byte.
From Stdlib Require Import Floats.SpecFloat.
Import ListNotations.

Set Implicit Arguments.

(* ================================================================== *)
(** * Python values the model needs *)
(* ================================================================== *)

Module Py.

(** The exception classes the two source files raise or catch.  [DbError] is
    [psycopg2.Error] (and every subclass: [OperationalError],
    [InterfaceError], ...); [QueryError] is what an asyncpg query raises,
    with the text [str(e)] gives; [OverflowError] is what the division of
    two [int]s raises when the quotient is too large for a [float]. *)
Inductive exn : Type :=
  | UnicodeDecodeError
  | AttributeError
  | ValueError
  | OverflowError
  | KeyError (key : string)
  | DbError
  | QueryError (message : string).

Inductive result (A : Type) : Type :=
  | Return (a : A)
  | Raise (e : exn).

Arguments Return {A} a.
Arguments Raise {A} e.

Definition bind {A B} (r : result A) (k : A -> result B) : result B :=
  match r with
  | Return a => k a
  | Raise e => Raise e
  end.

(** [try body except <classes matched by handles>: handler]. *)
Definition catch {A} (body : result A) (handles : exn -> bool)
    (handler : exn -> result A) : result A :=
  match body with
  | Return a => Return a
  | Raise e => if handles e then handler e else Raise e
  end.

(** A bare [except:] and [except Exception:] catch every class above. *)
Definition any_exception (e : exn) : bool := true.

Definition is_db_error (e : exn) : bool :=
  match e with DbError => true | _ => false end.

(** [except (UnicodeDecodeError, AttributeError)]. *)
Definition is_decode_or_attribute_error (e : exn) : bool :=
  match e with
  | UnicodeDecodeError | AttributeError => true
  | _ => false
  end.

(** ** [str] *)

Local Open Scope N_scope.

Definition str := list N.

(** [Py_UNICODE_ISSPACE]: the characters [str.strip()], [str.isspace()] and
    the regular expression class [\s] treat as white space. *)
Definition isspace (c : N) : bool :=
  ((9 <=? c) && (c <=? 13)) || ((28 <=? c) && (c <=? 32))
  || (c =? 133) || (c =? 160) || (c =? 5760)
  || ((8192 <=? c) && (c <=? 8202))
  || (c =? 8232) || (c =? 8233) || (c =? 8239) || (c =? 8287)
  || (c =? 12288).

Fixpoint lstrip (s : str) : str :=
  match s with
  | c :: t => if isspace c then lstrip t else s
  | [] => []
  end.

Definition rstrip (s : str) : str := rev (lstrip (rev s)).

(** [s.strip()] *)
Definition strip (s : str) : str := rstrip (lstrip s).

Fixpoint str_eqb (a b : str) : bool :=
  match a, b with
  | [], [] => true
  | x :: a', y :: b' => (x =? y) && str_eqb a' b'
  | _, _ => false
  end.

Fixpoint starts_with (prefix s : str) : bool :=
  match prefix, s with
  | [], _ => true
  | p :: prefix', c :: s' => (p =? c) && starts_with prefix' s'
  | _ :: _, [] => false
  end.

(** [needle in s] for strings. *)
Fixpoint contains (needle s : str) : bool :=
  starts_with needle s
  || match s with
     | [] => false
     | _ :: t => contains needle t
     end.

(** [s.lower()].  Only the mappings that can produce an ASCII letter are
    written out: [A]-[Z], U+0130 (to [i] followed by U+0307) and the Kelvin
    sign U+212A (to [k]).  Every other character lowers to characters
    outside ASCII, so leaving it in place changes no test for an ASCII
    substring. *)
Definition lower_char (c : N) : str :=
  if (65 <=? c) && (c <=? 90) then [c + 32]
  else if c =? 304 then [105; 775]
  else if c =? 8490 then [107]
  else [c].

Definition lower (s : str) : str := flat_map lower_char s.

(** The filter both source files spell
    [ord(c) >= 32 or c in '\t\n\r']. *)
Definition printable (c : N) : bool :=
  (32 <=? c) || (c =? 9) || (c =? 10) || (c =? 13).

Definition of_ascii (s : string) : str :=
  map (fun b => Byte.to_N b) (list_byte_of_string s).

End Py.

Import Py.

(* ================================================================== *)
(** * Codecs used by [bytes.decode] *)
(* ================================================================== *)

Module Codec.

Local Open Scope N_scope.

Definition bytes := list byte.

(** The [errors=] argument of [bytes.decode]. *)
Inductive errors : Type := strict | ignore | replace.

Definition REPLACEMENT_CHARACTER : N := 65533.

(** What the decoder does with one undecodable span. *)
Definition on_error (errs : errors) (k : result str) : result str :=
  match errs with
  | strict => Raise UnicodeDecodeError
  | ignore => k
  | replace => bind k (fun s => Return (REPLACEMENT_CHARACTER :: s))
  end.

Definition emit (c : N) (k : result str) : result str :=
  bind k (fun s => Return (c :: s)).

(** ** latin-1 and ASCII *)

Definition latin1_decode (raw : bytes) : result str :=
  Return (map Byte.to_N raw).

Fixpoint ascii_decode (errs : errors) (raw : bytes) : result str :=
  match raw with
  | [] => Return []
  | b :: t =>
      if Byte.to_N b <? 128 then emit (Byte.to_N b) (ascii_decode errs t)
      else on_error errs (ascii_decode errs t)
  end.

(** ** UTF-8

    CPython's decoder, as a byte-at-a-time automaton.  In the middle of a
    sequence the state records how many continuation bytes are still owed,
    the bits gathered so far and the range the next byte must lie in (the
    range is narrower than 80..BF right after E0, ED, F0 and F4, which rules
    out overlong forms, surrogates and code points past U+10FFFF).  A byte
    outside the range ends the sequence as one error and is then read again
    as the first byte of a new sequence; input that ends inside a sequence
    is one error. *)
Inductive utf8_state : Type :=
  | Start
  | Continuation (owed : nat) (acc lo hi : N).

Inductive utf8_first : Type :=
  | Ascii (c : N)
  | Lead (st : utf8_state)
  | InvalidStart.

Definition utf8_first_byte (b : N) : utf8_first :=
  if b <? 128 then Ascii b
  else if b <? 194 then InvalidStart
  else if b <? 224 then Lead (Continuation 1 (N.land b 31) 128 191)
  else if b =? 224 then Lead (Continuation 2 (N.land b 15) 160 191)
  else if b =? 237 then Lead (Continuation 2 (N.land b 15) 128 159)
  else if b <? 240 then Lead (Continuation 2 (N.land b 15) 128 191)
  else if b =? 240 then Lead (Continuation 3 (N.land b 7) 144 191)
  else if b <? 244 then Lead (Continuation 3 (N.land b 7) 128 191)
  else if b =? 244 then Lead (Continuation 3 (N.land b 7) 128 143)
  else InvalidStart.

Fixpoint utf8_run (errs : errors) (st : utf8_state) (raw : bytes)
    : result str :=
  match raw with
  | [] =>
      match st with
      | Start => Return []
      | Continuation _ _ _ _ => on_error errs (Return [])
      end
  | byte :: t =>
      let b := Byte.to_N byte in
      let from_start (k : utf8_state -> result str) :=
        match utf8_first_byte b with
        | Ascii c => emit c (k Start)
        | Lead st' => k st'
        | InvalidStart => on_error errs (k Start)
        end in
      match st with
      | Start => from_start (fun st' => utf8_run errs st' t)
      | Continuation owed acc lo hi =>
          if (lo <=? b) && (b <=? hi) then
            let acc' := acc * 64 + N.land b 63 in
            match owed with
            | S (S owed') =>
                utf8_run errs (Continuation (S owed') acc' 128 191) t
            | _ => emit acc' (utf8_run errs Start t)
            end
          else on_error errs (from_start (fun st' => utf8_run errs st' t))
      end
  end.

Definition utf8_decode (errs : errors) (raw : bytes) : result str :=
  utf8_run errs Start raw.

(** ** The double-byte codecs

    The Big5 and GB2312 mapping tables are CPython's, not this
    repository's: the two decoders are parameters.  Under
    [errors='ignore'] a codec drops what it cannot map, so a decoder is a
    function from the bytes to the text it keeps. *)
Record cjk_codecs : Type := {
  big5_decode_ignore : bytes -> str;
  gb2312_decode_ignore : bytes -> str
}.

Inductive encoding : Type := utf_8 | big5 | gb2312 | ascii | latin1.

(** [raw.decode(enc, errors='ignore')] *)
Definition decode_ignore (cjk : cjk_codecs) (enc : encoding) (raw : bytes)
    : result str :=
  match enc with
  | utf_8 => utf8_decode ignore raw
  | big5 => Return (big5_decode_ignore cjk raw)
  | gb2312 => Return (gb2312_decode_ignore cjk raw)
  | ascii => ascii_decode ignore raw
  | latin1 => latin1_decode raw
  end.

End Codec.

Import Codec.

(* ================================================================== *)
(** * [class SerialDataReader] *)
(* ================================================================== *)

Module SerialDataReader.

(** What a caller can hand to [safe_decode]: [None], a [bytes] object (what
    [readline()] yields) or, by mistake, text. *)
Inductive pyobj : Type :=
  | PyNone
  | PyBytes (raw : bytes)
  | PyStr (text : str).

Definition truthy (v : pyobj) : bool :=
  match v with
  | PyNone => false
  | PyBytes raw => negb (Nat.eqb (List.length raw) 0)
  | PyStr text => negb (Nat.eqb (List.length text) 0)
  end.

(** One evaluation of [raw_data.decode(...)], kept in a log so that the
    number of decode attempts of a call can be stated. *)
Inductive attempt : Type :=
  | Decode (enc : encoding) (errs : errors).

(** [raw_data.decode(enc, errors=errs)] for the argument combinations the
    method uses.  Only [bytes] has a [decode] attribute. *)
Definition decode (cjk : cjk_codecs) (raw_data : pyobj) (enc : encoding)
    (errs : errors) : result str :=
  match raw_data with
  | PyBytes raw =>
      match errs, enc with
      | ignore, _ => decode_ignore cjk enc raw
      | _, utf_8 => utf8_decode errs raw
      | _, ascii => ascii_decode errs raw
      | _, latin1 => latin1_decode raw
      | _, _ => Raise UnicodeDecodeError
      end
  | PyNone | PyStr _ => Raise AttributeError
  end.

(** [self.encoding_list] *)
Definition encoding_list : list encoding :=
  [utf_8; big5; gb2312; ascii; latin1].

Definition nonempty (s : str) : bool := negb (Nat.eqb (List.length s) 0).

(** The [for encoding in self.encoding_list] loop.  [Return (Some decoded)]
    is the [return decoded] inside the loop, [Return None] is falling out of
    the loop, [Raise e] an exception the [except] clause does not name. *)
Fixpoint try_encodings (cjk : cjk_codecs) (raw_data : pyobj)
    (encodings : list encoding) : list attempt * result (option str) :=
  match encodings with
  | [] => ([], Return None)
  | enc :: rest =>
      let continue :=
        let '(log, r) := try_encodings cjk raw_data rest in
        (Decode enc ignore :: log, r) in
      match decode cjk raw_data enc ignore with
      | Return text =>
          let decoded := strip text in
          if nonempty decoded then ([Decode enc ignore], Return (Some decoded))
          else continue
      | Raise e =>
          if is_decode_or_attribute_error e then continue
          else ([Decode enc ignore], Raise e)
      end
  end.

(** [def safe_decode(self, raw_data)]: the log of decode attempts and the
    outcome of the call. *)
Definition safe_decode (cjk : cjk_codecs) (raw_data : pyobj)
    : list attempt * result str :=
  if negb (truthy raw_data) then ([], Return [])
  else
    let '(log, looped) := try_encodings cjk raw_data encoding_list in
    match looped with
    | Raise e => (log, Raise e)
    | Return (Some decoded) => (log, Return decoded)
    | Return None =>
        (* try: utf-8 with errors='replace' ... except: pass *)
        let second :=
          catch (bind (decode cjk raw_data utf_8 replace)
                      (fun text =>
                         let decoded := strip text in
                         Return (if nonempty decoded then Some decoded
                                 else None)))
                any_exception (fun _ => Return None) in
        let log := log ++ [Decode utf_8 replace] in
        match second with
        | Return (Some decoded) => (log, Return decoded)
        | Raise e => (log, Raise e)
        | Return None =>
            (* try: latin1, then the filter ... except: return "" *)
            (log ++ [Decode latin1 ignore],
             catch (bind (decode cjk raw_data latin1 ignore)
                         (fun text =>
                            let decoded := strip text in
                            let cleaned := filter printable decoded in
                            Return cleaned))
                   any_exception (fun _ => Return []))
        end
    end.

(** Text that neither starts nor ends with white space: what [strip()]
    leaves. *)
Definition trimmed (s : str) : Prop :=
  match s with
  | [] => True
  | c :: _ => isspace c = false /\ isspace (last s c) = false
  end.

End SerialDataReader.

(* ================================================================== *)
(** * The part of [re] the three patterns use *)
(* ================================================================== *)

Module Re.

Local Open Scope N_scope.

(** First code point and length of every run of decimal digits (general
    category Nd, Unicode 14.0, the database of CPython 3.11): what [\d]
    matches and what [int()] and [float()] read as a digit.  Each run
    counts 0 to 9, the mathematical digits five times over. *)
Definition decimal_runs : list (N * N) :=
  [ (48, 10); (1632, 10); (1776, 10); (1984, 10); (2406, 10); (2534, 10);
    (2662, 10); (2790, 10); (2918, 10); (3046, 10); (3174, 10); (3302, 10);
    (3430, 10); (3558, 10); (3664, 10); (3792, 10); (3872, 10); (4160, 10);
    (4240, 10); (6112, 10); (6160, 10); (6470, 10); (6608, 10); (6784, 10);
    (6800, 10); (6992, 10); (7088, 10); (7232, 10); (7248, 10); (42528, 10);
    (43216, 10); (43264, 10); (43472, 10); (43504, 10); (43600, 10);
    (44016, 10); (65296, 10); (66720, 10); (68912, 10); (69734, 10);
    (69872, 10); (69942, 10); (70096, 10); (70384, 10); (70736, 10);
    (70864, 10); (71248, 10); (71360, 10); (71472, 10); (71904, 10);
    (72016, 10); (72784, 10); (73040, 10); (73120, 10); (92768, 10);
    (92864, 10); (93008, 10); (120782, 50); (123200, 10); (123632, 10);
    (125264, 10); (130032, 10) ].

(** [Py_UNICODE_TODECIMAL] *)
Definition decimal_value (c : N) : option N :=
  match find (fun run => (fst run <=? c) && (c <? fst run + snd run))
             decimal_runs with
  | Some run => Some ((c - fst run) mod 10)
  | None => None
  end.

Definition isdecimal (c : N) : bool :=
  match decimal_value c with Some _ => true | None => false end.

(** An item of a bracketed set, or a category escape on its own. *)
Inductive set_item : Type :=
  | Char (c : N)
  | Category_space      (* \s *)
  | Category_digit.     (* \d *)

Inductive regex : Type :=
  | Empty
  | Literal (c : N)
  | IN (items : list set_item)
  | Seq (a b : regex)
  | Branch (a b : regex)          (* a|b *)
  | Optional (a : regex)          (* a?  *)
  | Star_in (items : list set_item)   (* [items]*  *)
  | Plus_in (items : list set_item)   (* [items]+  *)
  | Group (a : regex).            (* ( a ), the pattern's group 1 *)

Definition sequence (rs : list regex) : regex := fold_right Seq Empty rs.

(** The lower-case mapping the matcher applies under [re.IGNORECASE].  As in
    [Py.lower_char], only the characters that reach an ASCII letter are
    written out. *)
Definition sre_lower (ch : N) : N :=
  if (65 <=? ch) && (ch <=? 90) then ch + 32
  else if ch =? 304 then 105
  else if ch =? 8490 then 107
  else ch.

(** The two extra equivalences of the matcher that involve an ASCII letter:
    i with dotless i (U+0131), s with long s (U+017F). *)
Definition ignorecase_fix (lo ch : N) : bool :=
  ((lo =? 105) && (ch =? 305)) || ((lo =? 115) && (ch =? 383)).

Definition literal_matches (ignorecase : bool) (c ch : N) : bool :=
  if ignorecase then
    let lo := sre_lower c in
    (sre_lower ch =? lo) || ignorecase_fix lo (sre_lower ch)
  else ch =? c.

Definition item_matches (ignorecase : bool) (ch : N) (item : set_item)
    : bool :=
  match item with
  | Char c => literal_matches ignorecase c ch
  | Category_space => isspace ch
  | Category_digit => isdecimal ch
  end.

Definition in_set (ignorecase : bool) (items : list set_item) (ch : N)
    : bool :=
  existsb (item_matches ignorecase ch) items.

Section Matcher.

Variable ignorecase : bool.
Variable A : Type.

(** Greedy repetition of a one-character set: take the character if it is
    in the set and try the rest, give it back if the rest fails. *)
Fixpoint star_in (items : list set_item) (s : str) (k : str -> option A)
    : option A :=
  match s with
  | ch :: t =>
      if in_set ignorecase items ch then
        match star_in items t k with
        | Some r => Some r
        | None => k s
        end
      else k s
  | [] => k s
  end.

(** The backtracking matcher, in continuation-passing style: [k] receives
    the text still to be matched and the text of group 1 so far. *)
Fixpoint rmatch (r : regex) (s : str) (g : option str)
    (k : str -> option str -> option A) : option A :=
  match r with
  | Empty => k s g
  | Literal c =>
      match s with
      | ch :: t => if literal_matches ignorecase c ch then k t g else None
      | [] => None
      end
  | IN items =>
      match s with
      | ch :: t => if in_set ignorecase items ch then k t g else None
      | [] => None
      end
  | Seq a b => rmatch a s g (fun s' g' => rmatch b s' g' k)
  | Branch a b =>
      match rmatch a s g k with
      | Some x => Some x
      | None => rmatch b s g k
      end
  | Optional a =>
      match rmatch a s g k with
      | Some x => Some x
      | None => k s g
      end
  | Star_in items => star_in items s (fun s' => k s' g)
  | Plus_in items =>
      match s with
      | ch :: t =>
          if in_set ignorecase items ch
          then star_in items t (fun s' => k s' g)
          else None
      | [] => None
      end
  | Group a =>
      rmatch a s g
        (fun s' _ => k s' (Some (firstn (List.length s - List.length s') s)))
  end.

End Matcher.

(** A match object, reduced to what the parser reads from it. *)
Record Match : Type := { group_1 : str }.

(** A compiled pattern: the expression and its [re.IGNORECASE] flag. *)
Record Pattern : Type := { expr : regex; IGNORECASE : bool }.

Definition match_here (p : Pattern) (s : str) : option Match :=
  rmatch (IGNORECASE p) (expr p) s None
    (fun _ g =>
       Some {| group_1 := match g with Some t => t | None => [] end |}).

(** [pattern.search(s)]: the match at the leftmost position that has one. *)
Fixpoint search (p : Pattern) (s : str) : option Match :=
  match match_here p s with
  | Some m => Some m
  | None =>
      match s with
      | [] => None
      | _ :: t => search p t
      end
  end.


Definition decimal (ch : N) : Prop := isdecimal ch = true.

(** The strings [-?\d+] matches: an optional minus sign and a non-empty
    run of decimal digits. *)
Definition signed_digits (w : str) (negative : bool) (v : str) : Prop :=
  w = (if negative then [45] else []) ++ v /\ v <> [] /\ Forall decimal v.

End Re.

(* ================================================================== *)
(** * [float] and the conversions [int(text)], [float(text)] *)
(* ================================================================== *)

Module Num.

(** A Python [float] is an IEEE 754 binary64 value. *)
Definition float : Type := spec_float.

Definition prec : Z := 53.
Definition emax : Z := 1024.

Definition lt (x y : float) : bool := SFltb x y.
Definition gt (x y : float) : bool := SFltb y x.
Definition le (x y : float) : bool := SFleb x y.
Definition ge (x y : float) : bool := SFleb y x.

Fixpoint pow10 (k : nat) : positive :=
  match k with
  | O => 1%positive
  | S k' => (10 * pow10 k')%positive
  end.

(** The binary64 nearest to [m / 10^k] (ties to even), signed. *)
Definition binary64_of_decimal (negative : bool) (m : N) (k : nat) : float :=
  match m with
  | N0 => S754_zero negative
  | Npos p =>
      SFdiv prec emax (S754_finite negative p 0)
            (S754_finite false (pow10 k) 0)
  end.

(** The values of a run of decimal digits, [None] if some character is not
    one. *)
Fixpoint digit_values (s : str) : option (list N) :=
  match s with
  | [] => Some []
  | c :: t =>
      match Re.decimal_value c, digit_values t with
      | Some d, Some ds => Some (d :: ds)
      | _, _ => None
      end
  end.

Definition number_of (digits : list N) : N :=
  fold_left (fun acc d => 10 * acc + d)%N digits 0%N.

(** A leading [-] or [+]. *)
Definition split_sign (s : str) : bool * str :=
  match s with
  | 45%N :: t => (true, t)
  | 43%N :: t => (false, t)
  | _ => (false, s)
  end.

(** The text before the first [.] and, when there is one, the text after. *)
Fixpoint split_point (s : str) : str * option str :=
  match s with
  | [] => ([], None)
  | c :: t =>
      if (c =? 46)%N then ([], Some t)
      else let '(a, b) := split_point t in (c :: a, b)
  end.

(** [float(text)] for decimal literals without exponent, which is all a
    pattern of the parser can capture: optional sign, digits, optional
    point, digits, at least one digit in all.  Any other text is a
    [ValueError] here (exponents, [inf], [nan] and digit-group underscores
    are not modelled). *)
Definition py_float (text : str) : result float :=
  let '(negative, body) := split_sign (strip text) in
  let '(whole, after_point) := split_point body in
  let fraction := match after_point with Some f => f | None => [] end in
  match digit_values whole, digit_values fraction with
  | Some i, Some f =>
      if Nat.eqb (List.length i + List.length f) 0 then Raise ValueError
      else Return (binary64_of_decimal negative (number_of (i ++ f))
                                       (List.length f))
  | _, _ => Raise ValueError
  end.

Section IntLimit.

(** [sys.get_int_max_str_digits()]: 4300 by default since CPython 3.11,
    0 when the limit is off (and in the versions before it existed). *)
Variable int_max_str_digits : nat.

(** The limit is only looked at past 640 digits. *)
Definition exceeds_limit (digits : nat) : bool :=
  Nat.ltb 640 digits && Nat.ltb 0 int_max_str_digits
  && Nat.ltb int_max_str_digits digits.

(** [int(text)] for decimal text: optional sign and at least one digit
    (digit-group underscores are not modelled). *)
Definition py_int (text : str) : result Z :=
  let '(negative, body) := split_sign (strip text) in
  match digit_values body with
  | Some ((_ :: _) as digits) =>
      if exceeds_limit (List.length digits) then Raise ValueError
      else
        let n := Z.of_N (number_of digits) in
        Return (if negative then (- n)%Z else n)
  | _ => Raise ValueError
  end.

End IntLimit.

(** [a / b] for two [int]s, [b] positive: the binary64 nearest to the
    quotient (ties to even), and [OverflowError] when that is beyond the
    largest [float]. *)
Definition true_divide (a : Z) (b : positive) : result float :=
  match a with
  | Z0 => Return (S754_zero false)
  | Zpos p | Zneg p =>
      match SFdiv prec emax (S754_finite (a <? 0)%Z p 0)
                  (S754_finite false b 0) with
      | S754_infinity _ => Raise OverflowError
      | quotient => Return quotient
      end
  end.

(** Literals of the source. *)
Definition of_Z (z : Z) : float :=
  binary64_of_decimal (z <? 0)%Z (Z.abs_N z) 0.

Definition f0 : float := of_Z 0.
Definition f14 : float := of_Z 14.
Definition f6_5 : float := binary64_of_decimal false 65 1.
Definition f7_5 : float := binary64_of_decimal false 75 1.
Definition f8_5 : float := binary64_of_decimal false 85 1.

End Num.

(* ================================================================== *)
(** * [class SensorDataParser] *)
(* ================================================================== *)

Module SensorDataParser.

Import Re.

Definition lits (s : string) : list regex := map Literal (of_ascii s).

Definition chr (s : string) : N := hd 0%N (of_ascii s).

(** [-?\d+], the signed integer the ORP and NTU patterns capture. *)
Definition signed_integer : regex :=
  Seq (Optional (Literal (chr "-"))) (Plus_in [Category_digit]).

(** [-?\d+\.?\d*], the decimal number the pH pattern captures. *)
Definition decimal_literal : regex :=
  sequence [Optional (Literal (chr "-")); Plus_in [Category_digit];
            Optional (Literal (chr ".")); Star_in [Category_digit]].

(** [self.ph_pattern]: [pH[_\s]*value:?\s*] followed by group 1,
    [-?\d+\.?\d*], compiled with [re.IGNORECASE]. *)
Definition ph_pattern : Pattern :=
  {| expr :=
       sequence
         (lits "pH" ++ [Star_in [Char (chr "_"); Category_space]]
          ++ lits "value"
          ++ [Optional (Literal (chr ":")); Star_in [Category_space];
              Group decimal_literal]);
     IGNORECASE := true |}.

(** [self.orp_pattern]: [ORP:?\s*] followed by group 1, [-?\d+], compiled
    with [re.IGNORECASE]. *)
Definition orp_pattern : Pattern :=
  {| expr :=
       sequence
         (lits "ORP"
          ++ [Optional (Literal (chr ":")); Star_in [Category_space];
              Group signed_integer]);
     IGNORECASE := true |}.

(** [self.ntu_pattern]: [(?:Turbidity|NTU):?\s*] followed by group 1,
    [-?\d+], compiled with [re.IGNORECASE]. *)
Definition ntu_pattern : Pattern :=
  {| expr :=
       sequence
         [Branch (sequence (lits "Turbidity")) (sequence (lits "NTU"));
          Optional (Literal (chr ":")); Star_in [Category_space];
          Group signed_integer];
     IGNORECASE := true |}.

(** The three values a line yields: [(ph_value, orp_value, ntu_value)]. *)
Definition values : Type := option Num.float * option Z * option Z.

Definition truthy (data_string : option str) : bool :=
  match data_string with
  | Some (_ :: _) => true
  | _ => false
  end.

Definition text_of (data_string : option str) : str :=
  match data_string with Some s => s | None => [] end.

(** [''.join(c for c in data_string if ord(c) >= 32 or c in '\t\n\r')] *)
Definition clean (data_string : str) : str := filter printable data_string.

Section Parser.

Variable int_max_str_digits : nat.

(** [def parse_sensor_data(self, data_string)].  The three assignments
    follow the source: each variable starts as [None] and is overwritten
    when its pattern is found and the conversion does not raise
    ([except: pass]). *)
Definition parse_sensor_data (data_string : option str) : values :=
  if negb (truthy data_string) then (None, None, None)
  else
    let cleaned_data := clean (text_of data_string) in
    let ph_value : option Num.float := None in
    let orp_value : option Z := None in
    let ntu_value : option Z := None in
    let ph_value :=
      match search ph_pattern cleaned_data with
      | Some ph_match =>
          match Num.py_float (group_1 ph_match) with
          | Return v => Some v
          | Raise _ => ph_value
          end
      | None => ph_value
      end in
    let orp_value :=
      match search orp_pattern cleaned_data with
      | Some orp_match =>
          match Num.py_int int_max_str_digits (group_1 orp_match) with
          | Return v => Some v
          | Raise _ => orp_value
          end
      | None => orp_value
      end in
    let ntu_value :=
      match search ntu_pattern cleaned_data with
      | Some ntu_match =>
          match Num.py_int int_max_str_digits (group_1 ntu_match) with
          | Return v => Some v
          | Raise _ => ntu_value
          end
      | None => ntu_value
      end in
    (ph_value, orp_value, ntu_value).

End Parser.

(** The warnings of [validate_sensor_values], without their wording. *)
Inductive warning : Type :=
  | PhOutOfRange (ph_value : Num.float)
  | OrpOutOfRange (orp_value : Z)
  | NtuOutOfRange (ntu_value : Z).

(** [def validate_sensor_values(self, ph_value, orp_value, ntu_value)] *)
Definition validate_sensor_values (ph_value : option Num.float)
    (orp_value ntu_value : option Z) : list warning :=
  let warnings := [] in
  let warnings :=
    match ph_value with
    | Some ph =>
        if Num.lt ph Num.f0 || Num.gt ph Num.f14
        then warnings ++ [PhOutOfRange ph] else warnings
    | None => warnings
    end in
  let warnings :=
    match orp_value with
    | Some orp =>
        if ((orp <? -2000) || (orp >? 2000))%Z
        then warnings ++ [OrpOutOfRange orp] else warnings
    | None => warnings
    end in
  let warnings :=
    match ntu_value with
    | Some ntu =>
        if ((ntu <? 0) || (ntu >? 4000))%Z
        then warnings ++ [NtuOutOfRange ntu] else warnings
    | None => warnings
    end in
  warnings.



End SensorDataParser.

(* ================================================================== *)
(** * Code with effects: a state and exceptions *)
(* ================================================================== *)

Module Eff.

(** A computation over a state [S] that returns or raises; the state
    survives a raise, as the heap of a Python program does. *)
Definition M (S A : Type) : Type := S -> result A * S.

Definition ret {S A} (a : A) : M S A := fun s => (Return a, s).

Definition raise {S A} (e : exn) : M S A := fun s => (Raise e, s).

Definition mbind {S A B} (m : M S A) (k : A -> M S B) : M S B :=
  fun s =>
    match m s with
    | (Return a, s') => k a s'
    | (Raise e, s') => (Raise e, s')
    end.

(** [try: body except <handles>: handler] *)
Definition try_except {S A} (body : M S A) (handles : exn -> bool)
    (handler : exn -> M S A) : M S A :=
  fun s =>
    match body s with
    | (Return a, s') => (Return a, s')
    | (Raise e, s') => if handles e then handler e s' else (Raise e, s')
    end.

(** [try: body finally: cleanup] *)
Definition try_finally {S A} (body : M S A) (cleanup : M S unit) : M S A :=
  fun s =>
    match body s with
    | (r, s') =>
        match cleanup s' with
        | (Return _, s'') => (r, s'')
        | (Raise e, s'') => (Raise e, s'')
        end
    end.

Declare Scope eff_scope.
Delimit Scope eff_scope with eff.
Notation "x <- m ;; k" := (mbind m (fun x => k))
  (at level 61, m at next level, right associativity) : eff_scope.
Notation "m ;; k" := (mbind m (fun _ => k))
  (at level 61, right associativity) : eff_scope.

End Eff.

(* ================================================================== *)
(** * psycopg2 and the PostgreSQL server *)
(* ================================================================== *)

Module Pg.

(** The tuple [save_sensor_data] hands to its [INSERT]: the seven columns of
    [sensor_readings] it fills. *)
Record reading : Type := {
  timestamp : Z;
  ph_value : option Num.float;
  orp_value : option Z;
  ntu_value : option Z;
  ph_status : option string;
  orp_status : option string;
  water_quality_good : option bool
}.

Inductive statement : Type :=
  | SelectVersion               (* SELECT version(); *)
  | Select1                     (* SELECT 1; *)
  | CreateTable                 (* CREATE TABLE IF NOT EXISTS ... *)
  | Insert (values : reading)   (* INSERT INTO sensor_readings ... *)
  | SelectLast.                 (* SELECT * ... ORDER BY id DESC LIMIT 1; *)

(** What the outside does to the next driver call on an open connection:
    nothing, an error of the statement alone, or the loss of the
    connection (after which the driver counts the connection as closed). *)
Inductive fault : Type := Healthy | StatementError | ConnectionLost.

(** The driver calls, as they are logged. *)
Inductive event : Type :=
  | Connect
  | Execute (q : statement)
  | Commit
  | Rollback
  | Close.

(** A connection object with its cursor: [closed] is the attribute the
    source reads, [pending] the rows inserted in the open transaction. *)
Record connection : Type := {
  closed : bool;
  pending : list reading
}.

(** The [SensorDatabase] object ([self.connection]; [self.cursor] is the
    cursor of that connection, both [None] until the first successful
    [psycopg2.connect]) and the world around it. *)
Record state : Type := {
  self_connection : option connection;
  table : list reading;       (* committed rows of sensor_readings *)
  script : list fault;        (* faults of the coming driver calls *)
  trace : list event;         (* driver calls so far, oldest first *)
  clock : Z                   (* milliseconds *)
}.

Import Eff.
Local Open Scope eff_scope.

(** Code that uses the driver. *)
Definition Db (A : Type) : Type := Eff.M state A.

Definition get_connection : Db (option connection) :=
  fun s => (Return (self_connection s), s).

Definition set_connection (c : option connection) : Db unit :=
  fun s =>
    (Return tt,
     {| self_connection := c; table := table s; script := script s;
        trace := trace s; clock := clock s |}).

Definition log (e : event) : Db unit :=
  fun s =>
    (Return tt,
     {| self_connection := self_connection s; table := table s;
        script := script s; trace := trace s ++ [e]; clock := clock s |}).

(** The fault of the next driver call; a script that has run out is
    healthy from then on. *)
Definition next_fault : Db fault :=
  fun s =>
    match script s with
    | [] => (Return Healthy, s)
    | f :: rest =>
        (Return f,
         {| self_connection := self_connection s; table := table s;
            script := rest; trace := trace s; clock := clock s |})
    end.

Definition commit_rows (rows : list reading) : Db unit :=
  fun s =>
    (Return tt,
     {| self_connection := self_connection s; table := table s ++ rows;
        script := script s; trace := trace s; clock := clock s |}).

(** [datetime.now()] *)
Definition datetime_now : Db Z := fun s => (Return (clock s), s).

(** [time.sleep(ms / 1000)] *)
Definition sleep (ms : Z) : Db unit :=
  fun s =>
    (Return tt,
     {| self_connection := self_connection s; table := table s;
        script := script s; trace := trace s; clock := (clock s + ms)%Z |}).

Definition open_connection : connection :=
  {| closed := false; pending := [] |}.

Definition lost (c : connection) : connection :=
  {| closed := true; pending := [] |}.

(** [psycopg2.connect(...)]: a new connection, or [OperationalError]. *)
Definition psycopg2_connect : Db connection :=
  log Connect ;;
  f <- next_fault ;;
  match f with
  | Healthy => ret open_connection
  | StatementError | ConnectionLost => raise DbError
  end.

(** [self.cursor.execute(q)].  Without a cursor the attribute lookup on
    [None] fails; on a closed connection the driver raises
    [InterfaceError]. *)
Definition cursor_execute (q : statement) : Db unit :=
  c <- get_connection ;;
  match c with
  | None => raise AttributeError
  | Some c =>
      log (Execute q) ;;
      if closed c then raise DbError
      else
        f <- next_fault ;;
        match f with
        | Healthy =>
            match q with
            | Insert values =>
                set_connection
                  (Some {| closed := false;
                           pending := pending c ++ [values] |})
            | _ => ret tt
            end
        | StatementError => raise DbError
        | ConnectionLost => set_connection (Some (lost c)) ;; raise DbError
        end
  end.

(** [self.connection.commit()] *)
Definition connection_commit : Db unit :=
  c <- get_connection ;;
  match c with
  | None => raise AttributeError
  | Some c =>
      log Commit ;;
      if closed c then raise DbError
      else
        f <- next_fault ;;
        match f with
        | Healthy =>
            commit_rows (pending c) ;;
            set_connection (Some open_connection)
        | StatementError => raise DbError
        | ConnectionLost => set_connection (Some (lost c)) ;; raise DbError
        end
  end.

(** [self.connection.rollback()]: [InterfaceError] on a closed connection,
    as every call on one. *)
Definition connection_rollback : Db unit :=
  c <- get_connection ;;
  match c with
  | None => raise AttributeError
  | Some c =>
      log Rollback ;;
      if closed c then raise DbError
      else
        f <- next_fault ;;
        match f with
        | Healthy => set_connection (Some open_connection)
        | StatementError | ConnectionLost =>
            set_connection (Some (lost c)) ;; raise DbError
        end
  end.

(** [self.connection.close()]: the server drops the open transaction. *)
Definition connection_close : Db unit :=
  c <- get_connection ;;
  match c with
  | None => raise AttributeError
  | Some c => log Close ;; set_connection (Some (lost c))
  end.

End Pg.

(* ================================================================== *)
(** * [class SensorDatabase] *)
(* ================================================================== *)

Module SensorDatabase.

Import Pg.
Import Eff.
Local Open Scope eff_scope.

(** [def connect(self)] *)
Definition connect : Db bool :=
  try_except
    (c <- psycopg2_connect ;;
     set_connection (Some c) ;;
     cursor_execute SelectVersion ;;
     ret true)
    any_exception (fun _ => ret false).

(** [def check_connection(self)] *)
Definition check_connection : Db bool :=
  try_except
    (c <- get_connection ;;
     match c with
     | Some c =>
         if negb (closed c) then cursor_execute Select1 ;; ret true
         else ret false
     | None => ret false
     end)
    is_db_error (fun _ => ret false).

(** [def reconnect(self)] *)
Definition reconnect : Db bool :=
  c <- get_connection ;;
  match c with
  | Some _ => try_except connection_close any_exception (fun _ => ret tt)
  | None => ret tt
  end ;;
  connect.

(** [def create_table(self)] *)
Definition create_table : Db bool :=
  try_except
    (cursor_execute CreateTable ;; connection_commit ;; ret true)
    is_db_error (fun _ => ret false).

(** [def _get_ph_status(self, ph_value)] *)
Definition _get_ph_status (ph_value : Num.float) : string :=
  if Num.lt ph_value Num.f6_5 then "酸性"
  else if Num.gt ph_value Num.f7_5 then "鹼性"
  else "中性".

(** [def _get_orp_status(self, orp_value)] *)
Definition _get_orp_status (orp_value : Z) : string :=
  if (orp_value >? 650)%Z then "強氧化性"
  else if (orp_value >? 300)%Z then "氧化性"
  else if (orp_value >? 0)%Z then "弱氧化性"
  else "還原性".

(** [def _is_water_quality_good(self, ph_value, orp_value)] *)
Definition _is_water_quality_good (ph_value : option Num.float)
    (orp_value : option Z) : option bool :=
  match ph_value, orp_value with
  | Some ph, Some orp =>
      Some (Num.ge ph Num.f6_5 && Num.le ph Num.f8_5
            && (orp >=? 200)%Z && (orp <=? 800)%Z)
  | _, _ => None
  end.

(** The [values] tuple of [save_sensor_data]. *)
Definition values_of (now : Z) (ph_value : option Num.float)
    (orp_value ntu_value : option Z) : reading :=
  let ph_status :=
    match ph_value with
    | Some ph => Some (_get_ph_status ph)
    | None => None
    end in
  let orp_status :=
    match orp_value with
    | Some orp => Some (_get_orp_status orp)
    | None => None
    end in
  let water_quality_good := _is_water_quality_good ph_value orp_value in
  {| timestamp := now;
     ph_value := ph_value;
     orp_value := orp_value;
     ntu_value := ntu_value;
     ph_status := ph_status;
     orp_status := orp_status;
     water_quality_good := water_quality_good |}.

(** The body of [save_sensor_data] after the connection check: the insert,
    the commit and the read-back of the newest row. *)
Definition write_reading (ph_value : option Num.float)
    (orp_value ntu_value : option Z) : Db bool :=
  now <- datetime_now ;;
  cursor_execute (Insert (values_of now ph_value orp_value ntu_value)) ;;
  connection_commit ;;
  cursor_execute SelectLast ;;
  ret true.

(** [def save_sensor_data(self, ph_value, orp_value, ntu_value=None)] *)
Definition save_sensor_data (ph_value : option Num.float)
    (orp_value ntu_value : option Z) : Db bool :=
  try_except
    (alive <- check_connection ;;
     usable <- (if negb alive then reconnect else ret true) ;;
     if negb usable then ret false
     else write_reading ph_value orp_value ntu_value)
    is_db_error
    (fun _ =>
       c <- get_connection ;;
       match c with
       | Some _ => connection_rollback
       | None => ret tt
       end ;;
       ret false).

(** [def close(self)] *)
Definition close : Db unit :=
  c <- get_connection ;;
  match c with
  | Some _ => connection_close
  | None => ret tt
  end.

(** ** Vocabulary of the statements about the store *)

(** No row is waiting in an open transaction. *)
Definition clean (s : state) : Prop :=
  match self_connection s with
  | Some c => pending c = []
  | None => True
  end.

Definition is_connect (e : event) : bool :=
  match e with Connect => true | _ => false end.

(** The connection attempts among driver calls. *)
Definition connects (evs : list event) : nat :=
  List.length (filter is_connect evs).

Definition is_healthy (f : fault) : bool :=
  match f with Healthy => true | _ => false end.

(** The next [n] driver calls meet no fault. *)
Definition healthy_for (n : nat) (s : state) : bool :=
  forallb is_healthy (firstn n (script s)).

Definition connection_is_open (s : state) : bool :=
  match self_connection s with
  | Some c => negb (closed c)
  | None => false
  end.

(** An open connection with nothing pending, an empty table, and the
    faults of the coming driver calls. *)
Definition connected (faults : list fault) : state :=
  {| self_connection := Some open_connection; table := [];
     script := faults; trace := []; clock := 0 |}.

End SensorDatabase.

(* ================================================================== *)
(** * [def read_arduino_data]: the ingestion loop *)
(* ================================================================== *)

Module Ingestion.

Import Pg SensorDataParser.
Import Eff.
Local Open Scope eff_scope.

(** The local variables of [read_arduino_data] that live across
    iterations. *)
Record loop_state : Type := {
  ph_readings : list Num.float;
  orp_readings : list Z;
  ntu_readings : list Z;
  consecutive_errors : nat
}.

Definition initial : loop_state :=
  {| ph_readings := []; orp_readings := []; ntu_readings := [];
     consecutive_errors := 0 |}.

Definition max_consecutive_errors : nat := 10.

(** [if value is not None: readings.append(value)] *)
Definition append_reading {A} (readings : list A) (value : option A)
    : list A :=
  match value with
  | Some v => readings ++ [v]
  | None => readings
  end.

(** [if len(readings) > 50: readings.pop(0)] *)
Definition keep_50 {A} (readings : list A) : list A :=
  if Nat.ltb 50 (List.length readings) then tl readings else readings.

Definition is_some {A} (v : option A) : bool :=
  match v with Some _ => true | None => false end.

(** [readings[-5:]] *)
Definition last_5 {A} (readings : list A) : list A :=
  skipn (List.length readings - 5) readings.

(** [sum(readings)] for [int]s *)
Definition sum (readings : list Z) : Z := fold_left Z.add readings 0%Z.

(** [if len(readings) >= 5: avg = sum(readings[-5:]) / 5], for a history of
    [int]s: the average that is printed, [None] when the history is
    shorter.  The division raises when the sum is too large. *)
Definition average_of_last_5 (readings : list Z)
    : result (option Num.float) :=
  if Nat.leb 5 (List.length readings) then
    bind (Num.true_divide (sum (last_5 readings)) 5)
         (fun avg => Return (Some avg))
  else Return None.

(** The three characters of the start-up banner the source looks for. *)
Definition banner : str := [21021; 22987; 21270]%N.

(** ["初始化" in raw_data or "sensor" in raw_data.lower()] *)
Definition is_system_message (raw_data : str) : bool :=
  contains banner raw_data || contains (of_ascii "sensor") (lower raw_data).

Section Loop.

Variable int_max_str_digits : nat.

(** One iteration of [while True] on the value [read_line()] returned; the
    boolean is [true] when the iteration ends in [break].  After the save
    the source prints the averages of the last five readings: the one of
    the pH history is a sum and a division of [float]s, which cannot
    raise and is left out; the two of the [int] histories can. *)
Definition iteration (st : loop_state) (raw_data : option str)
    : Db (loop_state * bool) :=
  match raw_data with
  | None => sleep 100 ;; ret (st, false)
  | Some [] => sleep 100 ;; ret (st, false)
  | Some raw =>
      let '(ph_value, orp_value, ntu_value) :=
        parse_sensor_data int_max_str_digits raw_data in
      if is_some ph_value || is_some orp_value || is_some ntu_value then
        let st :=
          {| consecutive_errors := 0;
             ph_readings := keep_50 (append_reading (ph_readings st) ph_value);
             orp_readings :=
               keep_50 (append_reading (orp_readings st) orp_value);
             ntu_readings :=
               keep_50 (append_reading (ntu_readings st) ntu_value) |} in
        _ <- SensorDatabase.save_sensor_data ph_value orp_value ntu_value ;;
        _ <- (fun s => (average_of_last_5 (orp_readings st), s)) ;;
        _ <- (fun s => (average_of_last_5 (ntu_readings st), s)) ;;
        sleep 5000 ;;
        ret (st, false)
      else
        let consecutive_errors := S (consecutive_errors st) in
        let counted (n : nat) :=
          {| consecutive_errors := n; ph_readings := ph_readings st;
             orp_readings := orp_readings st;
             ntu_readings := ntu_readings st |} in
        if Nat.leb max_consecutive_errors consecutive_errors
        then ret (counted consecutive_errors, true)
        else
          let consecutive_errors :=
            if is_system_message raw then 0%nat else consecutive_errors in
          sleep 5000 ;;
          ret (counted consecutive_errors, false)
  end.

(** How the loop stopped on a finite stretch of input. *)
Inductive stop : Type :=
  | Break          (* the circuit breaker *)
  | OutOfInput.    (* the loop would go on reading *)

(** The loop over the successive results of [read_line()]. *)
Fixpoint loop (st : loop_state) (lines : list (option str))
    : Db (loop_state * stop) :=
  match lines with
  | [] => ret (st, OutOfInput)
  | raw_data :: rest =>
      r <- iteration st raw_data ;;
      if snd r then ret (fst r, Break) else loop (fst r) rest
  end.

Inductive outcome : Type :=
  | NotStarted                                  (* returned before the loop *)
  | Stopped (st : loop_state) (how : stop)
  | Crashed (e : exn).                          (* except Exception *)

(** [def read_arduino_data(...)], given whether the serial port opens and
    what [read_line()] returns, call after call. *)
Definition read_arduino_data (serial_opens : bool)
    (lines : list (option str)) : Db outcome :=
  if negb serial_opens then ret NotStarted
  else
    connected <- SensorDatabase.connect ;;
    if negb connected then ret NotStarted
    else
      created <- SensorDatabase.create_table ;;
      if negb created then SensorDatabase.close ;; ret NotStarted
      else
        r <- try_except
               (sleep 3000 ;;
                r <- loop initial lines ;;
                ret (Stopped (fst r) (snd r)))
               any_exception (fun e => ret (Crashed e)) ;;
        SensorDatabase.close ;;
        ret r.

End Loop.

(** ** Vocabulary of the statements about the loop *)

(** A row with at least one of the three measurements. *)
Definition has_measurement (r : reading) : bool :=
  is_some (ph_value r) || is_some (orp_value r) || is_some (ntu_value r).

(** From [s] to [s'] the table only gained rows, each with a
    measurement. *)
Definition rows_added (s s' : state) : Prop :=
  exists rows,
    table s' = table s ++ rows
    /\ Forall (fun r => has_measurement r = true) rows.

(** The row written for a reading that holds the turbidity alone. *)
Definition turbidity_row (now ntu : Z) : reading :=
  {| timestamp := now; ph_value := None; orp_value := None;
     ntu_value := Some ntu; ph_status := None; orp_status := None;
     water_quality_good := None |}.

Definition garbage : option str := Some (of_ascii "garbage").

Definition sensor_ready : option str := Some (of_ascii "Sensor ready").

Definition turbidity_line : str := of_ascii "NTU: 12".

(** Nothing connected yet, a healthy database. *)
Definition offline : state :=
  {| self_connection := None; table := []; script := []; trace := [];
     clock := 0 |}.

Definition counted (n : nat) : loop_state :=
  {| ph_readings := []; orp_readings := []; ntu_readings := [];
     consecutive_errors := n |}.

(** The local variables after a line that held a measurement. *)
Definition recorded (st : loop_state) (ph_value : option Num.float)
    (orp_value ntu_value : option Z) : loop_state :=
  {| consecutive_errors := 0;
     ph_readings := keep_50 (append_reading (ph_readings st) ph_value);
     orp_readings := keep_50 (append_reading (orp_readings st) orp_value);
     ntu_readings := keep_50 (append_reading (ntu_readings st) ntu_value) |}.

(** The two averages of [int]s an iteration computes, in the order of the
    source. *)
Definition averages (st : loop_state) : result unit :=
  bind (average_of_last_5 (orp_readings st)) (fun _ =>
  bind (average_of_last_5 (ntu_readings st)) (fun _ => Return tt)).

(** The three histories hold at most the last 50 values. *)
Definition histories_bounded (st : loop_state) : Prop :=
  (List.length (ph_readings st) <= 50
   /\ List.length (orp_readings st) <= 50
   /\ List.length (ntu_readings st) <= 50)%nat.

(** A reading outside the range [validate_sensor_values] accepts. *)
Definition ph_99_line : str := of_ascii "pH value: 99.0".

(** A value of at most 4000 either way, as are the redox potentials and
    the turbidities [validate_sensor_values] lets pass without a
    warning. *)
Definition moderate (v : Z) : Prop := (-4000 <= v <= 4000)%Z.

Definition moderate_value (v : option Z) : Prop :=
  match v with
  | Some v => moderate v
  | None => True
  end.

(** The two histories of [int]s hold moderate values only. *)
Definition moderate_histories (st : loop_state) : Prop :=
  Forall moderate (orp_readings st) /\ Forall moderate (ntu_readings st).

(** [a / 5] returns for each of the [n] integers from [a] on. *)
Fixpoint divides_from (n : nat) (a : Z) : bool :=
  match n with
  | O => true
  | S k =>
      match Num.true_divide a 5 with
      | Return _ => divides_from k (a + 1)
      | Raise _ => false
      end
  end.

(** A redox potential of 310 digits, as the board could print it. *)
Definition huge_orp_line : str := of_ascii "ORP: 1" ++ repeat 48%N 309.

(** Nothing connected yet, and the faults of the coming driver calls. *)
Definition offline_before (faults : list fault) : state :=
  {| self_connection := None; table := []; script := faults; trace := [];
     clock := 0 |}.

(** A database that accepts the connection and the table and then
    refuses five [INSERT]s: for each reading the check passes, the
    statement fails and the rollback goes through. *)
Definition refusing_inserts : list fault :=
  repeat Healthy 4 ++ List.concat (repeat [Healthy; StatementError; Healthy] 5).

End Ingestion.

(* ================================================================== *)
(** * [routers/api_v1/endpoints/data.py] *)
(* ================================================================== *)

Module Data.

Import Eff.
Local Open Scope eff_scope.
Local Open Scope string_scope.

(** The inner dict of a result, [{"timestamp": ..., "ph_value": ...,
    "orp_value": ..., "ntu_value": ...}]: its four keys are fixed by the
    dict display that builds it, each value is a [str] or [None]. *)
Record latest_data : Type := {
  timestamp : option string;
  ph_value : option string;
  orp_value : option string;
  ntu_value : option string
}.

(** A row of the query [SELECT timestamp, ph_value, orp_value, ntu_value]:
    each column is kept as the text the source renders it to
    ([isoformat()] for the timestamp, [str()] for the numbers), [None] for
    SQL NULL. *)
Definition row : Type := latest_data.

(** The values the result dicts hold. *)
Inductive value : Type :=
  | Str (s : string)
  | Iso (instant : Z)            (* datetime.isoformat() of a clock reading *)
  | Int (n : Z)
  | EmptyList                    (* [] *)
  | Latest (d : latest_data).

(** A dict with [str] keys, in insertion order. *)
Definition dict : Type := list (string * value).

Fixpoint getitem (d : dict) (k : string) : option value :=
  match d with
  | [] => None
  | (k', v) :: rest => if String.eqb k' k then Some v else getitem rest k
  end.

(** [k in d] *)
Definition has_key (k : string) (d : dict) : bool :=
  match getitem d k with Some _ => true | None => false end.

(** [d[k] = v] *)
Fixpoint setitem (d : dict) (k : string) (v : value) : dict :=
  match d with
  | [] => [(k, v)]
  | (k', v') :: rest =>
      if String.eqb k' k then (k, v) :: rest
      else (k', v') :: setitem rest k v
  end.

(** Result dicts are objects: the cache and the callers hold references to
    them, and [get_data] writes into the one it was given. *)
Definition ref : Type := nat.

(** What the store answers to one [get_db_connection()] followed by
    [fetchrow]. *)
Inductive answer : Type :=
  | ConnectFails                     (* get_db_connection() returns None *)
  | FetchFails (message : string)     (* fetchrow raises *)
  | NoRow                            (* fetchrow returns None *)
  | Row (r : row).

(** The module-level variables [cached_data] and [last_cache_time], the
    objects allocated so far, and the world: the clock (microseconds), the
    answers of the store to the coming [fetchrow] and [COUNT] queries
    ([None]: the count query fails), and the number of [fetchrow]
    queries sent so far. *)
Record state : Type := {
  heap : list dict;
  cached_data : option ref;
  last_cache_time : option Z;
  clock : Z;
  answers : list answer;
  counts : list (option Z);
  queries : nat
}.

Definition App (A : Type) : Type := Eff.M state A.

Definition cache_duration : Z := 5.

Definition seconds (n : Z) : Z := (n * 1000000)%Z.

(** [datetime.now()] *)
Definition datetime_now : App Z := fun s => (Return (clock s), s).

(** [await asyncio.sleep(n)] *)
Definition sleep (n : Z) : App unit :=
  fun s =>
    (Return tt,
     {| heap := heap s; cached_data := cached_data s;
        last_cache_time := last_cache_time s;
        clock := (clock s + seconds n)%Z; answers := answers s;
        counts := counts s; queries := queries s |}).

(** A dict display: a new object. *)
Definition new_dict (d : dict) : App ref :=
  fun s =>
    (Return (List.length (heap s)),
     {| heap := heap s ++ [d]; cached_data := cached_data s;
        last_cache_time := last_cache_time s; clock := clock s;
        answers := answers s; counts := counts s; queries := queries s |}).

Definition deref (r : ref) : App dict :=
  fun s => (Return (nth r (heap s) []), s).

Fixpoint update_nth (n : nat) (f : dict -> dict) (h : list dict)
    : list dict :=
  match h, n with
  | [], _ => []
  | d :: rest, O => f d :: rest
  | d :: rest, S n' => d :: update_nth n' f rest
  end.

(** [result[k] = v] on the object [r] refers to. *)
Definition store_item (r : ref) (k : string) (v : value) : App unit :=
  fun s =>
    (Return tt,
     {| heap := update_nth r (fun d => setitem d k v) (heap s);
        cached_data := cached_data s; last_cache_time := last_cache_time s;
        clock := clock s; answers := answers s; counts := counts s;
        queries := queries s |}).

(** [cached_data = result; last_cache_time = current_time] *)
Definition update_cache (result : ref) (current_time : Z) : App unit :=
  fun s =>
    (Return tt,
     {| heap := heap s; cached_data := Some result;
        last_cache_time := Some current_time; clock := clock s;
        answers := answers s; counts := counts s; queries := queries s |}).

(** [await get_db_connection()]: [None] when the connection cannot be made
    (the source catches the exception), else a connection, which here
    carries what its [fetchrow] will answer.  A store whose answers have
    run out cannot be reached. *)
Definition get_db_connection : App (option answer) :=
  fun s =>
    match answers s with
    | [] => (Return None, s)
    | a :: rest =>
        (Return (match a with ConnectFails => None | _ => Some a end),
         {| heap := heap s; cached_data := cached_data s;
            last_cache_time := last_cache_time s; clock := clock s;
            answers := rest; counts := counts s; queries := queries s |})
    end.

(** [await conn.fetchrow(query)] *)
Definition fetchrow (conn : answer) : App (option row) :=
  fun s =>
    let s' :=
      {| heap := heap s; cached_data := cached_data s;
         last_cache_time := last_cache_time s; clock := clock s;
         answers := answers s; counts := counts s;
         queries := S (queries s) |} in
    match conn with
    | Row r => (Return (Some r), s')
    | NoRow => (Return None, s')
    | FetchFails message => (Raise (QueryError message), s')
    | ConnectFails => (Raise (QueryError ""), s')
    end.

(** [await conn.close()] *)
Definition conn_close (conn : answer) : App unit := ret tt.

(** [str(e)] *)
Definition str_of_exn (e : exn) : string :=
  match e with
  | QueryError message => message
  | KeyError key => "'" ++ key ++ "'"
  | _ => ""
  end.

(** The cache test of [read_latest_data]:
    [cached_data and last_cache_time and
     (current_time - last_cache_time).total_seconds() < cache_duration]. *)
Definition cache_is_fresh (s : state) (current_time : Z) : option ref :=
  match cached_data s, last_cache_time s with
  | Some r, Some t =>
      match nth r (heap s) [] with
      | [] => None
      | _ :: _ =>
          if (current_time - t <? seconds cache_duration)%Z then Some r
          else None
      end
  | _, _ => None
  end.

(** [async def read_latest_data()] *)
Definition read_latest_data : App ref :=
  current_time <- datetime_now ;;
  fresh <- (fun s => (Return (cache_is_fresh s current_time), s)) ;;
  match fresh with
  | Some cached => ret cached
  | None =>
      conn <- get_db_connection ;;
      match conn with
      | None => new_dict [("error", Str "無法連接到資料庫")]
      | Some conn =>
          try_finally
            (try_except
               (r <- fetchrow conn ;;
                match r with
                | None =>
                    new_dict [("message", Str "資料庫中沒有數據");
                              ("data", EmptyList)]
                | Some r =>
                    result <-
                      new_dict
                        [("status", Str "success");
                         ("latest_data",
                          Latest {| timestamp := timestamp r;
                                    ph_value := ph_value r;
                                    orp_value := orp_value r;
                                    ntu_value := ntu_value r |});
                         ("last_updated", Iso current_time)] ;;
                    update_cache result current_time ;;
                    ret result
                end)
               any_exception
               (fun e =>
                  new_dict
                    [("error",
                      Str ("讀取數據時發生錯誤: " ++ str_of_exn e))]))
            (conn_close conn)
      end
  end.

(** [async def get_total_count()]: [result or 0], and [0] on any failure. *)
Definition get_total_count : App Z :=
  fun s =>
    match counts s with
    | [] => (Return 0%Z, s)
    | c :: rest =>
        (Return (match c with Some n => n | None => 0%Z end),
         {| heap := heap s; cached_data := cached_data s;
            last_cache_time := last_cache_time s; clock := clock s;
            answers := answers s; counts := rest; queries := queries s |})
    end.

(** What the framework sends for [GET /data]: the returned dict with
    status 200, or the [HTTPException] the handler raised. *)
Inductive response : Type :=
  | Ok200 (body : ref)
  | HTTPException (status_code : Z) (detail : option value).

(** [async def get_data()] *)
Definition get_data : App response :=
  result <- read_latest_data ;;
  d <- deref result ;;
  if has_key "error" d then ret (HTTPException 500 (getitem d "error"))
  else
    total_count <- get_total_count ;;
    store_item result "total_records" (Int total_count) ;;
    ret (Ok200 result).

(** ** The [/replace] stream *)

(** [current_data_key] and [last_sent_replace_data]: [None], the text of a
    timestamp, or [str(latest_data)].  The printed form of a dict is kept
    as the dict it prints (printing is one-to-one on these dicts, and no
    timestamp reads like a dict). *)
Inductive key : Type :=
  | KNone
  | KTimestamp (text : string)
  | KStr (d : latest_data).

Definition opt_eqb (a b : option string) : bool :=
  match a, b with
  | None, None => true
  | Some x, Some y => String.eqb x y
  | _, _ => false
  end.

Definition latest_eqb (a b : latest_data) : bool :=
  opt_eqb (timestamp a) (timestamp b) && opt_eqb (ph_value a) (ph_value b)
  && opt_eqb (orp_value a) (orp_value b)
  && opt_eqb (ntu_value a) (ntu_value b).

Definition key_eqb (a b : key) : bool :=
  match a, b with
  | KNone, KNone => true
  | KTimestamp x, KTimestamp y => String.eqb x y
  | KStr x, KStr y => latest_eqb x y
  | _, _ => false
  end.

(** ["timestamp" in latest_data and latest_data["timestamp"]] *)
Definition has_timestamp (d : latest_data) : option string :=
  match timestamp d with
  | Some "" => None
  | Some text => Some text
  | None => None
  end.

(** The identity key of a result dict. *)
Definition data_key (data : dict) : key :=
  match getitem data "latest_data" with
  | Some (Latest latest) =>
      match has_timestamp latest with
      | Some text => KTimestamp text
      | None => KStr latest
      end
  | Some _ => KNone
  | None => KNone
  end.

(** [d[k]], which raises [KeyError] *)
Definition subscript (d : dict) (k : string) : App value :=
  match getitem d k with
  | Some v => ret v
  | None => raise (KeyError k)
  end.

(** One pass of the [while True] of [event_generator]: the events it
    yields (the dicts it dumps as JSON) and [last_sent_replace_data]
    afterwards. *)
Definition poll (last_sent_replace_data : key) : App (list dict * key) :=
  try_except
    (data <- read_latest_data ;;
     data <- deref data ;;
     if has_key "error" data then
       error <- subscript data "error" ;;
       now <- datetime_now ;;
       sleep 5 ;;
       ret ([[("error", error); ("timestamp", Iso now)]],
            last_sent_replace_data)
     else
       let current_data_key := data_key data in
       if negb (key_eqb current_data_key last_sent_replace_data) then
         latest <- subscript data "latest_data" ;;
         now <- datetime_now ;;
         sleep 5 ;;
         ret ([[("latest_data", latest); ("timestamp", Iso now);
                ("status", Str "success")]],
              current_data_key)
       else
         sleep 5 ;;
         ret ([], last_sent_replace_data))
    any_exception
    (fun e =>
       now <- datetime_now ;;
       sleep 5 ;;
       ret ([[("error", Str ("串流發生錯誤: " ++ str_of_exn e));
              ("timestamp", Iso now)]],
            last_sent_replace_data)).

(** The first [n] passes of [event_generator], [last_sent_replace_data]
    starting at [None] in [stream_data_with_replace]. *)
Fixpoint passes (n : nat) (last_sent_replace_data : key)
    : App (list dict * key) :=
  match n with
  | O => ret ([], last_sent_replace_data)
  | S n' =>
      r <- poll last_sent_replace_data ;;
      r' <- passes n' (snd r) ;;
      ret ((fst r ++ fst r')%list, snd r')
  end.

Definition event_generator (n : nat) : App (list dict) :=
  r <- passes n KNone ;;
  ret (fst r).

(** ** Vocabulary of the statements about the cache and the stream *)

(** Two states with the same cache variables and the same objects. *)
Definition same_cache (s1 s2 : state) : Prop :=
  heap s1 = heap s2 /\ cached_data s1 = cached_data s2
  /\ last_cache_time s1 = last_cache_time s2.

(** The store cannot be reached, or its query raises. *)
Definition store_fails (s : state) : Prop :=
  match answers s with
  | [] | ConnectFails :: _ | FetchFails _ :: _ => True
  | _ => False
  end.

(** The dict a successful fetch builds. *)
Definition success_dict (r : row) (current_time : Z) : dict :=
  [("status", Str "success");
   ("latest_data",
    Latest {| timestamp := timestamp r; ph_value := ph_value r;
              orp_value := orp_value r; ntu_value := ntu_value r |});
   ("last_updated", Iso current_time)].

(** The dict [read_latest_data] builds when the table has no row. *)
Definition no_data_dict : dict :=
  [("message", Str "資料庫中沒有數據"); ("data", EmptyList)].

(** What the next [COUNT] query of [get_total_count] comes to. *)
Definition next_count (s : state) : Z :=
  match counts s with
  | Some n :: _ => n
  | _ => 0%Z
  end.


(** The event a pass yields for a row at clock reading [now]. *)
Definition data_event (r : row) (now : Z) : dict :=
  [("latest_data", Latest r); ("timestamp", Iso now);
   ("status", Str "success")].

Definition error_event (message : string) (now : Z) : dict :=
  [("error", Str message); ("timestamp", Iso now)].





(** States for the worked examples: a start with nothing cached, against a
    store that answers as listed. *)
Definition started (store : list answer) : state :=
  {| heap := []; cached_data := None; last_cache_time := None;
     clock := 0; answers := store; counts := [Some 0%Z]; queries := 0 |}.

Definition reading_at (text : string) : row :=
  {| timestamp := Some text; ph_value := Some "7.00";
     orp_value := Some "400"; ntu_value := None |}.

End Data.

(* ================================================================== *)
(** * [SerialDataReader.read_line] and the serial port *)
(* ================================================================== *)

Module SerialPort.

Import Eff SerialDataReader.
Local Open Scope eff_scope.

(** What the port does at one call of [read_line]: nothing is waiting
    ([in_waiting] is 0), [readline()] returns bytes (none at all when it
    times out), or the driver raises. *)
Inductive arrival : Type :=
  | Quiet
  | Line (raw : bytes)
  | Failure (e : exn).

(** [self.serial_connection]: [None] until [connect()] succeeds, then a
    port that is open or closed; and what arrives at the coming calls. *)
Record state : Type := {
  serial_connection : option bool;     (* [Some is_open] *)
  arrivals : list arrival
}.

Definition Port (A : Type) : Type := Eff.M state A.

Definition next_arrival : Port arrival :=
  fun s =>
    match arrivals s with
    | [] => (Return Quiet, s)
    | a :: rest =>
        (Return a,
         {| serial_connection := serial_connection s; arrivals := rest |})
    end.

(** [self.serial_connection.in_waiting > 0] followed, when it holds, by
    [self.serial_connection.readline()]. *)
Definition readline_if_waiting : Port (option bytes) :=
  a <- next_arrival ;;
  match a with
  | Quiet => ret None
  | Line raw => ret (Some raw)
  | Failure e => raise e
  end.

Section Reader.

Variable cjk : cjk_codecs.

(** [def read_line(self)] *)
Definition read_line : Port (option str) :=
  fun s =>
    match serial_connection s with
    | None | Some false => ret None s
    | Some true =>
        try_except
          (waiting <- readline_if_waiting ;;
           match waiting with
           | Some raw_data =>
               if truthy (PyBytes raw_data) then
                 match snd (safe_decode cjk (PyBytes raw_data)) with
                 | Return decoded_data => ret (Some decoded_data)
                 | Raise e => raise e
                 end
               else ret None
           | None => ret None
           end)
          any_exception (fun _ => ret None) s
    end.

End Reader.

(** [def close(self)] *)
Definition close : Port unit :=
  fun s =>
    match serial_connection s with
    | Some true =>
        (Return tt,
         {| serial_connection := Some false; arrivals := arrivals s |})
    | _ => (Return tt, s)
    end.

(** An open port with the given arrivals ahead. *)
Definition listening (ahead : list arrival) : state :=
  {| serial_connection := Some true; arrivals := ahead |}.

End SerialPort.

(* ================================================================== *)
(** * [DatabaseConfig] and [test_database_connection] *)
(* ================================================================== *)

Module Startup.

Import Eff Pg.
Local Open Scope eff_scope.
Local Open Scope string_scope.

(** [self.config]: the dict of the local settings or the connection
    string of the hosted database. *)
Inductive config : Type :=
  | LocalConfig
  | RenderConfig (database_url : string).

(** [DatabaseConfig.get_render_config()], given the value of the
    environment variable [DATABASE_URL]: unset and empty both raise. *)
Definition get_render_config (DATABASE_URL : option string)
    : result string :=
  match DATABASE_URL with
  | Some (String c rest) => Return (String c rest)
  | Some EmptyString | None => Raise ValueError
  end.

(** [SensorDatabase.__init__(self, config_type)]: the exception of the
    configuration is printed and raised again. *)
Definition init (config_type : string) (DATABASE_URL : option string)
    : result config :=
  if String.eqb config_type "local" then Return LocalConfig
  else if String.eqb config_type "render" then
    bind (get_render_config DATABASE_URL)
         (fun url => Return (RenderConfig url))
  else Raise ValueError.

(** [def test_database_connection(db_type)] *)
Definition test_database_connection (db_type : string)
    (DATABASE_URL : option string) : Db bool :=
  try_except
    (match init db_type DATABASE_URL with
     | Raise e => raise e
     | Return _ =>
         connected <- SensorDatabase.connect ;;
         if connected then
           _ <- SensorDatabase.create_table ;;
           SensorDatabase.close ;;
           ret true
         else ret false
     end)
    any_exception (fun _ => ret false).

End Startup.

(* ================================================================== *)
(** * [data.py]: the history, the count and the health check *)
(* ================================================================== *)

Module Queries.

Import Eff.
Local Open Scope eff_scope.
Local Open Scope string_scope.

(** A formatted row, as in [Data]. *)
Definition row : Type := Data.latest_data.

(** The values of the dicts these handlers return. *)
Inductive value : Type :=
  | Str (s : string)
  | Iso (instant : Z)
  | Int (n : Z)
  | Rows (items : list row).

Definition dict : Type := list (string * value).

Fixpoint getitem (d : dict) (k : string) : option value :=
  match d with
  | [] => None
  | (k', v) :: rest => if String.eqb k' k then Some v else getitem rest k
  end.

(** [k in d] *)
Definition has_key (k : string) (d : dict) : bool :=
  match getitem d k with Some _ => true | None => false end.

(** The server as one connection sees it: what it answers to the history
    query with a given [LIMIT], to [SELECT COUNT( * )] and to
    [SELECT 1]. *)
Record connection : Type := {
  fetch_reply : Z -> result (list row);
  count_reply : result (option Z);
  select_1_reply : result (option Z)
}.

(** The world: the server ([None] when it cannot be reached), the
    connections opened and closed so far, the clock. *)
Record state : Type := {
  server : option connection;
  opened : nat;
  closed : nat;
  clock : Z
}.

Definition App (A : Type) : Type := Eff.M state A.

(** [datetime.now()] *)
Definition datetime_now : App Z := fun s => (Return (clock s), s).

(** [async def get_db_connection()]: the exception of a failed
    [asyncpg.connect] is caught and [None] returned. *)
Definition get_db_connection : App (option connection) :=
  fun s =>
    match server s with
    | None => (Return None, s)
    | Some conn =>
        (Return (Some conn),
         {| server := server s; opened := S (opened s); closed := closed s;
            clock := clock s |})
    end.

(** [await conn.close()] *)
Definition conn_close (conn : connection) : App unit :=
  fun s =>
    (Return tt,
     {| server := server s; opened := opened s; closed := S (closed s);
        clock := clock s |}).

(** [await conn.fetch(query, limit)] *)
Definition fetch (conn : connection) (limit : Z) : App (list row) :=
  fun s => (fetch_reply conn limit, s).

(** [await conn.fetchval(query)] *)
Definition fetchval (reply : result (option Z)) : App (option Z) :=
  fun s => (reply, s).

Definition cannot_connect : dict := [("error", Str "無法連接到資料庫")].

Definition read_error (e : exn) : dict :=
  [("error", Str ("讀取數據時發生錯誤: " ++ Data.str_of_exn e))].

(** The dict built from a row of the history. *)
Definition formatted (r : row) : row :=
  {| Data.timestamp := Data.timestamp r; Data.ph_value := Data.ph_value r;
     Data.orp_value := Data.orp_value r;
     Data.ntu_value := Data.ntu_value r |}.

(** [async def read_all_data(limit)] *)
Definition read_all_data (limit : Z) : App dict :=
  conn <- get_db_connection ;;
  match conn with
  | None => ret cannot_connect
  | Some conn =>
      try_finally
        (try_except
           (rows <- fetch conn limit ;;
            let parsed_data := map formatted rows in
            now <- datetime_now ;;
            ret [("status", Str "success");
                 ("data", Rows parsed_data);
                 ("total_records",
                  Int (Z.of_nat (List.length parsed_data)));
                 ("last_updated", Iso now)])
           any_exception (fun e => ret (read_error e)))
        (conn_close conn)
  end.

(** [async def get_total_count()] *)
Definition get_total_count : App Z :=
  conn <- get_db_connection ;;
  match conn with
  | None => ret 0%Z
  | Some conn =>
      try_finally
        (try_except
           (result <- fetchval (count_reply conn) ;;
            ret (match result with
                 | Some n => n          (* [result or 0] *)
                 | None => 0%Z
                 end))
           any_exception (fun _ => ret 0%Z))
        (conn_close conn)
  end.

(** What the framework sends: the returned dict with status 200, or the
    [HTTPException] the handler raised. *)
Inductive response : Type :=
  | Ok200 (body : dict)
  | HTTPException (status_code : Z) (detail : option value).

(** [async def get_all_data(limit)] *)
Definition get_all_data (limit : Z) : App response :=
  result <- read_all_data limit ;;
  if has_key "error" result
  then ret (HTTPException 500 (getitem result "error"))
  else ret (Ok200 result).

(** [async def health_check()] *)
Definition health_check : App response :=
  conn <- get_db_connection ;;
  match conn with
  | None => ret (HTTPException 503 (Some (Str "資料庫連接失敗")))
  | Some conn =>
      try_except
        (_ <- fetchval (select_1_reply conn) ;;
         conn_close conn ;;
         ret (Ok200 [("status", Str "healthy");
                     ("database", Str "connected")]))
        any_exception
        (fun e =>
           conn_close conn ;;
           ret (HTTPException 503
                  (Some (Str ("資料庫錯誤: " ++ Data.str_of_exn e)))))
  end.

(** ** Vocabulary of the statements about these handlers *)

(** Every connection opened between [s] and [s'] was closed again. *)
Definition balanced (s s' : state) : Prop :=
  (opened s' + closed s = opened s + closed s'
   /\ opened s <= opened s' /\ closed s <= closed s')%nat.

(** A server that answers every query: the history newest first, cut at
    the limit, and the count of the rows. *)
Definition serving (rows : list row) : connection :=
  {| fetch_reply := fun limit => Return (firstn (Z.to_nat limit) rows);
     count_reply := Return (Some (Z.of_nat (List.length rows)));
     select_1_reply := Return (Some 1%Z) |}.

Definition facing (conn : option connection) : state :=
  {| server := conn; opened := 0; closed := 0; clock := 0 |}.

End Queries.

(* ================================================================== *)
(** * [routers/api_v1/endpoints/data1.py]: the file-backed endpoints *)
(* ================================================================== *)

Module Data1.

Import Eff.
Local Open Scope eff_scope.
Local Open Scope string_scope.

(** The inner dict built from one data line: its values are text read
    from the file. *)
Definition entry : Type := list (string * str).

(** The values the result dicts hold: a [str] literal of the source (or a
    message built from one), a time in ISO format, a number, the dict of
    a data line, a list of such dicts. *)
Inductive value : Type :=
  | Lit (s : string)
  | Iso (instant : Z)
  | Int (n : Z)
  | Dict (d : entry)
  | List (items : list entry).

Definition dict : Type := list (string * value).

Fixpoint getitem (d : dict) (k : string) : option value :=
  match d with
  | [] => None
  | (k', v) :: rest => if String.eqb k' k then Some v else getitem rest k
  end.

(** [k in d] *)
Definition has_key (k : string) (d : dict) : bool :=
  match getitem d k with Some _ => true | None => false end.

(** The separator of [split(', ')]: a comma and a space. *)
Definition separator : str := [44; 32]%N.

Definition cons_head (c : N) (parts : list str) : list str :=
  match parts with
  | [] => [[c]]
  | p :: rest => (c :: p) :: rest
  end.

(** [line.split(', ')] *)
Fixpoint split (line : str) : list str :=
  match line with
  | [] => [[]]
  | c :: t =>
      match t with
      | c' :: t' =>
          if ((c =? 44) && (c' =? 32))%N then [] :: split t'
          else cons_head c (split t)
      | [] => [[c]]
      end
  end.

(** [', '.join(parts)] *)
Fixpoint join (parts : list str) : str :=
  match parts with
  | [] => []
  | p :: rest =>
      match rest with
      | [] => p
      | _ :: _ => (p ++ separator ++ join rest)%list
      end
  end.

(** The dict both readers build from one data line: the first three parts
    when the line has that many, the line itself otherwise. *)
Definition parse_line (line : str) : entry :=
  let parts := split line in
  if Nat.leb 3 (List.length parts) then
    [("timestamp", nth 0 parts []);
     ("ph_value", nth 1 parts []);
     ("orp_value", nth 2 parts [])]
  else [("data", line)].

(** [[line.strip() for line in lines if line.strip()]] *)
Definition data_lines (lines : list str) : list str :=
  filter (fun line => negb (Nat.eqb (List.length line) 0)) (map strip lines).

(** The data file as a call finds it: not there, or there with its
    modification time and what [readlines()] gives (it raises when the
    file cannot be opened or is not UTF-8). *)
Inductive file : Type :=
  | Missing
  | Present (mtime : Z) (content : result (list str)).

(** The module-level variables [last_modified_time] and [cached_data],
    the clock, the file, and how often the file was opened. *)
Record state : Type := {
  last_modified_time : option Z;
  cached_data : option dict;
  clock : Z;
  disk : file;
  opens : nat
}.

Definition App (A : Type) : Type := Eff.M state A.

(** [datetime.now()] *)
Definition datetime_now : App Z := fun s => (Return (clock s), s).

(** [with open(DATA_FILE_PATH, 'r', encoding='utf-8') as file:
       lines = file.readlines()] *)
Definition readlines (content : result (list str)) : App (list str) :=
  fun s =>
    (content,
     {| last_modified_time := last_modified_time s;
        cached_data := cached_data s; clock := clock s; disk := disk s;
        opens := S (opens s) |}).

(** [last_modified_time = current_modified_time; cached_data = result] *)
Definition update_cache (current_modified_time : Z) (result : dict)
    : App unit :=
  fun s =>
    (Return tt,
     {| last_modified_time := Some current_modified_time;
        cached_data := Some result; clock := clock s; disk := disk s;
        opens := opens s |}).

(** [last_modified_time == current_modified_time and cached_data] *)
Definition cache_hit (s : state) (current_modified_time : Z) : option dict :=
  match last_modified_time s, cached_data s with
  | Some t, Some (item :: d) =>
      if (t =? current_modified_time)%Z then Some (item :: d) else None
  | _, _ => None
  end.

Definition file_not_found : dict := [("error", Lit "數據檔案未找到")].

Definition file_is_empty : dict :=
  [("message", Lit "檔案為空"); ("data", List [])].

Definition read_error (e : exn) : dict :=
  [("error", Lit ("讀取檔案時發生錯誤: " ++ Data.str_of_exn e))].

(** [def read_data_file()] *)
Definition read_data_file : App dict :=
  try_except
    (fun s =>
       match disk s with
       | Missing => ret file_not_found s
       | Present current_modified_time content =>
           match cache_hit s current_modified_time with
           | Some cached => ret cached s
           | None =>
               (lines <- readlines content ;;
                let data_lines := data_lines lines in
                match data_lines with
                | [] => ret file_is_empty
                | _ :: _ =>
                    let latest_line := last data_lines [] in
                    now <- datetime_now ;;
                    let result :=
                      [("status", Lit "success");
                       ("latest_data", Dict (parse_line latest_line));
                       ("total_records",
                        Int (Z.of_nat (List.length data_lines)));
                       ("last_updated", Iso now)] in
                    update_cache current_modified_time result ;;
                    ret result
                end) s
           end
       end)
    any_exception (fun e => ret (read_error e)).

(** [def read_all_data()] *)
Definition read_all_data : App dict :=
  try_except
    (fun s =>
       match disk s with
       | Missing => ret file_not_found s
       | Present _ content =>
           (lines <- readlines content ;;
            let data_lines := data_lines lines in
            let parsed_data := map parse_line data_lines in
            now <- datetime_now ;;
            ret [("status", Lit "success");
                 ("data", List parsed_data);
                 ("total_records", Int (Z.of_nat (List.length data_lines)));
                 ("last_updated", Iso now)]) s
       end)
    any_exception (fun e => ret (read_error e)).

(** What the framework sends: the returned dict with status 200, or the
    [HTTPException] the handler raised. *)
Inductive response : Type :=
  | Ok200 (body : dict)
  | HTTPException (status_code : Z) (detail : option value).

(** [async def get_data()] *)
Definition get_data : App response :=
  result <- read_data_file ;;
  if has_key "error" result
  then ret (HTTPException 500 (getitem result "error"))
  else ret (Ok200 result).

(** [async def get_all_data()] *)
Definition get_all_data : App response :=
  result <- read_all_data ;;
  if has_key "error" result
  then ret (HTTPException 500 (getitem result "error"))
  else ret (Ok200 result).

(** ** Vocabulary of the statements about the file-backed endpoints *)

(** Text that holds no separator. *)
Definition plain (part : str) : Prop := contains separator part = false.

(** A file that is there and can be read. *)
Definition readable (s : state) (mtime : Z) (lines : list str) : Prop :=
  disk s = Present mtime (Return lines).

(** A state with nothing cached yet, at time 0, before a given file. *)
Definition fresh (f : file) : state :=
  {| last_modified_time := None; cached_data := None; clock := 0;
     disk := f; opens := 0 |}.

(** The same state with another file in place and the clock moved on. *)
Definition later (s : state) (f : file) (elapsed : Z) : state :=
  {| last_modified_time := last_modified_time s;
     cached_data := cached_data s; clock := (clock s + elapsed)%Z;
     disk := f; opens := opens s |}.

End Data1.

(* ================================================================== *)
(** * [data1.py]: the [/replace] stream over the file *)
(* ================================================================== *)

Module Stream1.

Import Eff Data1.
Local Open Scope eff_scope.
Local Open Scope string_scope.

(** [latest_data[k]] for the inner dict. *)
Fixpoint entry_get (d : entry) (k : string) : option str :=
  match d with
  | [] => None
  | (k', v) :: rest => if String.eqb k' k then Some v else entry_get rest k
  end.

(** [current_data_key] and [last_sent_replace_data]: [None] or a
    [str]. *)
Definition key : Type := option str.

(** [a == b] on such keys. *)
Definition key_eqb (a b : key) : bool :=
  match a, b with
  | None, None => true
  | Some x, Some y => str_eqb x y
  | _, _ => false
  end.

(** [await asyncio.sleep(n)] *)
Definition sleep (n : Z) : App unit :=
  fun s =>
    (Return tt,
     {| last_modified_time := last_modified_time s;
        cached_data := cached_data s;
        clock := (clock s + n * 1000000)%Z; disk := disk s;
        opens := opens s |}).

(** [d[k]], which raises [KeyError] *)
Definition subscript (d : dict) (k : string) : App value :=
  match getitem d k with
  | Some v => ret v
  | None => raise (KeyError k)
  end.

Section Stream.

(** [str(latest_data)], the printed form of the inner dict. *)
Variable str_of : entry -> str.

(** The identity key of a result dict: the timestamp of [latest_data]
    when that key is there (no test of its value), else the printed
    dict; [None] without [latest_data].  (No reader stores anything but
    a dict under [latest_data].) *)
Definition data_key (data : dict) : key :=
  match getitem data "latest_data" with
  | Some (Dict latest_data) =>
      match entry_get latest_data "timestamp" with
      | Some timestamp => Some timestamp
      | None => Some (str_of latest_data)
      end
  | Some _ => None
  | None => None
  end.

(** One pass of the [while True] of [event_generator]: the events it
    yields and [last_sent_replace_data] afterwards. *)
Definition poll (last_sent_replace_data : key) : App (list dict * key) :=
  try_except
    (data <- read_data_file ;;
     if has_key "error" data then
       error <- subscript data "error" ;;
       now <- datetime_now ;;
       sleep 5 ;;
       ret ([[("error", error); ("timestamp", Iso now)]],
            last_sent_replace_data)
     else
       let current_data_key := data_key data in
       if negb (key_eqb current_data_key last_sent_replace_data) then
         latest <- subscript data "latest_data" ;;
         now <- datetime_now ;;
         sleep 5 ;;
         ret ([[("latest_data", latest); ("timestamp", Iso now);
                ("status", Lit "success")]],
              current_data_key)
       else
         sleep 5 ;;
         ret ([], last_sent_replace_data))
    any_exception
    (fun e =>
       now <- datetime_now ;;
       sleep 5 ;;
       ret ([[("error", Lit ("串流發生錯誤: " ++ Data.str_of_exn e));
              ("timestamp", Iso now)]],
            last_sent_replace_data)).

(** The identity key of the entry of a data line. *)
Definition entry_key (e : entry) : key :=
  match entry_get e "timestamp" with
  | Some timestamp => Some timestamp
  | None => Some (str_of e)
  end.

End Stream.

(** The event a pass yields for an entry at clock reading [now]. *)
Definition data_event (e : entry) (now : Z) : dict :=
  [("latest_data", Dict e); ("timestamp", Iso now);
   ("status", Lit "success")].

Definition error_event (message : string) (now : Z) : dict :=
  [("error", Lit message); ("timestamp", Iso now)].

End Stream1.

(* ================================================================== *)
(** * The lines the sensor board prints *)
(* ================================================================== *)

Module Wire.

Local Open Scope N_scope.

(** One of the characters [0] to [9]. *)
Definition ascii_digit (c : N) : Prop := 48 <= c <= 57.

(** The number a run of such digits writes. *)
Definition value_of (digits : str) : N :=
  Num.number_of (map (fun c => c - 48) digits).

(** An integer as printed: a minus sign, or none, and its digits. *)
Definition integer_text (negative : bool) (digits : str) : str :=
  (if negative then [45] else []) ++ digits.

Definition signed (negative : bool) (n : N) : Z :=
  if negative then (- Z.of_N n)%Z else Z.of_N n.

End Wire.

(* ================================================================== *)
(** * Properties *)
(* ================================================================== *)

(** ** Decoding *)

Module DecodeFacts.

Import SerialDataReader.
Local Open Scope N_scope.

Lemma lstrip_head (s : str) :
  lstrip s = [] \/ exists c t, lstrip s = c :: t /\ isspace c = false.
Proof.
  induction s as [|c t IH]; simpl.
  - now left.
  - destruct (isspace c) eqn:E.
    + exact IH.
    + right. now exists c, t.
Qed.

Lemma lstrip_app_nonspace (l : str) (c : N) :
  isspace c = false -> exists l', lstrip (l ++ [c]) = l' ++ [c] /\ l' = lstrip l.
Proof.
  intros Hc. induction l as [|x l IH]; simpl.
  - rewrite Hc. now exists [].
  - destruct (isspace x).
    + exact IH.
    + exists (x :: l). now split.
Qed.

Lemma last_app_singleton (l : str) (c d : N) : last (l ++ [c]) d = c.
Proof.
  induction l as [|x l IH]; simpl; [reflexivity|].
  destruct (l ++ [c]) eqn:E; [now destruct l | exact IH].
Qed.

Lemma strip_trimmed (s : str) : trimmed (strip s).
Proof.
  unfold strip, rstrip.
  destruct (lstrip_head s) as [E | (c & t & E & Hc)]; rewrite E; [exact I|].
  simpl rev.
  destruct (lstrip_app_nonspace (rev t) c Hc) as (l' & E' & Hl').
  rewrite E', rev_app_distr.
  change (rev [c] ++ rev l') with (c :: rev l').
  unfold trimmed. split; [exact Hc|].
  destruct (lstrip_head (rev t)) as [E0 | (x & u & E0 & Hx)];
    rewrite <- Hl' in E0; rewrite E0.
  - exact Hc.
  - change (rev (x :: u)) with (rev u ++ [x]).
    change (c :: rev u ++ [x]) with ((c :: rev u) ++ [x]).
    rewrite last_app_singleton. exact Hx.
Qed.

Lemma nonempty_false (s : str) : nonempty s = false -> s = [].
Proof. destruct s; [reflexivity | discriminate]. Qed.

Lemma on_error_ignore (k : result str) : on_error ignore k = k.
Proof. reflexivity. Qed.

Lemma emit_returns c (k : result str) :
  (exists t, k = Return t) -> exists t, emit c k = Return t.
Proof. intros [t ->]. now exists (c :: t). Qed.

Lemma on_error_returns errs (k : result str) :
  errs <> strict -> (exists t, k = Return t) ->
  exists t, on_error errs k = Return t.
Proof.
  intros Hs [t ->]. destruct errs; [congruence | now exists t |].
  now exists (REPLACEMENT_CHARACTER :: t).
Qed.

(** With [errors='ignore'] or ['replace'] the UTF-8 decoder returns. *)
Lemma utf8_run_returns errs (raw : bytes) :
  errs <> strict -> forall st, exists t, utf8_run errs st raw = Return t.
Proof.
  intros Hs. induction raw as [|b raw IH]; intros st; simpl.
  - destruct st; [now exists [] |].
    apply on_error_returns; [exact Hs | now exists []].
  - assert (F : exists t,
        match utf8_first_byte (Byte.to_N b) with
        | Ascii c => emit c (utf8_run errs Start raw)
        | Lead st' => utf8_run errs st' raw
        | InvalidStart => on_error errs (utf8_run errs Start raw)
        end = Return t).
    { destruct (utf8_first_byte (Byte.to_N b)).
      - apply emit_returns, IH.
      - apply IH.
      - apply on_error_returns; [exact Hs | apply IH]. }
    destruct st as [|owed acc lo hi]; [exact F|].
    destruct ((lo <=? Byte.to_N b) && (Byte.to_N b <=? hi)).
    + destruct owed as [|[|owed]]; try (apply emit_returns, IH). apply IH.
    + apply on_error_returns; [exact Hs | exact F].
Qed.

Lemma ascii_decode_returns errs (raw : bytes) :
  errs <> strict -> exists t, ascii_decode errs raw = Return t.
Proof.
  intros Hs. induction raw as [|b raw IH]; simpl; [now exists [] |].
  destruct (Byte.to_N b <? 128).
  - now apply emit_returns.
  - now apply on_error_returns.
Qed.

Lemma decode_ignore_returns cjk enc raw :
  exists t, decode_ignore cjk enc raw = Return t.
Proof.
  destruct enc; simpl; eauto.
  - apply utf8_run_returns. discriminate.
  - apply ascii_decode_returns. discriminate.
  - unfold latin1_decode. eauto.
Qed.

(** The loop over the candidate encodings on a [bytes] object: it never
    raises, and what it returns is the trimmed, non-empty text of the last
    attempt it logged. *)
Lemma try_encodings_bytes cjk raw encodings :
  exists log,
    (try_encodings cjk (PyBytes raw) encodings = (log, Return None)
     /\ forall enc, In enc encodings ->
          exists t, decode_ignore cjk enc raw = Return t /\ strip t = [])
    \/ exists enc t,
         try_encodings cjk (PyBytes raw) encodings
           = (log, Return (Some (strip t)))
         /\ In (Decode enc ignore) log
         /\ decode cjk (PyBytes raw) enc ignore = Return t
         /\ strip t <> [].
Proof.
  induction encodings as [|enc rest IH].
  - exists []. left. split; [reflexivity | intros ? []].
  - cbn [try_encodings decode].
    destruct (decode_ignore_returns cjk enc raw) as [t Et]. rewrite Et.
    destruct (nonempty (strip t)) eqn:Hn.
    + exists [Decode enc ignore]. right. exists enc, t.
      repeat split; [now left | exact Et |].
      intros E. rewrite E in Hn. discriminate.
    + apply nonempty_false in Hn.
      destruct IH as [log [[E H] | (enc' & t' & E & Hin & Hd & Hne)]];
        rewrite E.
      * exists (Decode enc ignore :: log). left. split; [reflexivity|].
        intros e [<- | He]; [now exists t | now apply H].
      * exists (Decode enc ignore :: log). right. exists enc', t'.
        repeat split; [now right | exact Hd | exact Hne].
Qed.

(** The loop on anything that is not [bytes]: every attempt fails with the
    [AttributeError] the [except] clause swallows. *)
Lemma try_encodings_not_bytes cjk raw_data encodings :
  (forall raw, raw_data <> PyBytes raw) ->
  try_encodings cjk raw_data encodings
    = (map (fun enc => Decode enc ignore) encodings, Return None).
Proof.
  intros H. induction encodings as [|enc rest IH]; [reflexivity|].
  cbn [try_encodings]. rewrite IH.
  destruct raw_data; try reflexivity. now destruct (H raw).
Qed.

(** C1, as the code has it: [safe_decode] returns text for every argument
    and never raises; an empty or [None] argument gives the empty string
    with no decode attempt; the text returned is empty or is the
    white-space-trimmed result of a decode attempt of the call, so it
    neither starts nor ends with a white-space character.  (Nothing is said
    about control characters inside the text: they are kept.) *)
Theorem safe_decode_returns_trimmed_text (cjk : cjk_codecs)
    (raw_data : pyobj) :
  exists log text,
    safe_decode cjk raw_data = (log, Return text)
    /\ (truthy raw_data = false -> log = [] /\ text = [])
    /\ trimmed text
    /\ (text = []
        \/ exists enc errs decoded,
             In (Decode enc errs) log
             /\ decode cjk raw_data enc errs = Return decoded
             /\ text = strip decoded).
Proof.
  unfold safe_decode.
  destruct (truthy raw_data) eqn:Htruthy; cbn [negb].
  2:{ exists [], []. repeat split; auto. }
  destruct raw_data as [|raw|text0]; [discriminate | |].
  - (* bytes *)
    destruct (try_encodings_bytes cjk raw encoding_list)
      as [log [[E H] | (enc & t & E & Hin & Hd & Hne)]]; rewrite E.
    + cbn [decode].
      destruct (utf8_run_returns (errs := replace) raw
                  ltac:(discriminate) Start) as [t2 E2].
      unfold utf8_decode. rewrite E2. cbn [bind catch].
      destruct (nonempty (strip t2)) eqn:Hn2.
      * exists (log ++ [Decode utf_8 replace]), (strip t2).
        split; [reflexivity|]. split; [discriminate|].
        split; [apply strip_trimmed|].
        right. exists utf_8, replace, t2.
        split; [apply in_or_app; right; now left|].
        split; [exact E2 | reflexivity].
      * destruct (H latin1) as (t5 & E5 & S5);
          [unfold encoding_list; simpl; tauto|].
        cbn [decode_ignore] in *. rewrite E5. cbn [bind catch].
        rewrite S5. cbn [filter].
        eexists _, []. split; [reflexivity|]. split; [discriminate|].
        split; [exact I | now left].
    + exists log, (strip t).
      split; [reflexivity|]. split; [discriminate|].
      split; [apply strip_trimmed|].
      right. now exists enc, ignore, t.
  - (* text: no [decode] attribute *)
    rewrite try_encodings_not_bytes by discriminate.
    cbn [decode bind catch any_exception].
    eexists _, []. split; [reflexivity|]. split; [discriminate|].
    split; [exact I | now left].
Qed.

(** C1 as the spec states it fails: the bytes [a], U+0001, [b] decode as
    UTF-8 at the first attempt, and the control character stays where it
    was. *)
Lemma safe_decode_keeps_control_character :
  printable 1 = false
  /\ forall cjk,
       safe_decode cjk (PyBytes [x61; x01; x62])
       = ([Decode utf_8 ignore], Return [97; 1; 98]).
Proof. split; [reflexivity | intros cjk; reflexivity]. Qed.

End DecodeFacts.

(** ** Labels written with a reading *)

Module LabelFacts.

Import Pg SensorDatabase.
Local Open Scope string_scope.
Local Open Scope Z_scope.

Lemma f6_5_value : Num.f6_5 = S754_finite false 7318349394477056 (-50).
Proof. reflexivity. Qed.

Lemma f7_5_value : Num.f7_5 = S754_finite false 8444249301319680 (-50).
Proof. reflexivity. Qed.

(** A float cannot be below one positive bound and above a larger one of
    the same exponent. *)
Lemma not_below_and_above (x : Num.float) (lo hi : positive) (e0 : Z) :
  (lo <= hi)%positive ->
  SFltb x (S754_finite false lo e0) = true ->
  SFltb (S754_finite false hi e0) x = true -> False.
Proof.
  intros L. unfold SFltb.
  destruct x as [s|s| |s m e]; simpl; try discriminate.
  - destruct s; discriminate.
  - destruct s; [discriminate|].
    rewrite (Z.compare_antisym e e0).
    destruct (e ?= e0); simpl; try discriminate.
    rewrite !Pos.compare_cont_spec. simpl.
    destruct (Pos.compare_spec m lo); try discriminate.
    destruct (Pos.compare_spec hi m); try discriminate. lia.
Qed.

(** No float is both below 6.5 and above 7.5 (the comparison of the model
    is the IEEE one). *)
Lemma not_below_6_5_and_above_7_5 (x : Num.float) :
  Num.lt x Num.f6_5 = true -> Num.gt x Num.f7_5 = true -> False.
Proof.
  unfold Num.lt, Num.gt. rewrite f6_5_value, f7_5_value.
  apply not_below_and_above. intros H. discriminate H.
Qed.

Lemma some_inj (A : Type) (a b : A) : Some a = Some b <-> a = b.
Proof. split; [now intros [= ->] | now intros ->]. Qed.

Lemma ph_status_cases (x : Num.float) :
  (_get_ph_status x = "酸性" <-> Num.lt x Num.f6_5 = true)
  /\ (_get_ph_status x = "鹼性" <-> Num.gt x Num.f7_5 = true)
  /\ (_get_ph_status x = "中性"
      <-> Num.lt x Num.f6_5 = false /\ Num.gt x Num.f7_5 = false).
Proof.
  unfold _get_ph_status.
  destruct (Num.lt x Num.f6_5) eqn:L; destruct (Num.gt x Num.f7_5) eqn:G.
  - destruct (not_below_6_5_and_above_7_5 x L G).
  - repeat split; intros; try discriminate; try tauto; now destruct H.
  - repeat split; intros; try discriminate; try tauto; now destruct H.
  - repeat split; intros; try discriminate; tauto.
Qed.

Lemma orp_status_cases (v : Z) :
  (_get_orp_status v = "強氧化性" <-> 650 < v)
  /\ (_get_orp_status v = "氧化性" <-> 300 < v <= 650)
  /\ (_get_orp_status v = "弱氧化性" <-> 0 < v <= 300)
  /\ (_get_orp_status v = "還原性" <-> v <= 0).
Proof.
  unfold _get_orp_status.
  destruct (Z.gtb_spec v 650); [| destruct (Z.gtb_spec v 300);
                                  [| destruct (Z.gtb_spec v 0)]];
    repeat split; intros; try discriminate; try lia.
Qed.

(** C6, as the code has it.  The thresholds and the quality flag are the
    ones of the spec; the labels written are the Chinese strings of the
    source: 酸性 for acidic, 鹼性 for alkaline, 中性 for neutral; 強氧化性
    for strongly oxidizing, 氧化性 for oxidizing, 弱氧化性 for weakly
    oxidizing, 還原性 for reducing. *)
Theorem derived_labels_at_write_time (now : Z) (ph : option Num.float)
    (orp ntu : option Z) :
  let r := values_of now ph orp ntu in
  match ph with
  | None => ph_status r = None
  | Some x =>
      (ph_status r = Some "酸性" <-> Num.lt x Num.f6_5 = true)
      /\ (ph_status r = Some "鹼性" <-> Num.gt x Num.f7_5 = true)
      /\ (ph_status r = Some "中性"
          <-> Num.lt x Num.f6_5 = false /\ Num.gt x Num.f7_5 = false)
  end
  /\ match orp with
     | None => orp_status r = None
     | Some v =>
         (orp_status r = Some "強氧化性" <-> 650 < v)
         /\ (orp_status r = Some "氧化性" <-> 300 < v <= 650)
         /\ (orp_status r = Some "弱氧化性" <-> 0 < v <= 300)
         /\ (orp_status r = Some "還原性" <-> v <= 0)
     end
  /\ match ph, orp with
     | Some x, Some v =>
         (water_quality_good r = Some true
          <-> (Num.ge x Num.f6_5 = true /\ Num.le x Num.f8_5 = true)
              /\ 200 <= v <= 800)
         /\ (water_quality_good r = Some true
             \/ water_quality_good r = Some false)
     | _, _ => water_quality_good r = None
     end
  /\ water_quality_good (values_of now None (Some 900) ntu) = None.
Proof.
  cbn zeta. split; [|split; [|split]].
  - destruct ph as [x|]; [|reflexivity].
    change (ph_status (values_of now (Some x) orp ntu))
      with (Some (_get_ph_status x)).
    rewrite !some_inj. exact (ph_status_cases x).
  - destruct orp as [v|]; [|reflexivity].
    change (orp_status (values_of now ph (Some v) ntu))
      with (Some (_get_orp_status v)).
    rewrite !some_inj. exact (orp_status_cases v).
  - destruct ph as [x|], orp as [v|]; try reflexivity.
    change (water_quality_good (values_of now (Some x) (Some v) ntu))
      with (Some (Num.ge x Num.f6_5 && Num.le x Num.f8_5
                  && (v >=? 200) && (v <=? 800))).
    set (b := Num.ge x Num.f6_5 && Num.le x Num.f8_5
              && (v >=? 200) && (v <=? 800)).
    split; [| destruct b; [now left | now right]].
    rewrite some_inj. unfold b.
    rewrite !andb_true_iff, Z.geb_le, Z.leb_le. tauto.
  - reflexivity.
Qed.

(** C6 as the spec states it fails: for 7.0 with 400 mV the row holds the
    labels 中性 and 氧化性, not the words [neutral] and [oxidizing]; the
    quality flag is the one of the spec. *)
Lemma labels_7_0_and_400 :
  let r := values_of 0 (Some (Num.of_Z 7)) (Some 400) None in
  ph_status r = Some "中性" /\ orp_status r = Some "氧化性"
  /\ ph_status r <> Some "neutral" /\ orp_status r <> Some "oxidizing"
  /\ water_quality_good r = Some true.
Proof.
  cbn zeta.
  assert (P : ph_status (values_of 0 (Some (Num.of_Z 7)) (Some 400) None)
              = Some "中性") by (vm_compute; reflexivity).
  assert (O : orp_status (values_of 0 (Some (Num.of_Z 7)) (Some 400) None)
              = Some "氧化性") by (vm_compute; reflexivity).
  rewrite P, O.
  split; [reflexivity|]. split; [reflexivity|].
  split; [discriminate|]. split; [discriminate|].
  vm_compute. reflexivity.
Qed.

End LabelFacts.

(** ** The store *)

Module StoreFacts.

Import Eff Pg SensorDatabase.
Local Open Scope eff_scope.

Ltac run :=
  cbv [save_sensor_data write_reading check_connection reconnect connect
       cursor_execute connection_commit connection_rollback connection_close
       psycopg2_connect get_connection set_connection log next_fault
       commit_rows datetime_now try_except mbind ret raise lost
       open_connection any_exception is_db_error
       self_connection table script trace clock closed pending negb fst snd].

Ltac faults :=
  repeat match goal with
         | |- context [match ?l with [] => _ | _ :: _ => _ end] =>
             is_var l; destruct l as [|[| |] ?]; cbn
         end.

Lemma save_sensor_data_table ph orp ntu (s : state) :
  clean s ->
  let '(r, s') := save_sensor_data ph orp ntu s in
  clean s'
  /\ clock s' = clock s
  /\ (table s' = table s
      \/ table s' = table s ++ [values_of (clock s) ph orp ntu])
  /\ (r = Return true ->
      table s' = table s ++ [values_of (clock s) ph orp ntu]).
Proof.
  destruct s as [[[cl pend]|] tbl scr tr clk]; unfold clean; cbn;
    intros Hc; subst.
  - destruct cl; run; faults; cbn; 
      repeat split; auto; try discriminate; rewrite ?app_nil_r; auto.
  - run; faults; cbn;
      repeat split; auto; try discriminate; rewrite ?app_nil_r; auto.
Qed.

Lemma connects_app (a b : list event) :
  connects (a ++ b) = connects a + connects b.
Proof. unfold connects. now rewrite filter_app, length_app. Qed.

Ltac traces :=
  repeat rewrite connects_app; repeat rewrite <- app_assoc; cbn.

(** The check and the reconnect of every call.  [save_sensor_data] starts
    with the connection check, which never raises and, on a connection
    that is open, is the round trip [SELECT 1]; the call makes one
    connection attempt when the check fails and none when it passes; when
    the check fails, the reconnect never raises either, and when it fails
    too the call returns [False] with the table as it was, while after a
    successful reconnect the next driver call is the [INSERT] of the
    reading, which, with no further fault, is committed and reported as
    [True]. *)
Lemma save_sensor_data_checks_then_reconnects_once ph orp ntu
    (s : state) :
  match check_connection s with
  | (Raise _, _) => False
  | (Return alive, s1) =>
      (connection_is_open s = true -> trace s1 = trace s ++ [Execute Select1])
      /\ (connection_is_open s = false -> alive = false /\ s1 = s)
      /\ let '(r, s') := save_sensor_data ph orp ntu s in
         let values := values_of (clock s) ph orp ntu in
         connects (trace s')
           = connects (trace s) + (if alive then 0 else 1)
         /\ (alive = false ->
             match reconnect s1 with
             | (Raise _, _) => False
             | (Return false, s2) =>
                 r = Return false /\ s' = s2 /\ table s' = table s
             | (Return true, s2) =>
                 (exists evs,
                    trace s' = trace s2 ++ Execute (Insert values) :: evs)
                 /\ (healthy_for 3 s2 = true ->
                     r = Return true /\ table s' = table s ++ [values])
             end)
  end.
Proof.
  destruct s as [[[cl pend]|] tbl scr tr clk].
  - destruct cl.
    + run; faults; traces;
        (split; [discriminate|]); (split; [auto|]); (split; [lia|]);
        intros _; try (repeat split; reflexivity);
        (split; [eexists; repeat rewrite <- app_assoc; reflexivity|]); try discriminate.
      all: intros _; split; reflexivity.
    + run; faults; traces;
        (split; [reflexivity|]); (split; [discriminate|]); (split; [lia|]);
        try discriminate;
        intros _; try (repeat split; reflexivity);
        (split; [eexists; repeat rewrite <- app_assoc; reflexivity|]); try discriminate.
      all: intros _; split; reflexivity.
  - run; faults; traces;
      (split; [discriminate|]); (split; [auto|]); (split; [lia|]);
      intros _; try (repeat split; reflexivity);
      (split; [eexists; repeat rewrite <- app_assoc; reflexivity|]); try discriminate.
    all: intros _; split; reflexivity.
Qed.

(** C4 fails on the code in its last clause.  The two runs the spec names
    are as it says: one lost connection followed by a healthy reconnect
    ends with the row committed and [True], and a connection attempt that
    fails as well ends with [False] and no row, after a single attempt.
    But when the check fails, the reconnect succeeds and the new
    connection is lost while the [INSERT] runs, the [rollback()] of the
    handler raises on the closed connection and the exception leaves
    [save_sensor_data]. *)
Theorem save_sensor_data_raises_after_reconnect ph orp ntu :
  let values := values_of 0 ph orp ntu in
  (let '(r, s') := save_sensor_data ph orp ntu (connected [ConnectionLost]) in
   r = Return true /\ table s' = [values] /\ connects (trace s') = 1)
  /\ (let '(r, s') :=
        save_sensor_data ph orp ntu
          (connected [ConnectionLost; ConnectionLost]) in
      r = Return false /\ table s' = []
      /\ trace s' = [Execute Select1; Close; Connect])
  /\ (let s := connected [ConnectionLost; Healthy; Healthy; ConnectionLost] in
      fst (check_connection s) = Return false
      /\ fst (reconnect (snd (check_connection s))) = Return true
      /\ let '(r, s') := save_sensor_data ph orp ntu s in
         r = Raise DbError /\ table s' = []
         /\ trace s' = [Execute Select1; Close; Connect;
                        Execute SelectVersion; Execute (Insert values);
                        Rollback]).
Proof. unfold connected. run. cbn [app]. repeat split. Qed.

(** C5 fails on the code in two ways.  When the connection is lost while
    the [INSERT] runs, the [rollback()] of the handler raises in its turn
    and the exception leaves [save_sensor_data]; when the read-back
    [SELECT] after the commit fails, the call reports [False] although the
    row is committed. *)
Theorem save_sensor_data_failure_reports ph orp ntu :
  (let '(r, s') :=
     save_sensor_data ph orp ntu (connected [Healthy; ConnectionLost]) in
   r = Raise DbError /\ table s' = []
   /\ trace s' = [Execute Select1; Execute (Insert (values_of 0 ph orp ntu));
                  Rollback])
  /\ (let '(r, s') :=
        save_sensor_data ph orp ntu
          (connected [Healthy; Healthy; Healthy; StatementError]) in
      r = Return false /\ table s' = [values_of 0 ph orp ntu]).
Proof. unfold connected. run. cbn [app]. repeat split. Qed.

Lemma last_app_cons (A : Type) (l m : list A) (x d : A) :
  last (l ++ x :: m) d = last (x :: m) d.
Proof.
  induction l as [|y l IH]; [reflexivity|].
  cbn [app]. destruct (l ++ x :: m) eqn:E; [now destruct l|].
  exact IH.
Qed.

(** X8.  What does hold of every call, whatever the faults: the table is left as
    it was or gains exactly the row of the call; [True] is returned only
    after the commit; an exception leaves the call only from the handler's
    [rollback()]. *)
Lemma save_sensor_data_outcomes ph orp ntu (s : state) :
  clean s ->
  let '(r, s') := save_sensor_data ph orp ntu s in
  let values := values_of (clock s) ph orp ntu in
  (table s' = table s \/ table s' = table s ++ [values])
  /\ (r = Return true -> table s' = table s ++ [values])
  /\ (forall e, r = Raise e ->
        e = DbError /\ last (trace s') Connect = Rollback).
Proof.
  destruct s as [[[cl pend]|] tbl scr tr clk]; unfold clean; cbn;
    intros Hc; subst.
  - destruct cl; run; faults; cbn; rewrite ?app_nil_r;
      (split; [auto|]); (split; [intros; first [discriminate | auto]|]);
      intros e He; try discriminate; injection He as <-;
      (split; [reflexivity|]);
      repeat rewrite <- app_assoc; cbn [app]; now rewrite last_app_cons.
  - run; faults; cbn; rewrite ?app_nil_r;
      (split; [auto|]); (split; [intros; first [discriminate | auto]|]);
      intros e He; try discriminate; injection He as <-;
      (split; [reflexivity|]);
      repeat rewrite <- app_assoc; cbn [app]; now rewrite last_app_cons.
Qed.

End StoreFacts.

(** ** The ingestion loop *)

Module IngestionFacts.

Import Eff Pg SensorDatabase SensorDataParser Ingestion StoreFacts.
Local Open Scope eff_scope.

Ltac run :=
  cbv [save_sensor_data write_reading check_connection reconnect connect
       create_table close sleep
       cursor_execute connection_commit connection_rollback connection_close
       psycopg2_connect get_connection set_connection log next_fault
       commit_rows datetime_now try_except mbind ret raise lost
       open_connection any_exception is_db_error
       self_connection table script trace clock closed pending negb fst snd].

Ltac faults :=
  repeat match goal with
         | |- context [match ?l with [] => _ | _ :: _ => _ end] =>
             is_var l; destruct l as [|[| |] ?]; cbn
         end.

Lemma connect_keeps_table (s : state) :
  let '(r, s') := connect s in
  table s' = table s
  /\ ((r = Return true /\ SensorDatabase.clean s' /\ self_connection s' <> None)
      \/ r = Return false).
Proof.
  destruct s as [c tbl scr tr clk]. run.
  faults; cbn; split; auto; left; repeat split; discriminate.
Qed.

Lemma create_table_keeps_table (s : state) :
  SensorDatabase.clean s -> self_connection s <> None ->
  let '(r, s') := create_table s in
  table s' = table s /\ SensorDatabase.clean s' /\ exists b, r = Return b.
Proof.
  destruct s as [[[cl pend]|] tbl scr tr clk]; unfold SensorDatabase.clean; cbn;
    intros Hc Hn; subst; [destruct cl|congruence]; run; faults; cbn;
    rewrite ?app_nil_r; repeat split; eauto.
Qed.

Lemma close_keeps_table (s : state) :
  let '(r, s') := close s in table s' = table s /\ r = Return tt.
Proof.
  destruct s as [[[cl pend]|] tbl scr tr clk]; run; cbn; auto.
Qed.

Lemma save_sensor_data_rows ph orp ntu (s : state) :
  SensorDatabase.clean s ->
  let '(r, s') := save_sensor_data ph orp ntu s in
  SensorDatabase.clean s'
  /\ (table s' = table s
      \/ table s' = table s ++ [values_of (clock s) ph orp ntu]).
Proof.
  intros Hc. pose proof (save_sensor_data_table ph orp ntu s Hc) as H.
  destruct (save_sensor_data ph orp ntu s) as [r s']. tauto.
Qed.

Section Loop.

Variable int_max_str_digits : nat.

Lemma rows_added_refl (s s' : state) :
  table s' = table s -> rows_added s s'.
Proof. intros E. exists []. now rewrite app_nil_r. Qed.

Lemma rows_added_trans (s1 s2 s3 : state) :
  rows_added s1 s2 -> rows_added s2 s3 -> rows_added s1 s3.
Proof.
  intros (r1 & E1 & F1) (r2 & E2 & F2). exists (r1 ++ r2).
  split; [now rewrite E2, E1, app_assoc | now apply Forall_app].
Qed.

(** The branch of [iteration] for a line that held a measurement: the
    save, then the averages, then the pause. *)
Lemma reading_step st ph orp ntu (s : state) :
  (_ <- save_sensor_data ph orp ntu ;;
   _ <- (fun s => (average_of_last_5
                     (orp_readings (recorded st ph orp ntu)), s)) ;;
   _ <- (fun s => (average_of_last_5
                     (ntu_readings (recorded st ph orp ntu)), s)) ;;
   sleep 5000 ;;
   ret (recorded st ph orp ntu, false)) s
  = let '(saved, s1) := save_sensor_data ph orp ntu s in
    match saved with
    | Raise e => (Raise e, s1)
    | Return _ =>
        match averages (recorded st ph orp ntu) with
        | Raise e => (Raise e, s1)
        | Return _ =>
            (Return (recorded st ph orp ntu, false), snd (sleep 5000 s1))
        end
    end.
Proof.
  unfold mbind at 1.
  destruct (save_sensor_data ph orp ntu s) as [[b|e] s1]; [|reflexivity].
  unfold averages, mbind.
  destruct (average_of_last_5 (orp_readings _)) as [a|e]; [|reflexivity].
  destruct (average_of_last_5 (ntu_readings _)) as [a'|e]; reflexivity.
Qed.

Lemma iteration_rows st raw_data (s : state) :
  SensorDatabase.clean s ->
  let '(r, s') := iteration int_max_str_digits st raw_data s in
  SensorDatabase.clean s' /\ rows_added s s'.
Proof.
  intros Hc. unfold iteration.
  destruct raw_data as [[|c t]|];
    try (cbn; split; [exact Hc | now apply rows_added_refl]).
  destruct (parse_sensor_data _ _) as [[ph orp] ntu].
  destruct (is_some ph || is_some orp || is_some ntu) eqn:Hm.
  - cbv zeta. fold (recorded st ph orp ntu).
    rewrite (reading_step st ph orp ntu s).
    pose proof (save_sensor_data_rows ph orp ntu s Hc) as H.
    destruct (save_sensor_data ph orp ntu s) as [[b|e] s1];
      destruct H as [Hc1 Ht];
      [destruct (averages _) as [[]|e]|]; cbn; (split; [exact Hc1|]);
      (destruct Ht as [Ht | Ht];
       [now apply rows_added_refl
       | exists [values_of (clock s) ph orp ntu]; split; [exact Ht|];
         constructor; [exact Hm | constructor]]).
  - destruct (Nat.leb max_consecutive_errors (S (consecutive_errors st)));
      cbn; (split; [exact Hc | now apply rows_added_refl]).
Qed.

Lemma loop_rows lines : forall st (s : state),
  SensorDatabase.clean s ->
  let '(r, s') := loop int_max_str_digits st lines s in
  SensorDatabase.clean s' /\ rows_added s s'.
Proof.
  induction lines as [|raw_data rest IH]; intros st s Hc.
  - cbn. split; [exact Hc | now apply rows_added_refl].
  - cbn [loop]. unfold mbind at 1.
    pose proof (iteration_rows st raw_data s Hc) as H.
    destruct (iteration int_max_str_digits st raw_data s) as [[[st1 b]|e] s1];
      destruct H as [Hc1 Hr1]; [|now split].
    cbn [fst snd]. destruct b; [now split|].
    specialize (IH st1 s1 Hc1).
    destruct (loop int_max_str_digits st1 rest s1) as [r2 s2].
    destruct IH as [Hc2 Hr2]. split; [exact Hc2|].
    now apply rows_added_trans with s1.
Qed.

Lemma read_arduino_data_rows serial_opens lines (s : state) :
  rows_added s (snd (read_arduino_data int_max_str_digits serial_opens
                                       lines s)).
Proof.
  unfold read_arduino_data.
  destruct serial_opens; cbn [negb]; [|now apply rows_added_refl].
  unfold mbind at 1. pose proof (connect_keeps_table s) as H.
  destruct (connect s) as [r1 s1]. destruct H as [E1 [(-> & Hc1 & Hn1) | ->]];
    cbn [negb]; [|now apply rows_added_refl].
  unfold mbind at 1. pose proof (create_table_keeps_table s1 Hc1 Hn1) as H.
  destruct (create_table s1) as [r2 s2]. destruct H as (E2 & Hc2 & b & ->).
  destruct b; cbn [negb].
  - cbv [mbind sleep ret try_except any_exception].
    match goal with
    | |- context [loop _ _ _ ?s0] =>
        pose proof (loop_rows lines initial s0) as H;
        destruct (loop int_max_str_digits initial lines s0) as [r3 s3]
    end.
    destruct H as [_ (rows & E3 & F3)]; [exact Hc2|].
    cbn [table] in E3.
    assert (R : rows_added s s3)
      by (exists rows; split; [now rewrite E3, E2, E1 | exact F3]).
    destruct r3 as [[st3 how]|e]; cbn [fst snd].
    + pose proof (close_keeps_table s3) as Hcl.
      destruct (close s3) as [r4 s4]. destruct Hcl as [E4 ->]. cbn.
      destruct R as (rs & E & F). exists rs. now rewrite E4.
    + pose proof (close_keeps_table s3) as Hcl.
      destruct (close s3) as [r4 s4]. destruct Hcl as [E4 ->]. cbn.
      destruct R as (rs & E & F). exists rs. now rewrite E4.
  - unfold mbind at 1. pose proof (close_keeps_table s2) as Hcl.
    destruct (close s2) as [r4 s4]. destruct Hcl as [E4 ->]. cbn.
    apply rows_added_refl. now rewrite E4, E2.
Qed.

(** On a connection that is open and meets no fault the reading is
    committed and reported as saved. *)
Lemma save_sensor_data_healthy ph orp ntu (s : state) :
  connection_is_open s = true -> SensorDatabase.clean s ->
  healthy_for 4 s = true ->
  exists s1,
    save_sensor_data ph orp ntu s = (Return true, s1)
    /\ table s1 = table s ++ [values_of (clock s) ph orp ntu]
    /\ clock s1 = clock s.
Proof.
  intros Ho Hc Hh.
  destruct s as [[[cl pend]|] tbl scr tr clk]; [|discriminate].
  unfold SensorDatabase.clean in Hc. cbn in Hc, Ho. subst.
  destruct cl; [discriminate|].
  unfold healthy_for in Hh. cbn [script] in Hh.
  run.
  with_strategy opaque [values_of]
    (faults; cbn in Hh; try discriminate; cbn;
     rewrite ?app_nil_r; eexists; repeat split).
Qed.

(** The only exception of the averages is the one of the division. *)
Lemma averages_raise_overflow (st : loop_state) (e : exn) :
  averages st = Raise e -> e = OverflowError.
Proof.
  assert (D : forall readings e',
             average_of_last_5 readings = Raise e' -> e' = OverflowError).
  { intros readings e'. unfold average_of_last_5, Num.true_divide.
    destruct (Nat.leb 5 (List.length readings)); [|discriminate].
    destruct (sum (last_5 readings)) as [|p|p]; [cbn; discriminate| |];
      (destruct (SFdiv _ _ _ _); cbn; congruence). }
  unfold averages.
  destruct (average_of_last_5 (orp_readings st)) as [a|e1] eqn:E1; cbn.
  - destruct (average_of_last_5 (ntu_readings st)) as [a'|e2] eqn:E2; cbn;
      [discriminate|].
    intros [= <-]. now apply D with (ntu_readings st).
  - intros [= <-]. now apply D with (orp_readings st).
Qed.

(** A line that yields a value, on a connection that is open and meets no
    fault: the row is written; the iteration then pauses and goes on,
    unless one of the averages raises. *)
Lemma reading_is_persisted st raw ph orp ntu (s : state) :
  parse_sensor_data int_max_str_digits (Some raw) = (ph, orp, ntu) ->
  is_some ph || is_some orp || is_some ntu = true ->
  connection_is_open s = true -> SensorDatabase.clean s ->
  healthy_for 4 s = true ->
  let '(r, s') := iteration int_max_str_digits st (Some raw) s in
  table s' = table s ++ [values_of (clock s) ph orp ntu]
  /\ match averages (recorded st ph orp ntu) with
     | Return _ =>
         r = Return (recorded st ph orp ntu, false)
         /\ clock s' = (clock s + 5000)%Z
     | Raise _ => r = Raise OverflowError /\ clock s' = clock s
     end.
Proof.
  intros Hp Hm Ho Hc Hh. unfold iteration.
  destruct raw as [|c t]; [cbn in Hp; injection Hp as <- <- <-; discriminate|].
  rewrite Hp, Hm. cbv zeta. fold (recorded st ph orp ntu).
  rewrite (reading_step st ph orp ntu s).
  destruct (save_sensor_data_healthy ph orp ntu s Ho Hc Hh)
    as (s1 & -> & Ht & Hk).
  pose proof (averages_raise_overflow (recorded st ph orp ntu)) as Hov.
  destruct (averages (recorded st ph orp ntu)) as [[]|e].
  - cbn. repeat split; [exact Ht | now rewrite Hk].
  - rewrite (Hov e eq_refl). now repeat split.
Qed.

Lemma turbidity_only_is_persisted st raw ntu (s : state) :
  parse_sensor_data int_max_str_digits (Some raw) = (None, None, Some ntu) ->
  connection_is_open s = true -> SensorDatabase.clean s -> healthy_for 4 s = true ->
  let '(r, s') := iteration int_max_str_digits st (Some raw) s in
  ((exists st', r = Return (st', false)) \/ r = Raise OverflowError)
  /\ (averages (recorded st None None (Some ntu)) = Return tt ->
      exists st', r = Return (st', false))
  /\ table s' = table s ++ [turbidity_row (clock s) ntu].
Proof.
  intros Hp Ho Hc Hh.
  pose proof (reading_is_persisted st raw s Hp eq_refl Ho Hc Hh) as H.
  destruct (iteration int_max_str_digits st (Some raw) s) as [r s'].
  destruct H as [Ht Hr]. split; [|split; [|exact Ht]].
  - destruct (averages _); [left; eexists; exact (proj1 Hr) | right; tauto].
  - intros E. rewrite E in Hr. eexists. exact (proj1 Hr).
Qed.

(** C3.  Whatever the serial line delivers and whatever the database does,
    every row a run of [read_arduino_data] adds to [sensor_readings] has
    at least one of its three measurements; and a line that yields the
    turbidity alone is, on a connection that is open and meets no fault,
    written as the row with that turbidity and [NULL] acidity, redox
    potential, status labels and quality flag; the iteration then goes on
    to the next line when the averages of the last five readings return,
    and ends with [OverflowError], the row written, when one of them is
    too large for a [float]. *)
Theorem persisted_rows_carry_a_measurement :
  (forall serial_opens lines (s : state),
     exists rows,
       table (snd (read_arduino_data int_max_str_digits serial_opens
                                     lines s))
       = table s ++ rows
       /\ Forall (fun r => has_measurement r = true) rows)
  /\ (forall st raw ntu (s : state),
        parse_sensor_data int_max_str_digits (Some raw)
        = (None, None, Some ntu) ->
        connection_is_open s = true -> SensorDatabase.clean s ->
        healthy_for 4 s = true ->
        let '(r, s') := iteration int_max_str_digits st (Some raw) s in
        ((exists st', r = Return (st', false)) \/ r = Raise OverflowError)
        /\ (averages (recorded st None None (Some ntu)) = Return tt ->
            exists st', r = Return (st', false))
        /\ table s' = table s ++ [turbidity_row (clock s) ntu]).
Proof.
  split.
  - intros. apply read_arduino_data_rows.
  - intros. now apply turbidity_only_is_persisted.
Qed.

End Loop.

(** ** The circuit breaker *)

(** C2 fails on the code.  Nine unparsable lines followed by a line the
    source recognises as a system message end the loop in [break] with the
    counter at 10: the message is counted, and the threshold is tested,
    before the test that would have reset the counter.  The same ten
    lines with the message first leave the loop running with the counter
    at 9. *)
Theorem system_message_on_tenth_line_aborts (int_max_str_digits : nat) :
  is_system_message (of_ascii "Sensor ready") = true
  /\ parse_sensor_data int_max_str_digits sensor_ready = (None, None, None)
  /\ fst (read_arduino_data int_max_str_digits true
            (repeat garbage 9 ++ [sensor_ready]) offline)
     = Return (Stopped (counted 10) Break)
  /\ fst (read_arduino_data int_max_str_digits true
            (sensor_ready :: repeat garbage 9) offline)
     = Return (Stopped (counted 9) OutOfInput).
Proof. repeat split; vm_compute; reflexivity. Qed.

(** The line [NTU: 12] on an open, healthy connection: one row, with the
    turbidity alone, and the loop goes on. *)
Lemma turbidity_line_is_persisted :
  parse_sensor_data 4300 (Some turbidity_line) = (None, None, Some 12%Z)
  /\ connection_is_open (connected []) = true
  /\ SensorDatabase.clean (connected [])
  /\ healthy_for 4 (connected []) = true
  /\ table (snd (iteration 4300 initial (Some turbidity_line) (connected [])))
     = [turbidity_row 0 12]
  /\ exists st',
       fst (iteration 4300 initial (Some turbidity_line) (connected []))
       = Return (st', false).
Proof.
  assert (Hp : parse_sensor_data 4300 (Some turbidity_line)
               = (None, None, Some 12%Z)) by (vm_compute; reflexivity).
  split; [exact Hp|]. split; [reflexivity|]. split; [reflexivity|].
  split; [reflexivity|].
  pose proof (proj2 (persisted_rows_carry_a_measurement 4300) initial
                turbidity_line 12%Z (connected []) Hp eq_refl eq_refl
                eq_refl) as H.
  destruct (iteration 4300 initial (Some turbidity_line) (connected []))
    as [r s'].
  split; [exact (proj2 (proj2 H)) | exact (proj1 (proj2 H) eq_refl)].
Defined.

End IngestionFacts.

(** ** The latest-reading cache *)

Module CacheFacts.

Import Eff Data.
Local Open Scope eff_scope.
Local Open Scope string_scope.
Local Open Scope list_scope.
Local Open Scope Z_scope.

Ltac run :=
  cbv [read_latest_data get_data get_total_count poll
       mbind ret raise try_except try_finally conn_close
       datetime_now sleep new_dict deref store_item update_cache
       get_db_connection fetchrow subscript any_exception
       heap cached_data last_cache_time clock answers counts queries].

Lemma nth_new (A : Type) (h : list A) (d e : A) :
  nth (List.length h) (h ++ [d]) e = d.
Proof. now rewrite nth_middle. Qed.

Lemma nth_old (A : Type) (h : list A) (d e : A) (i : nat) :
  (i < List.length h)%nat -> nth i (h ++ [d]) e = nth i h e.
Proof. intros H. now rewrite app_nth1. Qed.

(** A fresh cache entry is returned as it is: no query, no change. *)
Lemma fresh_cache_is_served (s : state) (r : ref) :
  cache_is_fresh s (clock s) = Some r -> read_latest_data s = (Return r, s).
Proof.
  intros H. unfold read_latest_data, mbind, datetime_now. now rewrite H.
Qed.

Lemma fetch_fills_cache (s : state) (r : row) (rest : list answer) :
  cache_is_fresh s (clock s) = None -> answers s = Row r :: rest ->
  let '(res, s1) := read_latest_data s in
  let result := List.length (heap s) in
  res = Return result
  /\ queries s1 = S (queries s)
  /\ heap s1 = heap s ++ [success_dict r (clock s)]
  /\ cached_data s1 = Some result
  /\ last_cache_time s1 = Some (clock s)
  /\ clock s1 = clock s /\ answers s1 = rest /\ counts s1 = counts s.
Proof.
  intros Hc Ha. unfold read_latest_data, mbind at 1 2, datetime_now.
  rewrite Hc. destruct s as [h c l k a n q]. cbn in Ha. subst a.
  run. repeat split.
Qed.

Lemma success_dict_is_fresh (s : state) (r : row) (result : ref) (t0 : Z) :
  cached_data s = Some result -> last_cache_time s = Some t0 ->
  nth result (heap s) [] = success_dict r t0 ->
  clock s - t0 < seconds cache_duration ->
  cache_is_fresh s (clock s) = Some result.
Proof.
  intros Hc Hl Hn Ht. unfold cache_is_fresh. rewrite Hc, Hl, Hn.
  unfold success_dict.
  destruct (Z.ltb_spec (clock s - t0) (seconds cache_duration));
    [reflexivity | lia].
Qed.

Lemma old_cache_is_stale (s : state) (t0 : Z) :
  last_cache_time s = Some t0 -> seconds cache_duration <= clock s - t0 ->
  cache_is_fresh s (clock s) = None.
Proof.
  intros Hl Ht. unfold cache_is_fresh. rewrite Hl.
  destruct (cached_data s); [|reflexivity].
  destruct (nth r (heap s) []); [reflexivity|].
  destruct (Z.ltb_spec (clock s - t0) (seconds cache_duration));
    [lia | reflexivity].
Qed.

Lemma failure_leaves_cache (s : state) :
  cache_is_fresh s (clock s) = None -> store_fails s ->
  let '(res, s1) := read_latest_data s in
  let result := List.length (heap s) in
  res = Return result
  /\ has_key "error" (nth result (heap s1) []) = true
  /\ cached_data s1 = cached_data s
  /\ last_cache_time s1 = last_cache_time s
  /\ exists d, heap s1 = heap s ++ [d].
Proof.
  intros Hc Hf. unfold read_latest_data, mbind at 1 2, datetime_now.
  rewrite Hc. destruct s as [h c l k a n q]. unfold store_fails in Hf.
  cbn in Hf. destruct a as [|[| | |] a]; try contradiction;
    run; rewrite nth_new; repeat split; eauto.
Qed.

(** C8.  The cache of [read_latest_data]: a fetch that finds a row stores
    the result with the time of the call, and every call made while less
    than five seconds have passed since then returns that same object and
    changes nothing (so it sends no query); once five seconds or more have
    passed the entry no longer counts, and a call that finds a row
    queries the store and replaces the entry; when the connection or the
    query fails the call returns a dict with an ["error"] key and leaves
    [cached_data], [last_cache_time] and the cached object as they
    were. *)
Theorem latest_reading_cache :
  (forall (s : state) (r : row) (rest : list answer),
     cache_is_fresh s (clock s) = None -> answers s = Row r :: rest ->
     let '(res, s1) := read_latest_data s in
     let result := List.length (heap s) in
     res = Return result
     /\ queries s1 = S (queries s)
     /\ cached_data s1 = Some result
     /\ last_cache_time s1 = Some (clock s)
     /\ nth result (heap s1) [] = success_dict r (clock s)
     /\ forall s2 : state,
          same_cache s1 s2 ->
          clock s2 - clock s < seconds cache_duration ->
          read_latest_data s2 = (Return result, s2))
  /\ (forall (s : state) (t0 : Z),
        last_cache_time s = Some t0 ->
        seconds cache_duration <= clock s - t0 ->
        cache_is_fresh s (clock s) = None)
  /\ (forall s : state,
        cache_is_fresh s (clock s) = None -> store_fails s ->
        let '(res, s1) := read_latest_data s in
        (exists result,
           res = Return result
           /\ has_key "error" (nth result (heap s1) []) = true)
        /\ cached_data s1 = cached_data s
        /\ last_cache_time s1 = last_cache_time s
        /\ forall i, (i < List.length (heap s))%nat ->
             nth i (heap s1) [] = nth i (heap s) []).
Proof.
  split; [|split].
  - intros s r rest Hc Ha.
    pose proof (fetch_fills_cache s Hc Ha) as H.
    destruct (read_latest_data s) as [res s1]. cbv zeta in H |- *.
    destruct H as (Hr & Hq & Hh & Hcd & Hl & Hk & _).
    assert (Hn : nth (List.length (heap s)) (heap s1) []
                 = success_dict r (clock s)) by (rewrite Hh; apply nth_new).
    repeat (split; [assumption|]).
    intros s2 (Eh & Ec & El) Ht. apply fresh_cache_is_served.
    apply success_dict_is_fresh with (r := r) (t0 := clock s);
      [now rewrite <- Ec | now rewrite <- El | now rewrite <- Eh | exact Ht].
  - exact old_cache_is_stale.
  - intros s Hc Hf. pose proof (failure_leaves_cache s Hc Hf) as H.
    destruct (read_latest_data s) as [res s1]. cbv zeta in H.
    destruct H as (Hr & He & Hcd & Hl & d & Hh).
    split; [eauto|]. repeat (split; [assumption|]).
    intros i Hi. rewrite Hh. now apply nth_old.
Qed.

Lemma update_nth_new (h : list dict) (d : dict) (f : dict -> dict) :
  update_nth (List.length h) f (h ++ [d]) = h ++ [f d].
Proof. induction h as [|x h IH]; cbn; [reflexivity | now rewrite IH]. Qed.

(** C10.  When the table has no row (and no fresh cache entry stands in
    for it), [read_latest_data] returns a new dict with the keys
    ["message"] and ["data"] alone, the latter the empty list, and leaves
    [cached_data] and [last_cache_time] as they were; [get_data] then adds
    ["total_records"] to that dict and returns it with status 200: a
    body with neither ["error"], ["status"] nor ["latest_data"]. *)
Theorem empty_table_gives_a_third_shape (s : state) (rest : list answer) :
  cache_is_fresh s (clock s) = None -> answers s = NoRow :: rest ->
  (let '(res, s1) := read_latest_data s in
   let result := List.length (heap s) in
   res = Return result
   /\ nth result (heap s1) [] = no_data_dict
   /\ cached_data s1 = cached_data s
   /\ last_cache_time s1 = last_cache_time s)
  /\ (let '(res, s2) := get_data s in
      let result := List.length (heap s) in
      let body := no_data_dict ++ [("total_records", Int (next_count s))] in
      res = Return (Ok200 result)
      /\ nth result (heap s2) [] = body
      /\ has_key "error" body = false
      /\ has_key "status" body = false
      /\ has_key "latest_data" body = false
      /\ cached_data s2 = cached_data s
      /\ last_cache_time s2 = last_cache_time s).
Proof.
  intros Hc Ha.
  assert (R : read_latest_data s
              = (Return (List.length (heap s)),
                 {| heap := heap s ++ [no_data_dict];
                    cached_data := cached_data s;
                    last_cache_time := last_cache_time s;
                    clock := clock s; answers := rest; counts := counts s;
                    queries := S (queries s) |})).
  { unfold read_latest_data, mbind at 1 2, datetime_now. rewrite Hc.
    destruct s as [h c l k a n q]. cbn in Ha. subst a. reflexivity. }
  split.
  - rewrite R. cbn. rewrite nth_new. repeat split.
  - unfold get_data, mbind at 1. rewrite R.
    unfold mbind at 1, deref. cbn [heap]. rewrite nth_new.
    cbn [has_key getitem no_data_dict String.eqb Ascii.eqb Bool.eqb].
    unfold next_count. destruct s as [h c l k a [|[n0|] n] q];
      run; rewrite update_nth_new, nth_new; repeat split.
Qed.

(** A first call that finds a row, the same call again at once, and a call
    against a store that cannot be reached. *)
Lemma latest_reading_cache_example :
  let r := reading_at "2024-05-01T10:00:00" in
  let s := started [Row r] in
  cache_is_fresh s (clock s) = None
  /\ answers s = [Row r]
  /\ fst (read_latest_data s) = Return 0%nat
  /\ (let s1 := snd (read_latest_data s) in
      cached_data s1 = Some 0%nat
      /\ read_latest_data s1 = (Return 0%nat, s1))
  /\ store_fails (started [ConnectFails])
  /\ cached_data (snd (read_latest_data (started [ConnectFails]))) = None.
Proof.
  cbv zeta.
  split; [reflexivity|]. split; [reflexivity|].
  pose proof (proj1 latest_reading_cache
                (started [Row (reading_at "2024-05-01T10:00:00")])
                (reading_at "2024-05-01T10:00:00") [] eq_refl eq_refl) as H.
  pose proof (proj2 (proj2 latest_reading_cache)
                (started [ConnectFails]) eq_refl I) as F.
  destruct (read_latest_data
              (started [Row (reading_at "2024-05-01T10:00:00")]))
    as [res s1] eqn:E.
  assert (Hk : clock s1 = 0)
    by (apply (f_equal (fun p => clock (snd p))) in E; exact (eq_sym E)).
  destruct (read_latest_data (started [ConnectFails])) as [res' s1'].
  cbv zeta in H. cbn [fst snd].
  destruct H as (H1 & _ & H3 & H4 & _ & H6).
  destruct F as (_ & F2 & _).
  split; [exact H1|]. split; [split; [exact H3|]|].
  - apply H6; [repeat split | rewrite Hk; reflexivity].
  - split; [exact I | exact F2].
Defined.

Lemma empty_table_example :
  cache_is_fresh (started [NoRow]) (clock (started [NoRow])) = None
  /\ answers (started [NoRow]) = [NoRow]
  /\ fst (get_data (started [NoRow])) = Return (Ok200 0%nat)
  /\ nth 0 (heap (snd (get_data (started [NoRow])))) []
     = [("message", Str "資料庫中沒有數據"); ("data", EmptyList);
        ("total_records", Int 0)].
Proof.
  split; [reflexivity|]. split; [reflexivity|].
  pose proof (proj2 (@empty_table_gives_a_third_shape (started [NoRow]) []
                       eq_refl eq_refl)) as H.
  vm_compute in H. destruct H as (H1 & H2 & _).
  split; [exact H1 | exact H2].
Defined.

End CacheFacts.

(** ** The event stream *)

Module StreamFacts.

Import Eff Data CacheFacts.
Local Open Scope eff_scope.
Local Open Scope string_scope.
Local Open Scope list_scope.
Local Open Scope Z_scope.

Ltac run :=
  cbv [read_latest_data get_data get_total_count poll
       mbind ret raise try_except try_finally conn_close
       datetime_now sleep new_dict deref store_item update_cache
       get_db_connection fetchrow subscript any_exception
       heap cached_data last_cache_time clock answers counts queries
       fst snd].
















End StreamFacts.

(** ** Regular expressions *)

Module ReFacts.

Import Re.

Section Soundness.

Variable ignorecase : bool.
Variable A : Type.



End Soundness.




End ReFacts.

(** ** Numbers in captured text *)

Module NumFacts.

Import Re Num ReFacts.
Local Open Scope N_scope.

Ltac ncases :=
  repeat (match goal with
          | H : context [N.leb ?a ?b] |- _ => destruct (N.leb_spec a b)
          | H : context [N.ltb ?a ?b] |- _ => destruct (N.ltb_spec a b)
          | H : context [N.eqb ?a ?b] |- _ => destruct (N.eqb_spec a b)
          end; cbn [andb orb negb] in *);
  try discriminate; try lia.




Lemma isspace_cases (ch : N) :
  isspace ch = true ->
  List.In ch [9; 10; 11; 12; 13; 28; 29; 30; 31; 32; 133; 160; 5760; 8192; 8193;
         8194; 8195; 8196; 8197; 8198; 8199; 8200; 8201; 8202; 8232; 8233;
         8239; 8287; 12288].
Proof.
  unfold isspace. intros H. cbn [List.In]. ncases.
Qed.

Lemma decimal_not_space (ch : N) : decimal ch -> isspace ch = false.
Proof.
  unfold decimal. intros D. destruct (isspace ch) eqn:E; [|reflexivity].
  apply isspace_cases in E. cbn [List.In] in E.
  repeat (destruct E as [<- | E]; [vm_compute in D; discriminate|]).
  destruct E.
Qed.

Lemma decimal_not_punctuation (ch : N) :
  decimal ch -> ch <> 45 /\ ch <> 43 /\ ch <> 46.
Proof.
  unfold decimal. intros D.
  repeat split; intros ->; vm_compute in D; discriminate.
Qed.


(** Text with no white space at either end is left alone by [strip]. *)
Lemma lstrip_id (c : N) (t : str) :
  isspace c = false -> lstrip (c :: t) = c :: t.
Proof. intros H. cbn. now rewrite H. Qed.

Lemma strip_id (w : str) (c : N) (t : str) (z : N) :
  w = c :: t -> isspace c = false -> isspace (last w z) = false ->
  strip w = w.
Proof.
  intros -> Hc Hl. unfold strip, rstrip. rewrite (lstrip_id c t Hc).
  destruct (rev (c :: t)) as [|x u] eqn:E.
  - apply (f_equal (@List.length N)) in E.
    rewrite length_rev in E. discriminate.
  - assert (Hx : x = last (c :: t) z).
    { apply (f_equal (@rev N)) in E. rewrite rev_involutive in E.
      rewrite E. cbn [rev]. clear. 
      induction (rev u) as [|y l IH]; [reflexivity|].
      cbn [app]. destruct (l ++ [x]) eqn:El; [now destruct l|].
      exact IH. }
    rewrite lstrip_id by (now rewrite Hx).
    rewrite <- E. apply rev_involutive.
Qed.

Lemma last_app_nonempty (u v : str) (z : N) :
  v <> [] -> last (u ++ v) z = last v z.
Proof.
  intros Hv. induction u as [|x u IH]; [reflexivity|].
  cbn [app]. destruct (u ++ v) eqn:E.
  - destruct u; [contradiction | discriminate].
  - exact IH.
Qed.

Lemma last_decimal (v : str) (z : N) :
  v <> [] -> Forall decimal v -> decimal (last v z).
Proof.
  intros Hv F. induction F as [|c v D F IH]; [contradiction|].
  destruct v as [|c' v']; [exact D|].
  apply IH. discriminate.
Qed.

(** The text before the first point of digits followed by anything. *)
Lemma split_point_digits (v rest : str) :
  Forall decimal v ->
  split_point (v ++ rest)
  = (v ++ fst (split_point rest), snd (split_point rest)).
Proof.
  induction 1 as [|c v D F IH]; cbn [app].
  - now destruct (split_point rest).
  - cbn [split_point]. destruct (decimal_not_punctuation D) as (_ & _ & Hp).
    destruct (N.eqb_spec c 46); [contradiction|].
    rewrite IH. reflexivity.
Qed.





Lemma signed_digits_strip (w : str) negative (v : str) :
  signed_digits w negative v -> strip w = w.
Proof.
  intros (-> & Hv & F).
  assert (Hl : isspace (last ((if negative then [45] else []) ++ v) 0)
               = false).
  { rewrite last_app_nonempty by exact Hv.
    apply decimal_not_space. now apply last_decimal. }
  destruct negative.
  - eapply strip_id; [reflexivity | reflexivity | exact Hl].
  - destruct v as [|c v']; [contradiction|].
    eapply strip_id; [reflexivity | | exact Hl].
    apply decimal_not_space. now inversion F.
Qed.

Lemma signed_digits_split (w : str) negative (v : str) :
  signed_digits w negative v -> split_sign w = (negative, v).
Proof.
  intros (-> & Hv & F). destruct negative; [reflexivity|].
  destruct v as [|c v']; [contradiction|]. cbn [app].
  inversion F as [|? ? D _]; subst.
  destruct (decimal_not_punctuation D) as (H45 & H43 & _).
  unfold split_sign.
  destruct c as [|p]; [reflexivity|].
  repeat (destruct p as [p|p|]; try reflexivity); congruence.
Qed.

Section IntLimit.

Variable int_max_str_digits : nat.


End IntLimit.


Lemma last_nonspace (v : str) (point : bool) (f : str) :
  v <> [] -> Forall decimal v -> Forall decimal f ->
  isspace (last (v ++ (if point then [46] else []) ++ f) 0) = false.
Proof.
  intros Hv Fv Ff. destruct f as [|c f'].
  - rewrite app_nil_r. destruct point.
    + rewrite last_app_nonempty by discriminate. reflexivity.
    + rewrite app_nil_r. apply decimal_not_space. now apply last_decimal.
  - rewrite app_assoc, last_app_nonempty by discriminate.
    apply decimal_not_space. apply last_decimal; [discriminate | exact Ff].
Qed.


End NumFacts.

(** ** The parser *)

Module ParserFacts.

Import Re Num SensorDataParser ReFacts NumFacts.





Lemma filter_all (A : Type) (p : A -> bool) (l : list A) :
  Forall (fun x => p x = true) l -> filter p l = l.
Proof.
  induction 1 as [|x l H F IH]; cbn; [reflexivity|]. now rewrite H, IH.
Qed.


Section Parser.

Variable int_max_str_digits : nat.



End Parser.

End ParserFacts.

(* ================================================================== *)
(** * Further properties *)
(* ================================================================== *)

(** ** Reading a line *)

Module ReaderFacts.

Import SerialDataReader DecodeFacts.
Local Open Scope N_scope.

(** UTF-8 reads bytes below 128 as the characters of the same number. *)
Lemma utf8_run_ascii errs (raw : bytes) :
  Forall (fun b => Byte.to_N b < 128) raw ->
  utf8_run errs Start raw = Return (map Byte.to_N raw).
Proof.
  induction 1 as [|b t Hb _ IH]; [reflexivity|].
  cbn [utf8_run map]. unfold utf8_first_byte.
  apply N.ltb_lt in Hb. rewrite Hb, IH. reflexivity.
Qed.

(** The first attempt settles the call whenever it leaves text. *)
Lemma safe_decode_first_attempt cjk (raw : bytes) (text : str) :
  utf8_decode ignore raw = Return text ->
  nonempty (strip text) = true ->
  safe_decode cjk (PyBytes raw)
  = ([Decode utf_8 ignore], Return (strip text)).
Proof.
  intros Hd Hn. unfold safe_decode.
  destruct raw as [|b t].
  - cbn in Hd. injection Hd as <-. discriminate.
  - cbn [truthy List.length Nat.eqb negb].
    unfold encoding_list. cbn [try_encodings decode decode_ignore].
    rewrite Hd, Hn. reflexivity.
Qed.

(** X1.  A line of ASCII bytes that is not blank comes back as the same
    characters, white space at both ends removed, from the first decode
    attempt: no other encoding is tried. *)
Theorem safe_decode_ascii_line cjk (raw : bytes) :
  Forall (fun b => Byte.to_N b < 128) raw ->
  nonempty (strip (map Byte.to_N raw)) = true ->
  safe_decode cjk (PyBytes raw)
  = ([Decode utf_8 ignore], Return (strip (map Byte.to_N raw))).
Proof.
  intros Ha Hn. apply safe_decode_first_attempt; [|exact Hn].
  unfold utf8_decode. now apply utf8_run_ascii.
Qed.

(** The line [NTU: 12] as the serial port delivers it, with its line
    end. *)
Lemma safe_decode_ascii_line_example :
  let raw := [x4e; x54; x55; x3a; x20; x31; x32; x0d; x0a] in
  Forall (fun b => Byte.to_N b < 128) raw
  /\ nonempty (strip (map Byte.to_N raw)) = true
  /\ forall cjk,
       safe_decode cjk (PyBytes raw)
       = ([Decode utf_8 ignore], Return (of_ascii "NTU: 12")).
Proof.
  cbv zeta.
  assert (Ha : Forall (fun b => Byte.to_N b < 128)
                 [x4e; x54; x55; x3a; x20; x31; x32; x0d; x0a])
    by (repeat constructor).
  split; [exact Ha|]. split; [reflexivity|].
  intros cjk. exact (@safe_decode_ascii_line cjk _ Ha eq_refl).
Defined.

End ReaderFacts.

(** ** Validation and cleaning *)

Module ValidationFacts.

Import Re Num SensorDataParser.
Local Open Scope Z_scope.

(** X2.  [validate_sensor_values] is silent exactly when every value that is
    present lies in its range: pH in 0..14, ORP in -2000..2000, NTU in
    0..4000 (a comparison with a float is the IEEE one); and it never gives
    more than one warning per value. *)
Theorem validate_sensor_values_silent_in_range (ph : option Num.float)
    (orp ntu : option Z) :
  (validate_sensor_values ph orp ntu = []
   <-> (forall x, ph = Some x ->
          Num.lt x Num.f0 = false /\ Num.gt x Num.f14 = false)
       /\ (forall v, orp = Some v -> -2000 <= v <= 2000)
       /\ (forall v, ntu = Some v -> 0 <= v <= 4000))
  /\ (List.length (validate_sensor_values ph orp ntu) <= 3)%nat.
Proof.
  unfold validate_sensor_values.
  destruct ph as [x|]; [destruct (Num.lt x Num.f0) eqn:L;
                        destruct (Num.gt x Num.f14) eqn:G|];
    destruct orp as [o|];
    try (destruct (Z.ltb_spec o (-2000)); destruct (Z.gtb_spec o 2000));
    destruct ntu as [n|];
    try (destruct (Z.ltb_spec n 0); destruct (Z.gtb_spec n 4000));
    cbn [orb app List.length];
    (split; [|lia]);
    (split;
     [ intros Hv; try discriminate Hv;
       (split; [|split]); intros ? E; try discriminate E;
       injection E as <-; first [split; assumption | lia]
     | intros (Hp & Ho & Hn); try reflexivity; exfalso;
       first [ destruct (Hp _ eq_refl); congruence
             | specialize (Ho _ eq_refl); lia
             | specialize (Hn _ eq_refl); lia ] ]).
Qed.

End ValidationFacts.

Module CleanFacts.

Import Re Num SensorDataParser.



End CleanFacts.

(** ** Calls of the store *)

Module StoreCallFacts.

Import Eff Pg SensorDatabase StoreFacts.
Local Open Scope eff_scope.

(** X4.  [reconnect] never raises.  It closes the connection it has, if any,
    and then makes exactly one connection attempt; no row reaches or
    leaves the table (rows of a transaction left open are dropped with the
    old connection); [True] is returned only with a new connection that is
    open and has nothing pending. *)
Theorem reconnect_closes_then_connects_once (s : state) :
  let '(r, s') := reconnect s in
  (exists b, r = Return b
             /\ (b = true -> connection_is_open s' = true /\ clean s'))
  /\ table s' = table s
  /\ connects (trace s') = S (connects (trace s))
  /\ exists evs,
       trace s'
       = trace s
         ++ match self_connection s with
            | Some _ => [Close]
            | None => []
            end ++ Connect :: evs.
Proof.
  destruct s as [[[cl pend]|] tbl scr tr clk]; run; faults; traces;
    unfold connection_is_open, clean; cbn;
    (split; [eexists; split; [reflexivity|]; intros E;
             first [discriminate E | split; reflexivity]|]);
    (split; [reflexivity|]); (split; [lia|]);
    eexists; repeat rewrite <- app_assoc; reflexivity.
Qed.

End StoreCallFacts.

(** ** Invariants of the loop *)

Module LoopFacts.

Import Eff Pg SensorDatabase SensorDataParser Ingestion StoreFacts.
Import IngestionFacts.
Local Open Scope eff_scope.

Lemma keep_50_bounded (A : Type) (readings : list A) (value : option A) :
  (List.length readings <= 50)%nat ->
  (List.length (keep_50 (append_reading readings value)) <= 50)%nat.
Proof.
  intros H. unfold keep_50, append_reading.
  destruct value as [v|].
  - destruct (Nat.ltb_spec 50 (List.length (readings ++ [v]))) as [L|L];
      [|exact L].
    rewrite length_app in L. cbn in L.
    destruct readings as [|x l]; cbn in *; [lia|].
    rewrite length_app. cbn. lia.
  - destruct (Nat.ltb_spec 50 (List.length readings)); [lia | exact H].
Qed.

Lemma keep_50_moderate (readings : list Z) (value : option Z) :
  Forall moderate readings -> moderate_value value ->
  Forall moderate (keep_50 (append_reading readings value)).
Proof.
  intros H Hv.
  assert (F : Forall moderate (append_reading readings value)).
  { destruct value as [v|]; [|exact H].
    apply Forall_app. split; [exact H | now constructor]. }
  unfold keep_50.
  destruct (Nat.ltb 50 (List.length (append_reading readings value)));
    [|exact F].
  destruct (append_reading readings value) as [|x l]; [constructor|].
  now inversion F.
Qed.

Lemma fold_left_add_bound (readings : list Z) : forall acc : Z,
  Forall moderate readings ->
  (acc - 4000 * Z.of_nat (List.length readings)
   <= fold_left Z.add readings acc
   <= acc + 4000 * Z.of_nat (List.length readings))%Z.
Proof.
  induction readings as [|v l IH]; intros acc F; [cbn; lia|].
  inversion F as [|? ? Hv Hl]; subst.
  specialize (IH (acc + v)%Z Hl). unfold moderate in Hv.
  cbn [fold_left List.length]. lia.
Qed.

Lemma skipn_moderate (readings : list Z) : forall n,
  Forall moderate readings -> Forall moderate (skipn n readings).
Proof.
  induction readings as [|v l IH]; intros [|n] F; cbn; auto.
  inversion F; auto.
Qed.

Lemma sum_last_5_bound (readings : list Z) :
  Forall moderate readings ->
  (-20000 <= sum (last_5 readings) <= 20000)%Z.
Proof.
  intros F. unfold sum, last_5.
  pose proof (fold_left_add_bound 0
                (skipn_moderate (List.length readings - 5) F)) as H.
  rewrite length_skipn in H. lia.
Qed.

Lemma divides_from_spec (n : nat) : forall a : Z,
  divides_from n a = true ->
  forall b : Z, (a <= b < a + Z.of_nat n)%Z ->
  exists quotient, Num.true_divide b 5 = Return quotient.
Proof.
  induction n as [|k IH]; intros a H b Hb; [lia|].
  cbn [divides_from] in H.
  destruct (Num.true_divide a 5) as [q|e] eqn:E; [|discriminate].
  destruct (Z.eq_dec b a) as [->|N]; [now exists q|].
  apply (IH (a + 1)%Z H). lia.
Qed.

(** The division by 5 of an integer of at most 20000 either way returns:
    each of them is tried. *)
Lemma true_divide_returns (a : Z) :
  (-20000 <= a <= 20000)%Z ->
  exists quotient, Num.true_divide a 5 = Return quotient.
Proof.
  intros H. apply (@divides_from_spec (Z.to_nat 40001) (-20000)%Z).
  - vm_compute. reflexivity.
  - rewrite Z2Nat.id by lia. lia.
Qed.

Lemma average_of_moderate (readings : list Z) :
  Forall moderate readings ->
  exists avg, average_of_last_5 readings = Return avg.
Proof.
  intros F. unfold average_of_last_5.
  destruct (Nat.leb 5 (List.length readings)); [|now exists None].
  destruct (true_divide_returns (sum_last_5_bound F)) as [q ->].
  now exists (Some q).
Qed.

Lemma averages_of_moderate st ph orp ntu :
  moderate_histories st -> moderate_value orp -> moderate_value ntu ->
  averages (recorded st ph orp ntu) = Return tt.
Proof.
  intros [Ho Hn] Vo Vn. unfold averages, recorded.
  cbn [orp_readings ntu_readings].
  destruct (average_of_moderate (keep_50_moderate orp Ho Vo)) as [a ->].
  destruct (average_of_moderate (keep_50_moderate ntu Hn Vn)) as [a' ->].
  reflexivity.
Qed.

Section Loop.

Variable int_max_str_digits : nat.

Lemma iteration_bounded st raw_data (s : state) :
  histories_bounded st ->
  (consecutive_errors st < max_consecutive_errors)%nat ->
  match fst (iteration int_max_str_digits st raw_data s) with
  | Return (st', stop) =>
      histories_bounded st'
      /\ if stop
         then consecutive_errors st' = max_consecutive_errors
         else (consecutive_errors st' < max_consecutive_errors)%nat
  | Raise _ => True
  end.
Proof.
  intros (Hp & Ho & Hn) Hc. unfold iteration.
  destruct raw_data as [[|c t]|];
    try (cbn; repeat split; assumption).
  destruct (parse_sensor_data _ _) as [[ph orp] ntu].
  destruct (is_some ph || is_some orp || is_some ntu).
  - cbv zeta. fold (recorded st ph orp ntu).
    rewrite (@reading_step st ph orp ntu s).
    destruct (save_sensor_data ph orp ntu s) as [[b|e] s1]; [|exact I].
    destruct (averages (recorded st ph orp ntu)) as [[]|e]; [|exact I].
    cbn. unfold histories_bounded. cbn.
    repeat split; try (now apply keep_50_bounded).
    unfold max_consecutive_errors. lia.
  - unfold max_consecutive_errors in *.
    destruct (Nat.leb_spec 10 (S (consecutive_errors st))); cbn.
    + repeat split; try assumption. lia.
    + repeat split; try assumption.
      destruct (is_system_message (c :: t)); lia.
Qed.

(** X5.  The loop keeps its three histories at 50 values at most, and its
    error counter below 10 for as long as it runs: it ends in [break]
    with the counter at 10 and in no other way. *)
Theorem loop_keeps_histories_and_counter_bounded lines :
  forall st (s : state),
    histories_bounded st ->
    (consecutive_errors st < max_consecutive_errors)%nat ->
    match fst (loop int_max_str_digits st lines s) with
    | Return (st', how) =>
        histories_bounded st'
        /\ match how with
           | Break => consecutive_errors st' = max_consecutive_errors
           | OutOfInput =>
               (consecutive_errors st' < max_consecutive_errors)%nat
           end
    | Raise _ => True
    end.
Proof.
  induction lines as [|raw_data rest IH]; intros st s Hb Hc.
  - cbn. now split.
  - cbn [loop]. unfold mbind at 1.
    pose proof (iteration_bounded raw_data s Hb Hc) as H.
    destruct (iteration int_max_str_digits st raw_data s)
      as [[[st1 b]|e] s1]; cbn [fst snd] in *; [|exact I].
    destruct H as [Hb1 Hc1]. destruct b; cbn; [now split|].
    apply IH; assumption.
Qed.

(** X6.  A line that yields a value is written, on a connection that is open
    and meets no fault, as the row of its three values, whatever
    [validate_sensor_values] has to say about them.  The averages of the
    last five redox potentials and turbidities come next.  When both
    divisions return, the iteration returns the histories with the
    values added and the error counter at 0, without [break], after a
    pause of five seconds; when one raises, the sum being too large for a
    [float], the iteration raises [OverflowError] without the pause.  The
    divisions return whenever the histories and the values read are at
    most 4000 either way. *)
Theorem parsed_reading_is_persisted st raw ph orp ntu (s : state) :
  parse_sensor_data int_max_str_digits (Some raw) = (ph, orp, ntu) ->
  is_some ph || is_some orp || is_some ntu = true ->
  connection_is_open s = true -> SensorDatabase.clean s ->
  healthy_for 4 s = true ->
  let '(r, s') := iteration int_max_str_digits st (Some raw) s in
  let st' := recorded st ph orp ntu in
  table s' = table s ++ [values_of (clock s) ph orp ntu]
  /\ consecutive_errors st' = 0%nat
  /\ (averages st' = Return tt ->
      r = Return (st', false) /\ clock s' = (clock s + 5000)%Z)
  /\ (averages st' <> Return tt ->
      r = Raise OverflowError /\ clock s' = clock s)
  /\ (moderate_histories st -> moderate_value orp -> moderate_value ntu ->
      averages st' = Return tt).
Proof.
  intros Hp Hm Ho Hc Hh.
  pose proof (@reading_is_persisted int_max_str_digits st raw ph orp ntu s
                Hp Hm Ho Hc Hh) as H.
  destruct (iteration int_max_str_digits st (Some raw) s) as [r s'].
  destruct H as [Ht Hr]. cbv zeta.
  split; [exact Ht|]. split; [reflexivity|].
  split; [|split].
  - intros E. rewrite E in Hr. exact Hr.
  - intros N. destruct (averages (recorded st ph orp ntu)) as [[]|e];
      [now destruct N | exact Hr].
  - apply averages_of_moderate.
Qed.

End Loop.

(** The line [pH value: 99.0] draws a warning and is written all the
    same; the loop goes on. *)
Lemma ph_99_is_persisted :
  let ph := Some (Num.binary64_of_decimal false 990 1) in
  parse_sensor_data 4300 (Some ph_99_line) = (ph, None, None)
  /\ is_some ph || is_some (@None Z) || is_some (@None Z) = true
  /\ connection_is_open (connected []) = true
  /\ SensorDatabase.clean (connected [])
  /\ healthy_for 4 (connected []) = true
  /\ moderate_histories initial
  /\ List.length (validate_sensor_values ph None None) = 1%nat
  /\ table (snd (iteration 4300 initial (Some ph_99_line) (connected [])))
     = [values_of 0 ph None None]
  /\ fst (iteration 4300 initial (Some ph_99_line) (connected []))
     = Return (recorded initial ph None None, false).
Proof.
  cbv zeta.
  assert (Hp : parse_sensor_data 4300 (Some ph_99_line)
               = (Some (Num.binary64_of_decimal false 990 1), None, None))
    by (vm_compute; reflexivity).
  assert (Hi : moderate_histories initial) by (split; constructor).
  split; [exact Hp|]. split; [reflexivity|]. split; [reflexivity|].
  split; [reflexivity|]. split; [reflexivity|]. split; [exact Hi|].
  split; [vm_compute; reflexivity|].
  pose proof (@parsed_reading_is_persisted 4300 initial ph_99_line _ _ _
                (connected []) Hp eq_refl eq_refl eq_refl eq_refl) as H.
  destruct (iteration 4300 initial (Some ph_99_line) (connected []))
    as [r s'].
  cbv zeta in H. destruct H as (Ht & _ & Hr & _ & Ha).
  split; [exact Ht|].
  exact (proj1 (Hr (Ha Hi I I))).
Defined.

(** Twelve unparsable lines: the loop stops at the tenth. *)
Lemma loop_bounds_example :
  histories_bounded initial
  /\ (consecutive_errors initial < max_consecutive_errors)%nat
  /\ fst (loop 4300 initial (repeat garbage 12) offline)
     = Return (counted 10, Break)
  /\ histories_bounded (counted 10)
  /\ consecutive_errors (counted 10) = max_consecutive_errors.
Proof.
  assert (Hb : histories_bounded initial) by (cbv; lia).
  assert (Hc : (consecutive_errors initial < max_consecutive_errors)%nat)
    by (cbv; lia).
  assert (E : fst (loop 4300 initial (repeat garbage 12) offline)
              = Return (counted 10, Break)) by (vm_compute; reflexivity).
  split; [exact Hb|]. split; [exact Hc|]. split; [exact E|].
  pose proof (@loop_keeps_histories_and_counter_bounded 4300
                (repeat garbage 12) initial offline Hb Hc) as H.
  rewrite E in H. exact H.
Defined.

(** X28.  Five redox potentials of 310 digits.  Whether the database stores
    them or refuses each [INSERT], the first average of five is too large
    for a [float]: the run ends in the handler of [except Exception],
    before the pause of the fifth iteration, and the connection is
    closed. *)
Theorem large_readings_end_the_run :
  parse_sensor_data 4300 (Some huge_orp_line)
  = (None, Some (10 ^ 309)%Z, None)
  /\ (let '(r, s') :=
        read_arduino_data 4300 true (repeat (Some huge_orp_line) 5)
          offline in
      r = Return (Crashed OverflowError)
      /\ List.length (table s') = 5%nat
      /\ Forall (fun row => orp_value row = Some (10 ^ 309)%Z) (table s')
      /\ connection_is_open s' = false
      /\ clock s' = 23000%Z)
  /\ (let '(r, s') :=
        read_arduino_data 4300 true (repeat (Some huge_orp_line) 5)
          (offline_before refusing_inserts) in
      r = Return (Crashed OverflowError)
      /\ table s' = []
      /\ connection_is_open s' = false
      /\ clock s' = 23000%Z).
Proof.
  split; [vm_compute; reflexivity|]. split.
  - destruct (read_arduino_data 4300 true (repeat (Some huge_orp_line) 5)
                offline) as [r s'] eqn:E.
    vm_compute in E. injection E as <- <-.
    split; [reflexivity|]. split; [reflexivity|].
    split; [|split; reflexivity].
    repeat constructor.
  - destruct (read_arduino_data 4300 true (repeat (Some huge_orp_line) 5)
                (offline_before refusing_inserts)) as [r s'] eqn:E.
    vm_compute in E. injection E as <- <-.
    repeat split.
Qed.

End LoopFacts.

(** ** A whole run *)

Module RunFacts.

Import Eff Pg SensorDatabase SensorDataParser Ingestion StoreFacts.
Import IngestionFacts.
Local Open Scope eff_scope.

Lemma save_sensor_data_keeps_connection ph orp ntu (s : state) :
  self_connection s <> None ->
  self_connection (snd (save_sensor_data ph orp ntu s)) <> None.
Proof.
  destruct s as [[[cl pend]|] tbl scr tr clk]; [intros _ | intros Hx; exfalso; apply Hx; reflexivity].
  destruct cl; run;
    with_strategy opaque [values_of] (faults; cbn; discriminate).
Qed.

Section Loop.

Variable int_max_str_digits : nat.

Lemma iteration_keeps_connection st raw_data (s : state) :
  self_connection s <> None ->
  self_connection (snd (iteration int_max_str_digits st raw_data s)) <> None.
Proof.
  intros Hn. unfold iteration.
  destruct raw_data as [[|c t]|]; try exact Hn.
  destruct (parse_sensor_data _ _) as [[ph orp] ntu].
  destruct (is_some ph || is_some orp || is_some ntu).
  - cbv zeta. fold (recorded st ph orp ntu).
    rewrite (@reading_step st ph orp ntu s).
    pose proof (@save_sensor_data_keeps_connection ph orp ntu s Hn) as H.
    destruct (save_sensor_data ph orp ntu s) as [[b|e] s1]; [|exact H].
    destruct (averages (recorded st ph orp ntu)) as [[]|e]; exact H.
  - destruct (Nat.leb max_consecutive_errors (S (consecutive_errors st)));
      exact Hn.
Qed.

Lemma loop_keeps_connection lines : forall st (s : state),
  self_connection s <> None ->
  self_connection (snd (loop int_max_str_digits st lines s)) <> None.
Proof.
  induction lines as [|raw_data rest IH]; intros st s Hn; [exact Hn|].
  cbn [loop]. unfold mbind at 1.
  pose proof (@iteration_keeps_connection st raw_data s Hn) as H.
  destruct (iteration int_max_str_digits st raw_data s)
    as [[[st1 b]|e] s1]; cbn [fst snd] in *; [|exact H].
  destruct b; [exact H|]. now apply IH.
Qed.

Lemma close_closes (s : state) :
  self_connection s <> None ->
  close s = (Return tt, snd (close s))
  /\ connection_is_open (snd (close s)) = false.
Proof.
  destruct s as [[[cl pend]|] tbl scr tr clk]; [intros _ | intros Hx; exfalso; apply Hx; reflexivity].
  split; reflexivity.
Qed.

(** X7.  A run of [read_arduino_data] never raises, whatever the serial line
    delivers and whatever the database does; and when [connect()] reports
    success the connection is closed by the time the function returns. *)
Theorem read_arduino_data_returns_and_closes serial_opens lines (s : state) :
  let '(r, s') := read_arduino_data int_max_str_digits serial_opens lines s in
  (exists o, r = Return o)
  /\ (serial_opens = true -> fst (connect s) = Return true ->
      connection_is_open s' = false).
Proof.
  unfold read_arduino_data.
  destruct serial_opens; cbn [negb]; [|split; [eauto | discriminate]].
  unfold mbind at 1. pose proof (connect_keeps_table s) as H.
  destruct (connect s) as [r1 s1].
  destruct H as [_ [(-> & Hc1 & Hn1) | ->]]; cbn [negb fst];
    [|split; [eauto | discriminate]].
  unfold mbind at 1. pose proof (@create_table_keeps_table s1 Hc1 Hn1) as H.
  assert (Hn2 : self_connection (snd (create_table s1)) <> None).
  { clear H. destruct s1 as [[[cl pend]|] tbl scr tr clk];
      [|exfalso; apply Hn1; reflexivity].
    destruct cl; run; faults; cbn; discriminate. }
  destruct (create_table s1) as [r2 s2]. destruct H as (_ & _ & b & ->).
  cbn [snd] in Hn2. destruct b; cbn [negb].
  - cbv [mbind sleep ret try_except any_exception].
    match goal with
    | |- context [loop _ _ _ ?s0] =>
        pose proof (@loop_keeps_connection lines initial s0 Hn2) as H;
        destruct (loop int_max_str_digits initial lines s0) as [r3 s3]
    end.
    cbn [snd] in H.
    destruct r3 as [[st3 how]|e]; cbn [fst snd];
      destruct (@close_closes s3 H) as [-> Hx]; (split; [eauto|]);
      intros _ _; exact Hx.
  - unfold mbind at 1. destruct (@close_closes s2 Hn2) as [-> Hx].
    split; [cbn; eauto|]. intros _ _. exact Hx.
Qed.

End Loop.

(** A start from nothing, three lines, a healthy database. *)
Lemma read_arduino_data_example :
  fst (connect offline) = Return true
  /\ (let '(r, s') :=
        read_arduino_data 4300 true
          [Some turbidity_line; garbage; Some turbidity_line] offline in
      connection_is_open s' = false /\ List.length (table s') = 2%nat).
Proof.
  split; [reflexivity|].
  pose proof (@read_arduino_data_returns_and_closes 4300 true
                [Some turbidity_line; garbage; Some turbidity_line]
                offline) as H.
  destruct (read_arduino_data 4300 true
              [Some turbidity_line; garbage; Some turbidity_line] offline)
    as [r s'] eqn:E.
  destruct H as [_ H]. split; [exact (H eq_refl eq_refl)|].
  apply (f_equal (fun p => List.length (table (snd p)))) in E.
  cbn [snd] in E. rewrite <- E. vm_compute. reflexivity.
Defined.

(** Every call of [save_sensor_data]: the table at the end is the table at
    the start or that table with the row of the call; a lost connection
    under the [INSERT] makes the call raise, after a [rollback()]. *)
Lemma save_sensor_data_outcomes_example :
  SensorDatabase.clean (connected [Healthy; ConnectionLost])
  /\ (let '(r, s') :=
        save_sensor_data None None (Some 12%Z)
          (connected [Healthy; ConnectionLost]) in
      r = Raise DbError /\ table s' = []
      /\ last (trace s') Connect = Rollback).
Proof.
  split; [reflexivity|].
  pose proof (@save_sensor_data_outcomes None None (Some 12%Z)
                (connected [Healthy; ConnectionLost]) eq_refl) as H.
  destruct (save_sensor_data None None (Some 12%Z)
              (connected [Healthy; ConnectionLost])) as [r s'] eqn:E.
  cbv zeta in H. destruct H as (_ & _ & H).
  assert (Er : r = Raise DbError)
    by (apply (f_equal fst) in E; cbn [fst] in E; rewrite <- E;
        vm_compute; reflexivity).
  assert (Et : table s' = [])
    by (apply (f_equal (fun p => table (snd p))) in E; cbn [snd] in E;
        rewrite <- E; vm_compute; reflexivity).
  split; [exact Er|]. split; [exact Et|]. exact (proj2 (H _ Er)).
Defined.

End RunFacts.

(** ** [GET /data] *)

Module EndpointFacts.

Import Eff Data CacheFacts.
Local Open Scope eff_scope.
Local Open Scope string_scope.
Local Open Scope list_scope.
Local Open Scope Z_scope.

Lemma getitem_setitem (d : dict) (k : string) (v : value) :
  getitem (setitem d k v) k = Some v.
Proof.
  induction d as [|[k' v'] d IH]; cbn.
  - now rewrite String.eqb_refl.
  - destruct (String.eqb k' k) eqn:E; cbn.
    + now rewrite String.eqb_refl.
    + now rewrite E.
Qed.

Lemma getitem_setitem_other (d : dict) (k k0 : string) (v : value) :
  String.eqb k k0 = false ->
  getitem (setitem d k v) k0 = getitem d k0.
Proof.
  intros N. induction d as [|[k' v'] d IH]; cbn.
  - now rewrite N.
  - destruct (String.eqb k' k) eqn:E; cbn.
    + apply String.eqb_eq in E. subst k'. now rewrite N.
    + now rewrite IH.
Qed.

Lemma nth_update_nth (h : list dict) (f : dict -> dict) : forall i : nat,
  (i < List.length h)%nat ->
  nth i (update_nth i f h) [] = f (nth i h []).
Proof.
  induction h as [|d h IH]; intros [|i] H; cbn in *; try lia;
    [reflexivity | apply IH; lia].
Qed.

Lemma fresh_is_allocated (s : state) (r0 : ref) :
  cache_is_fresh s (clock s) = Some r0 ->
  (r0 < List.length (heap s))%nat /\ cached_data s = Some r0.
Proof.
  unfold cache_is_fresh.
  destruct (cached_data s) as [r|]; [|discriminate].
  destruct (last_cache_time s) as [t|]; [|discriminate].
  destruct (nth r (heap s) []) eqn:E; [discriminate|].
  destruct (clock s - t <? seconds cache_duration); [|discriminate].
  intros [= <-]. split; [|reflexivity].
  destruct (Nat.lt_ge_cases r (List.length (heap s))) as [L|L]; [exact L|].
  rewrite nth_overflow in E by exact L. discriminate.
Qed.

(** X9.  [GET /data] writes into the object the cache holds.  After a call
    that found a row, [cached_data] refers to the very dict the handler
    returned, and that dict now carries ["total_records"]; so every
    [read_latest_data] of the next five seconds (the stream's too) gets
    the dict with the count in it. *)
Theorem get_data_writes_into_the_cached_object (s : state) (r : row)
    (rest : list answer) :
  cache_is_fresh s (clock s) = None -> answers s = Row r :: rest ->
  let '(res, s1) := get_data s in
  let result := List.length (heap s) in
  res = Return (Ok200 result)
  /\ cached_data s1 = Some result
  /\ nth result (heap s1) []
     = success_dict r (clock s) ++ [("total_records", Int (next_count s))]
  /\ forall s2 : state,
       same_cache s1 s2 ->
       clock s2 - clock s < seconds cache_duration ->
       read_latest_data s2 = (Return result, s2).
Proof.
  intros Hc Ha.
  assert (R : read_latest_data s
              = (Return (List.length (heap s)),
                 {| heap := heap s ++ [success_dict r (clock s)];
                    cached_data := Some (List.length (heap s));
                    last_cache_time := Some (clock s);
                    clock := clock s; answers := rest; counts := counts s;
                    queries := S (queries s) |})).
  { unfold read_latest_data, mbind at 1 2, datetime_now. rewrite Hc.
    destruct s as [h c l k a n q]. cbn in Ha. subst a. reflexivity. }
  unfold get_data, mbind at 1. rewrite R.
  unfold mbind at 1, deref. cbn [heap]. rewrite nth_new.
  cbn [has_key getitem success_dict String.eqb Ascii.eqb Bool.eqb].
  assert (G : forall c : list (option Z),
            exists s1,
              (total_count <- get_total_count;;
               store_item (Datatypes.length (heap s)) "total_records"
                 (Int total_count);;
               ret (Ok200 (Datatypes.length (heap s))))
                {| heap := heap s ++ [success_dict r (clock s)];
                   cached_data := Some (Datatypes.length (heap s));
                   last_cache_time := Some (clock s);
                   clock := clock s; answers := rest; counts := c;
                   queries := S (queries s) |}
              = (Return (Ok200 (Datatypes.length (heap s))), s1)
              /\ cached_data s1 = Some (List.length (heap s))
              /\ last_cache_time s1 = Some (clock s)
              /\ heap s1
                 = heap s
                   ++ [success_dict r (clock s)
                       ++ [("total_records",
                            Int (match c with Some n :: _ => n | _ => 0 end))]]).
  { intros [|[n0|] c]; eexists; run; rewrite update_nth_new;
      (split; [reflexivity|]); repeat split. }
  destruct (G (counts s)) as (s1 & -> & E1 & E2 & E3). cbv zeta.
  split; [reflexivity|]. split; [exact E1|].
  split; [rewrite E3; apply nth_new|].
  intros s2 (Eh & Ec & El) Ht. apply fresh_cache_is_served.
  unfold cache_is_fresh. rewrite <- Ec, <- El, <- Eh, E1, E2, E3, nth_new.
  unfold success_dict. cbn [app].
  destruct (Z.ltb_spec (clock s2 - clock s) (seconds cache_duration));
    [reflexivity | lia].
Qed.

(** X10.  When the store cannot be reached or its query raises, [GET /data]
    answers with status 500 and the error text; the count query is not
    sent and the cache is as it was. *)
Theorem get_data_reports_a_store_failure (s : state) :
  cache_is_fresh s (clock s) = None -> store_fails s ->
  let '(res, s1) := get_data s in
  (exists message,
     res = Return (HTTPException 500 (Some (Str message))))
  /\ counts s1 = counts s
  /\ cached_data s1 = cached_data s
  /\ last_cache_time s1 = last_cache_time s.
Proof.
  intros Hc Hf. unfold get_data, mbind at 1.
  unfold read_latest_data, mbind at 1 2, datetime_now. rewrite Hc.
  destruct s as [h c l k a n q]. unfold store_fails in Hf. cbn in Hf.
  destruct a as [|[| | |] a]; try contradiction;
    run; rewrite nth_new; cbn; (split; [eauto|]); repeat split.
Qed.

(** X11.  While the cache entry is fresh, [GET /data] sends no row query: it
    returns the cached object and overwrites its ["total_records"] with a
    new count. *)
Theorem get_data_on_a_fresh_cache (s : state) (r0 : ref) :
  cache_is_fresh s (clock s) = Some r0 ->
  has_key "error" (nth r0 (heap s) []) = false ->
  let '(res, s1) := get_data s in
  res = Return (Ok200 r0)
  /\ queries s1 = queries s
  /\ cached_data s1 = Some r0
  /\ getitem (nth r0 (heap s1) []) "total_records"
     = Some (Int (next_count s))
  /\ getitem (nth r0 (heap s1) []) "latest_data"
     = getitem (nth r0 (heap s) []) "latest_data".
Proof.
  intros Hc He. destruct (fresh_is_allocated s Hc) as [Hl Hcd].
  unfold get_data, mbind at 1. rewrite (fresh_cache_is_served s Hc).
  unfold mbind at 1, deref. rewrite He.
  destruct s as [h c l k a n q]. cbn in Hl, Hcd. unfold next_count.
  subst c.
  destruct n as [|[n0|] n]; run; cbn [fst snd];
    rewrite (nth_update_nth _ _ Hl), getitem_setitem,
      getitem_setitem_other by reflexivity; repeat split.
Qed.

(** [GET /data] against a store with one row, then [read_latest_data]
    at once: the same object, with the count in it. *)
Lemma get_data_example :
  let r := reading_at "2024-05-01T10:00:00" in
  let s := started [Row r] in
  cache_is_fresh s (clock s) = None
  /\ answers s = [Row r]
  /\ fst (get_data s) = Return (Ok200 0%nat)
  /\ (let s1 := snd (get_data s) in
      read_latest_data s1 = (Return 0%nat, s1)
      /\ getitem (nth 0 (heap s1) []) "total_records" = Some (Int 0)).
Proof.
  cbv zeta. split; [reflexivity|]. split; [reflexivity|].
  pose proof (@get_data_writes_into_the_cached_object
                (started [Row (reading_at "2024-05-01T10:00:00")])
                (reading_at "2024-05-01T10:00:00") [] eq_refl eq_refl) as H.
  destruct (get_data (started [Row (reading_at "2024-05-01T10:00:00")]))
    as [res s1] eqn:E.
  assert (Hk : clock s1 = 0)
    by (apply (f_equal (fun p => clock (snd p))) in E; exact (eq_sym E)).
  cbv zeta in H. cbn [fst snd]. destruct H as (H1 & _ & H3 & H4).
  split; [exact H1|]. split.
  - apply H4; [repeat split | rewrite Hk; reflexivity].
  - change (Datatypes.length (heap (started [Row (reading_at "2024-05-01T10:00:00")]))) with 0%nat in H3.
    rewrite H3. reflexivity.
Defined.

(** A query that times out: status 500, and the count query is not sent. *)
Lemma get_data_failure_example :
  cache_is_fresh (started [FetchFails "timeout"]) 0 = None
  /\ store_fails (started [FetchFails "timeout"])
  /\ (exists message,
        fst (get_data (started [FetchFails "timeout"]))
        = Return (HTTPException 500 (Some (Str message))))
  /\ counts (snd (get_data (started [FetchFails "timeout"]))) = [Some 0].
Proof.
  split; [reflexivity|]. split; [exact I|].
  pose proof (@get_data_reports_a_store_failure
                (started [FetchFails "timeout"]) eq_refl I) as H.
  destruct (get_data (started [FetchFails "timeout"])) as [res s1].
  destruct H as (H1 & H2 & _). split; [exact H1 | exact H2].
Defined.

(** A second [GET /data] right after the first: no second row query. *)
Lemma get_data_fresh_example :
  let s := snd (get_data (started [Row (reading_at "2024-05-01T10:00:00")])) in
  cache_is_fresh s (clock s) = Some 0%nat
  /\ has_key "error" (nth 0 (heap s) []) = false
  /\ fst (get_data s) = Return (Ok200 0%nat)
  /\ queries (snd (get_data s)) = 1%nat.
Proof.
  cbv zeta.
  assert (Hc : cache_is_fresh
                 (snd (get_data
                         (started [Row (reading_at "2024-05-01T10:00:00")])))
                 (clock
                    (snd (get_data
                            (started
                               [Row (reading_at "2024-05-01T10:00:00")]))))
               = Some 0%nat) by (vm_compute; reflexivity).
  assert (He : has_key "error"
                 (nth 0
                    (heap
                       (snd (get_data
                               (started
                                  [Row (reading_at "2024-05-01T10:00:00")]))))
                    []) = false) by (vm_compute; reflexivity).
  split; [exact Hc|]. split; [exact He|].
  pose proof (@get_data_on_a_fresh_cache _ _ Hc He) as H.
  destruct (get_data
              (snd (get_data
                      (started [Row (reading_at "2024-05-01T10:00:00")]))))
    as [res s1].
  destruct H as (H1 & H2 & _). split; [exact H1 | exact H2].
Defined.

End EndpointFacts.

(** ** The file-backed endpoints *)

Module FileFacts.

Import Eff SerialDataReader Data1.
Local Open Scope eff_scope.
Local Open Scope string_scope.
Local Open Scope list_scope.

Lemma plain_cons (c : N) (t : str) : plain (c :: t) -> plain t.
Proof.
  unfold plain. cbn [contains]. intros H.
  apply orb_false_iff in H. exact (proj2 H).
Qed.

Lemma plain_head (c c' : N) (t : str) :
  plain (c :: c' :: t) -> ((c =? 44) && (c' =? 32))%N = false.
Proof.
  unfold plain, separator. cbn [contains starts_with]. intros H.
  apply orb_false_iff in H. destruct H as [H _].
  rewrite andb_true_r in H. now rewrite (N.eqb_sym c), (N.eqb_sym c').
Qed.

Lemma split_plain (part : str) : plain part -> split part = [part].
Proof.
  induction part as [|c t IH]; intros H; [reflexivity|].
  cbn [split]. destruct t as [|c' t']; [reflexivity|].
  rewrite (plain_head H), (IH (plain_cons H)). reflexivity.
Qed.

Lemma split_app_separator (part rest : str) :
  plain part -> split (part ++ separator ++ rest) = part :: split rest.
Proof.
  induction part as [|c t IH]; intros H.
  - reflexivity.
  - specialize (IH (plain_cons H)).
    change ((c :: t) ++ separator ++ rest)
      with (c :: (t ++ separator ++ rest)).
    cbn [split]. destruct t as [|c' t'].
    + cbn [app separator] in *.
      assert (E : ((c =? 44) && (44 =? 32))%N = false)
        by now rewrite andb_false_r.
      rewrite E. cbn [app separator] in IH. rewrite IH. reflexivity.
    + cbn [app] in *. rewrite (plain_head H), IH. reflexivity.
Qed.

(** Splitting undoes joining, for parts that hold no separator. *)
Lemma split_join (parts : list str) :
  Forall plain parts -> parts <> [] -> split (join parts) = parts.
Proof.
  induction 1 as [|p rest Hp _ IH]; intros Hn; [congruence|].
  cbn [join]. destruct rest as [|q rest'].
  - now apply split_plain.
  - rewrite (split_app_separator _ Hp), IH by discriminate. reflexivity.
Qed.

(** What [parse_line] makes of fields joined by [", "], before any
    [strip()]. *)
Lemma parse_line_join (parts : list str) :
  Forall plain parts ->
  parse_line (join parts)
  = match parts with
    | timestamp :: ph_value :: orp_value :: _ =>
        [("timestamp", timestamp); ("ph_value", ph_value);
         ("orp_value", orp_value)]
    | _ => [("data", join parts)]
    end.
Proof.
  intros H. unfold parse_line.
  destruct parts as [|a [|b [|c more]]].
  - reflexivity.
  - rewrite (split_join H) by discriminate. reflexivity.
  - rewrite (split_join H) by discriminate. reflexivity.
  - rewrite (split_join H) by discriminate. reflexivity.
Qed.

Lemma lstrip_margin (margin w : str) :
  Forall (fun c => isspace c = true) margin ->
  lstrip (margin ++ w) = lstrip w.
Proof.
  induction 1 as [|c t Hc _ IH]; [reflexivity|].
  cbn [app lstrip]. now rewrite Hc.
Qed.

Lemma last_rev_head (w : str) (x : N) (u : str) (z : N) :
  rev w = x :: u -> last w z = x.
Proof.
  intros E. apply (f_equal (@rev N)) in E. rewrite rev_involutive in E.
  rewrite E. cbn [rev]. clear.
  induction (rev u) as [|y l IH]; [reflexivity|].
  cbn [app]. destruct (l ++ [x]) eqn:El; [now destruct l|]. exact IH.
Qed.

(** [strip()] removes white space around text that has none at its
    ends. *)
Lemma strip_margins (margin w ending : str) :
  w <> [] -> trimmed w ->
  Forall (fun c => isspace c = true) margin ->
  Forall (fun c => isspace c = true) ending ->
  strip (margin ++ w ++ ending) = w.
Proof.
  intros Hn Ht Hm He. destruct w as [|c t]; [congruence|].
  destruct Ht as [Hc Hl]. unfold strip, rstrip.
  rewrite (lstrip_margin _ Hm).
  change ((c :: t) ++ ending) with (c :: (t ++ ending)).
  cbn [lstrip]. rewrite Hc.
  change (c :: (t ++ ending)) with ((c :: t) ++ ending).
  rewrite rev_app_distr, lstrip_margin
    by (apply Forall_rev; exact He).
  destruct (rev (c :: t)) as [|x u] eqn:E.
  - apply (f_equal (@List.length N)) in E.
    rewrite length_rev in E. discriminate.
  - rewrite (last_rev_head (c :: t) c E) in Hl.
    cbn [lstrip]. rewrite Hl, <- E. apply rev_involutive.
Qed.

(** X12.  A line of the data file written as its fields joined by [", "], with
    any white space before and after it (the end of the line, for one),
    is read back by both readers as those fields: the first three become
    [timestamp], [ph_value] and [orp_value], whatever follows them is
    dropped; with fewer than three fields the line is kept whole under
    [data].  The fields hold no separator, and the joined text neither
    is empty nor starts or ends with white space: [strip()] runs before
    [split(', ')], so white space at the start of the first field or at
    the end of the last one, an empty last field included, is not read
    back. *)
Theorem data_line_is_read_back (parts : list str) (margin ending : str) :
  Forall plain parts ->
  join parts <> [] -> trimmed (join parts) ->
  Forall (fun c => isspace c = true) margin ->
  Forall (fun c => isspace c = true) ending ->
  map parse_line (data_lines [margin ++ join parts ++ ending])
  = [match parts with
     | timestamp :: ph_value :: orp_value :: _ =>
         [("timestamp", timestamp); ("ph_value", ph_value);
          ("orp_value", orp_value)]
     | _ => [("data", join parts)]
     end].
Proof.
  intros Hp Hn Ht Hm He. unfold data_lines. cbn [map].
  rewrite (strip_margins Hn Ht Hm He).
  destruct (join parts) as [|c t] eqn:E; [congruence|].
  cbn [List.length Nat.eqb negb filter map]. rewrite <- E.
  now rewrite (parse_line_join Hp).
Qed.

Lemma last_map (A B : Type) (f : A -> B) (l : list A) (a : A) (b : B) :
  l <> [] -> last (map f l) b = f (last l a).
Proof.
  induction l as [|x l IH]; intros H; [congruence|].
  destruct l as [|y l']; [reflexivity|].
  change (last (f x :: map f (y :: l')) b) with (last (map f (y :: l')) b).
  change (last (x :: y :: l') a) with (last (y :: l') a).
  apply IH. discriminate.
Qed.

(** X13.  The two readers agree on a file both can read: [read_all_data]
    returns one entry per line that is not blank, in file order, and
    counts them in [total_records]; [read_data_file], when nothing is
    cached for the file's modification time, returns the last of those
    entries as [latest_data] with the same count, or the "file is empty"
    dict when every line is blank. *)
Theorem readers_agree_on_a_readable_file (s : state) (mtime : Z)
    (lines : list str) :
  readable s mtime lines -> cache_hit s mtime = None ->
  let entries := map parse_line (data_lines lines) in
  let total := Int (Z.of_nat (List.length entries)) in
  (exists everything,
     fst (read_all_data s) = Return everything
     /\ has_key "error" everything = false
     /\ getitem everything "data" = Some (List entries)
     /\ getitem everything "total_records" = Some total)
  /\ match entries with
     | [] => fst (read_data_file s) = Return file_is_empty
     | first :: _ =>
         exists latest,
           fst (read_data_file s) = Return latest
           /\ has_key "error" latest = false
           /\ getitem latest "latest_data" = Some (Dict (last entries first))
           /\ getitem latest "total_records" = Some total
     end.
Proof.
  unfold readable. intros Hd Hc. cbv zeta. rewrite length_map. split.
  - unfold read_all_data, try_except. rewrite Hd.
    cbv [mbind readlines datetime_now ret fst]. eexists.
    split; [reflexivity|]. repeat split.
  - unfold read_data_file, try_except. rewrite Hd, Hc.
    cbv [mbind readlines].
    destruct (data_lines lines) as [|l0 ls] eqn:E; [reflexivity|].
    cbv [mbind datetime_now update_cache ret fst]. cbn [map].
    eexists. split; [reflexivity|]. split; [reflexivity|].
    split; [|reflexivity].
    cbn [getitem String.eqb Ascii.eqb Bool.eqb]. do 2 f_equal.
    change (parse_line l0 :: map parse_line ls)
      with (map parse_line (l0 :: ls)).
    symmetry. apply last_map. discriminate.
Qed.

(** X14.  The cache of [read_data_file] goes by the modification time alone.
    After a read that found data, a call that finds the file with the
    same modification time returns the same dict without opening the
    file, whatever the file holds by then; a call that finds another
    modification time opens the file again. *)
Theorem read_data_file_caches_by_modification_time (s : state) (mtime : Z)
    (lines : list str) :
  readable s mtime lines -> cache_hit s mtime = None ->
  data_lines lines <> [] ->
  let '(r, s1) := read_data_file s in
  exists result,
    r = Return result
    /\ opens s1 = S (opens s)
    /\ (forall content elapsed,
          read_data_file (later s1 (Present mtime content) elapsed)
          = (Return result, later s1 (Present mtime content) elapsed))
    /\ (forall mtime' content elapsed,
          mtime' <> mtime ->
          opens (snd (read_data_file
                        (later s1 (Present mtime' content) elapsed)))
          = S (opens s1)).
Proof.
  unfold readable. intros Hd Hc Hn.
  unfold read_data_file at 1, try_except. rewrite Hd, Hc.
  cbv [mbind readlines].
  destruct (data_lines lines) as [|l0 ls] eqn:E; [congruence|].
  cbv [mbind datetime_now update_cache ret]. eexists.
  split; [reflexivity|]. split; [reflexivity|]. split.
  - intros content elapsed. unfold read_data_file, try_except, later.
    cbn [disk]. unfold cache_hit. cbn [last_modified_time cached_data].
    rewrite Z.eqb_refl. reflexivity.
  - intros mtime' content elapsed Hm.
    unfold read_data_file, try_except, later. cbn [disk].
    unfold cache_hit. cbn [last_modified_time cached_data].
    destruct (Z.eqb_spec mtime mtime') as [->|_]; [congruence|].
    cbv [mbind readlines]. destruct content as [lines'|e].
    + destruct (data_lines lines'); reflexivity.
    + reflexivity.
Qed.

(** X15.  [GET /data/all] answers 500 exactly when the file is missing or
    cannot be read, with the message of [read_all_data] as detail, and
    200 with the dict of [read_all_data] otherwise: the status
    [success], one entry per line that is not blank, their count and the
    time of the call; it never raises anything else, and never touches
    the cache. *)
Theorem get_all_data_fails_only_without_a_readable_file (s : state) :
  let '(r, s1) := get_all_data s in
  (exists response, r = Return response)
  /\ ((exists detail, r = Return (HTTPException 500 detail))
      <-> (disk s = Missing \/ exists mtime e, disk s = Present mtime (Raise e)))
  /\ match disk s with
     | Missing =>
         fst (read_all_data s) = Return file_not_found
         /\ r = Return (HTTPException 500 (Some (Lit "數據檔案未找到")))
     | Present _ (Raise e) =>
         fst (read_all_data s) = Return (read_error e)
         /\ r = Return (HTTPException 500
                          (Some (Lit ("讀取檔案時發生錯誤: "
                                      ++ Data.str_of_exn e))))
     | Present _ (Return lines) =>
         let body :=
           [("status", Lit "success");
            ("data", List (map parse_line (data_lines lines)));
            ("total_records",
             Int (Z.of_nat (List.length (data_lines lines))));
            ("last_updated", Iso (clock s))] in
         fst (read_all_data s) = Return body /\ r = Return (Ok200 body)
     end
  /\ cached_data s1 = cached_data s
  /\ last_modified_time s1 = last_modified_time s.
Proof.
  unfold get_all_data, read_all_data, mbind at 1, try_except.
  destruct s as [l c k d o]. cbn [disk].
  destruct d as [|mtime [lines|e]];
    cbv [mbind readlines datetime_now ret any_exception read_error
         file_not_found];
    cbn [has_key getitem String.eqb Ascii.eqb Bool.eqb];
    (split; [eauto|]); (split; [|split; [|split; reflexivity]]).
  - split; [intros _; now left | intros _; eauto].
  - split; reflexivity.
  - split.
    + intros [detail H]. discriminate H.
    + intros [H | (m & e & H)]; discriminate H.
  - cbv zeta. split; reflexivity.
  - split; [intros _; right; eauto | intros _; eauto].
  - split; reflexivity.
Qed.

(** A file of two readings and a blank line. *)
Lemma file_example :
  let l1 := of_ascii "2024-05-01 10:00:00, 7.02, 412" in
  let l2 := of_ascii "2024-05-01 10:00:05, 7.05, 409, 12" in
  let s := fresh (Present 100 (Return [l1; []; l2])) in
  readable s 100 [l1; []; l2]
  /\ cache_hit s 100 = None
  /\ (exists latest,
        fst (read_data_file s) = Return latest
        /\ getitem latest "latest_data"
           = Some (Dict [("timestamp", of_ascii "2024-05-01 10:00:05");
                         ("ph_value", of_ascii "7.05");
                         ("orp_value", of_ascii "409")])
        /\ getitem latest "total_records" = Some (Int 2)).
Proof.
  cbv zeta. split; [reflexivity|]. split; [reflexivity|].
  destruct (proj2 (@readers_agree_on_a_readable_file
                     (fresh (Present 100
                               (Return [of_ascii "2024-05-01 10:00:00, 7.02, 412";
                                        [];
                                        of_ascii "2024-05-01 10:00:05, 7.05, 409, 12"])))
                     100 _ eq_refl eq_refl))
    as (latest & H1 & _ & H3 & H4).
  exists latest. split; [exact H1|]. split; [exact H3 | exact H4].
Defined.

Lemma cache_example :
  let l1 := of_ascii "2024-05-01 10:00:00, 7.02, 412" in
  let s := fresh (Present 100 (Return [l1])) in
  readable s 100 [l1]
  /\ cache_hit s 100 = None
  /\ data_lines [l1] <> []
  /\ exists result,
       fst (read_data_file s) = Return result
       /\ fst (read_data_file
                 (later (snd (read_data_file s))
                    (Present 100 (Raise UnicodeDecodeError)) 60))
          = Return result.
Proof.
  cbv zeta. split; [reflexivity|]. split; [reflexivity|].
  assert (Hn : data_lines [of_ascii "2024-05-01 10:00:00, 7.02, 412"] <> [])
    by (vm_compute; discriminate).
  split; [exact Hn|].
  pose proof (@read_data_file_caches_by_modification_time
                (fresh (Present 100
                          (Return [of_ascii "2024-05-01 10:00:00, 7.02, 412"])))
                100 _ eq_refl eq_refl Hn) as H.
  destruct (read_data_file
              (fresh (Present 100
                        (Return [of_ascii "2024-05-01 10:00:00, 7.02, 412"]))))
    as [r s1].
  destruct H as (result & -> & _ & H & _). exists result.
  split; [reflexivity|]. cbn [snd]. now rewrite H.
Defined.

(** A line of four fields ending in a line feed; and a line whose third
    field is empty, which [strip()] turns into a line of two fields. *)
Lemma data_line_example :
  let parts := [of_ascii "2024-05-01 10:00:05"; of_ascii "7.05";
                of_ascii "409"; of_ascii "12"] in
  Forall plain parts
  /\ join parts <> []
  /\ trimmed (join parts)
  /\ Forall (fun c => isspace c = true) [10%N]
  /\ map parse_line
       (data_lines [of_ascii "2024-05-01 10:00:05, 7.05, 409, 12" ++ [10%N]])
     = [[("timestamp", of_ascii "2024-05-01 10:00:05");
         ("ph_value", of_ascii "7.05"); ("orp_value", of_ascii "409")]]
  /\ map parse_line
       (data_lines [join [of_ascii "2024-05-01 10:00:05"; of_ascii "7.05";
                          []] ++ [10%N]])
     = [[("data", of_ascii "2024-05-01 10:00:05, 7.05,")]].
Proof.
  cbv zeta.
  assert (H : Forall plain [of_ascii "2024-05-01 10:00:05"; of_ascii "7.05";
                            of_ascii "409"; of_ascii "12"])
    by (repeat constructor).
  assert (Hn : join [of_ascii "2024-05-01 10:00:05"; of_ascii "7.05";
                     of_ascii "409"; of_ascii "12"] <> [])
    by (vm_compute; discriminate).
  assert (Ht : trimmed (join [of_ascii "2024-05-01 10:00:05";
                              of_ascii "7.05"; of_ascii "409";
                              of_ascii "12"]))
    by (vm_compute; split; reflexivity).
  assert (He : Forall (fun c => isspace c = true) [10%N])
    by (repeat constructor).
  split; [exact H|]. split; [exact Hn|]. split; [exact Ht|].
  split; [exact He|].
  split; [|vm_compute; reflexivity].
  exact (@data_line_is_read_back _ [] [10%N] H Hn Ht (Forall_nil _) He).
Defined.

End FileFacts.

(** ** The serial port *)

Module PortFacts.

Import Eff SerialDataReader DecodeFacts SerialPort.
Local Open Scope eff_scope.
Local Open Scope N_scope.

(** Whatever the bytes, [safe_decode] comes back with text that neither
    starts nor ends with white space. *)
Lemma safe_decode_bytes_trimmed cjk (raw : bytes) :
  exists text,
    snd (safe_decode cjk (PyBytes raw)) = Return text /\ trimmed text.
Proof.
  unfold safe_decode.
  destruct (truthy (PyBytes raw)); cbn [negb];
    [|exists []; split; [reflexivity | exact I]].
  destruct (try_encodings_bytes cjk raw encoding_list)
    as [log [[E H] | (enc & t & E & _ & _ & _)]]; rewrite E.
  - cbn [decode].
    destruct (utf8_run_returns (errs := replace) raw
                ltac:(discriminate) Start) as [t2 E2].
    unfold utf8_decode. rewrite E2. cbn [bind catch].
    destruct (nonempty (strip t2)) eqn:Hn2.
    + exists (strip t2). split; [reflexivity | apply strip_trimmed].
    + destruct (H latin1) as (t5 & E5 & S5);
        [unfold encoding_list; simpl; tauto|].
      cbn [decode_ignore] in *. rewrite E5. cbn [bind catch].
      rewrite S5. cbn [filter]. exists []. split; [reflexivity | exact I].
  - exists (strip t). split; [reflexivity | apply strip_trimmed].
Qed.

(** X16.  [read_line] never raises.  Without an open port it returns [None]
    and touches nothing; with one it returns [None] when nothing waits,
    when [readline()] times out with no bytes and when the driver raises,
    and otherwise the text [safe_decode] makes of the bytes, which
    neither starts nor ends with white space; a line of ASCII bytes that
    is not blank comes back as the same characters, trimmed.  The port
    stays as it was, open or closed. *)
Theorem read_line_returns_trimmed_text_or_none cjk (s : state) :
  let '(r, s') := read_line cjk s in
  (exists v, r = Return v
             /\ match v with
                | Some text => trimmed text
                | None => True
                end)
  /\ serial_connection s' = serial_connection s
  /\ (serial_connection s <> Some true -> r = Return None /\ s' = s)
  /\ (serial_connection s = Some true ->
      match arrivals s with
      | [] => r = Return None /\ s' = s
      | Quiet :: rest | Failure _ :: rest =>
          r = Return None /\ arrivals s' = rest
      | Line raw :: rest =>
          arrivals s' = rest
          /\ match raw with
             | [] => r = Return None
             | _ :: _ =>
                 exists text,
                   snd (safe_decode cjk (PyBytes raw)) = Return text
                   /\ r = Return (Some text)
             end
      end)
  /\ (forall raw rest,
        serial_connection s = Some true -> arrivals s = Line raw :: rest ->
        Forall (fun b => Byte.to_N b < 128) raw ->
        nonempty (strip (map Byte.to_N raw)) = true ->
        r = Return (Some (strip (map Byte.to_N raw)))
        /\ arrivals s' = rest).
Proof.
  destruct s as [[[|]|] arr]; unfold read_line; cbn [serial_connection].
  2,3: (split; [exists None; now split|]); (split; [reflexivity|]);
       (split; [now split|]); (split; [intros H; discriminate H|]);
       intros raw rest H; discriminate H.
  destruct arr as [|[|raw|e] arr];
    cbv [try_except mbind readline_if_waiting next_arrival ret raise
         any_exception arrivals serial_connection];
    try ((split; [exists None; now split|]); (split; [reflexivity|]);
         (split; [intros H; now destruct H|]);
         (split; [intros _; now split|]);
         intros raw' rest' _ H; discriminate H).
  destruct raw as [|b t].
  - split; [exists None; now split|]. split; [reflexivity|].
    split; [intros H; now destruct H|]. split; [intros _; now split|].
    intros raw' rest' _ [= <- <-] Ha Hn. discriminate Hn.
  - change (truthy (PyBytes (b :: t))) with true. cbv iota.
    destruct (safe_decode_bytes_trimmed cjk (b :: t)) as (text & E & Ht).
    rewrite E. split; [exists (Some text); now split|].
    split; [reflexivity|]. split; [intros H; now destruct H|].
    split; [intros _; split; [reflexivity | now exists text]|].
    intros raw' rest' _ [= <- <-] Ha Hn.
    pose proof (ReaderFacts.safe_decode_first_attempt cjk (b :: t)
                  (text := map Byte.to_N (b :: t))) as F.
    unfold utf8_decode in F.
    rewrite (ReaderFacts.utf8_run_ascii ignore Ha) in F.
    rewrite (F eq_refl Hn) in E. cbn [snd] in E. injection E as <-.
    now split.
Qed.

(** After [close()] the reader returns [None] and leaves what arrives
    where it is. *)
Lemma read_line_after_close cjk (s : state) :
  let closed := snd (close s) in
  read_line cjk closed = (Return None, closed)
  /\ arrivals closed = arrivals s.
Proof.
  destruct s as [[[|]|] arr]; split; reflexivity.
Qed.

(** The line [NTU: 12] arrives after a quiet moment and a time-out. *)
Lemma read_line_example :
  let raw := [x4e; x54; x55; x3a; x20; x31; x32; x0d; x0a] in
  Forall (fun b => Byte.to_N b < 128) raw
  /\ nonempty (strip (map Byte.to_N raw)) = true
  /\ forall cjk,
       fst (read_line cjk (listening [Line raw; Quiet]))
       = Return (Some (of_ascii "NTU: 12")).
Proof.
  cbv zeta.
  assert (Ha : Forall (fun b => Byte.to_N b < 128)
                 [x4e; x54; x55; x3a; x20; x31; x32; x0d; x0a])
    by (repeat constructor).
  split; [exact Ha|]. split; [reflexivity|]. intros cjk.
  pose proof (read_line_returns_trimmed_text_or_none cjk
                (listening
                   [Line [x4e; x54; x55; x3a; x20; x31; x32; x0d; x0a];
                    Quiet])) as H.
  destruct (read_line cjk
              (listening
                 [Line [x4e; x54; x55; x3a; x20; x31; x32; x0d; x0a];
                  Quiet])) as [r s'].
  destruct H as (_ & _ & _ & _ & H).
  exact (proj1 (H _ _ eq_refl eq_refl Ha eq_refl)).
Defined.

End PortFacts.

(** ** Start-up *)

Module StartupFacts.

Import Eff Pg SensorDatabase Ingestion StoreFacts IngestionFacts Startup.
Local Open Scope eff_scope.
Local Open Scope string_scope.

(** X17.  [create_table] before any connection was made raises
    [AttributeError] (there is no cursor, and the handler names
    [psycopg2.Error] alone); with a connection it never raises and leaves
    the rows of the table alone: it returns [True] when the connection is
    open and neither the [CREATE TABLE] nor the commit meets a fault, and
    reports every driver error, a closed connection included, as
    [False]. *)
Theorem create_table_needs_a_cursor (s : state) :
  SensorDatabase.clean s ->
  match self_connection s with
  | None => create_table s = (Raise AttributeError, s)
  | Some _ =>
      let '(r, s') := create_table s in
      (exists created, r = Return created) /\ table s' = table s
      /\ r = Return (connection_is_open s && healthy_for 2 s)
  end.
Proof.
  destruct s as [[[cl pend]|] tbl scr tr clk]; unfold SensorDatabase.clean;
    cbn; intros Hc; subst; [|reflexivity].
  unfold healthy_for. cbn [script].
  destruct cl; run; faults; cbn; rewrite ?app_nil_r;
    (split; [eauto|]); split; reflexivity.
Qed.

(** X18.  [test_database_connection] never raises and writes no row.  With a
    configuration that cannot be built (an unknown type, or [render]
    without [DATABASE_URL]) it returns [False] and makes no driver call;
    otherwise it returns what [connect()] returned, whatever became of
    [create_table()], and when that is [True] the connection is closed
    again. *)
Theorem test_database_connection_reports_connect (db_type : string)
    (DATABASE_URL : option string) (s : state) :
  let '(r, s') := test_database_connection db_type DATABASE_URL s in
  table s' = table s
  /\ match init db_type DATABASE_URL with
     | Raise _ => r = Return false /\ s' = s
     | Return _ =>
         r = fst (connect s)
         /\ (r = Return true -> connection_is_open s' = false)
     end.
Proof.
  unfold test_database_connection, try_except.
  destruct (init db_type DATABASE_URL) as [cfg|e]; [|cbn; auto].
  unfold mbind at 1. pose proof (connect_keeps_table s) as H.
  destruct (connect s) as [r1 s1].
  destruct H as [E1 [(-> & Hc1 & Hn1) | ->]]; cbn [fst];
    [|cbn; split; [exact E1 | split; [reflexivity | discriminate]]].
  unfold mbind at 1.
  pose proof (@create_table_keeps_table s1 Hc1 Hn1) as H.
  assert (Hn2 : self_connection (snd (create_table s1)) <> None).
  { clear H. destruct s1 as [[[cl pend]|] tbl scr tr clk];
      [|exfalso; apply Hn1; reflexivity].
    destruct cl; run; faults; cbn; discriminate. }
  destruct (create_table s1) as [r2 s2]. destruct H as (E2 & _ & b & ->).
  cbn [snd] in Hn2. unfold mbind at 1.
  pose proof (close_keeps_table s2) as Hcl.
  destruct s2 as [[[cl pend]|] tbl scr tr clk];
    [|exfalso; apply Hn2; reflexivity].
  cbn in E2 |- *. split; [now rewrite E2, E1|]. split; reflexivity.
Qed.

(** The hosted configuration without [DATABASE_URL]. *)
Example render_without_url :
  test_database_connection "render" None offline = (Return false, offline)
  /\ test_database_connection "render" (Some "") offline
     = (Return false, offline)
  /\ fst (test_database_connection "render"
            (Some "postgres://example") offline) = Return true.
Proof. repeat split. Qed.

(** Before any connection; on a connection whose next statement fails;
    and on a healthy one. *)
Lemma create_table_example :
  SensorDatabase.clean offline
  /\ create_table offline = (Raise AttributeError, offline)
  /\ SensorDatabase.clean (connected [StatementError])
  /\ fst (create_table (connected [StatementError])) = Return false
  /\ fst (create_table (connected [])) = Return true.
Proof.
  split; [exact I|].
  split; [exact (@create_table_needs_a_cursor offline I)|].
  split; [reflexivity|].
  split.
  - pose proof (@create_table_needs_a_cursor (connected [StatementError])
                  eq_refl) as H.
    cbn [self_connection connected] in H.
    destruct (create_table (connected [StatementError])) as [r s'].
    exact (proj2 (proj2 H)).
  - pose proof (@create_table_needs_a_cursor (connected []) eq_refl) as H.
    cbn [self_connection connected] in H.
    destruct (create_table (connected [])) as [r s'].
    exact (proj2 (proj2 H)).
Defined.

End StartupFacts.

(** ** The history, the count and the health check *)

Module QueryFacts.

Import Eff Queries.
Local Open Scope eff_scope.
Local Open Scope string_scope.
Local Open Scope list_scope.

Ltac run :=
  cbv [read_all_data get_total_count get_all_data health_check
       get_db_connection conn_close fetch fetchval datetime_now
       mbind ret raise try_except try_finally any_exception
       server opened closed clock].

(** X19.  The history as [read_all_data] returns it: never an exception; on a
    server that answers, the rows it sent, in its order, under [data],
    their number under [total_records] and no [error] key; when the
    server cannot be reached or the query raises, a dict with an [error]
    key and nothing else; and whichever it is, the connection it opened
    is closed. *)
Theorem read_all_data_counts_what_it_returns (limit : Z) (s : state) :
  let '(r, s') := read_all_data limit s in
  balanced s s'
  /\ exists result,
       r = Return result
       /\ match server s with
          | None => result = cannot_connect
          | Some conn =>
              match fetch_reply conn limit with
              | Return rows =>
                  has_key "error" result = false
                  /\ getitem result "data" = Some (Rows rows)
                  /\ getitem result "total_records"
                     = Some (Int (Z.of_nat (List.length rows)))
              | Raise e => result = read_error e
              end
          end.
Proof.
  destruct s as [[conn|] o c k]; run; unfold balanced; cbn.
  - destruct (fetch_reply conn limit) as [rows|e]; cbn;
      (split; [lia|]); eexists; (split; [reflexivity|]).
    + rewrite length_map.
      replace (map formatted rows) with rows; [now repeat split|].
      induction rows as [|[t p o' n] rows IH]; [reflexivity|].
      cbn. now rewrite <- IH.
    + reflexivity.
  - split; [lia|]. eexists. now split.
Qed.

(** X20.  [GET /data/all] answers 500 exactly when the server cannot be
    reached or the history query raises, with the message of
    [read_all_data] as detail, and 200 otherwise, with the dict of
    [read_all_data]: the status [success], the rows the server sent, their
    number and the time of the call.  The connection opened is closed. *)
Theorem get_all_data_fails_only_with_the_store (limit : Z) (s : state) :
  let '(r, s') := get_all_data limit s in
  balanced s s'
  /\ (exists response, r = Return response)
  /\ ((exists detail, r = Return (HTTPException 500 detail))
      <-> match server s with
          | None => True
          | Some conn => exists e, fetch_reply conn limit = Raise e
          end)
  /\ match server s with
     | None =>
         fst (read_all_data limit s) = Return cannot_connect
         /\ r = Return (HTTPException 500 (Some (Str "無法連接到資料庫")))
     | Some conn =>
         match fetch_reply conn limit with
         | Raise e =>
             fst (read_all_data limit s) = Return (read_error e)
             /\ r = Return (HTTPException 500
                              (Some (Str ("讀取數據時發生錯誤: "
                                          ++ Data.str_of_exn e)%string)))
         | Return rows =>
             let body :=
               [("status", Str "success");
                ("data", Rows rows);
                ("total_records", Int (Z.of_nat (List.length rows)));
                ("last_updated", Iso (clock s))] in
             fst (read_all_data limit s) = Return body
             /\ r = Return (Ok200 body)
         end
     end.
Proof.
  assert (F : forall rows, map formatted rows = rows).
  { induction rows as [|[t p o' n] rows IH]; [reflexivity|].
    cbn. now rewrite IH. }
  destruct s as [[conn|] o c k]; run; unfold balanced; cbn.
  - destruct (fetch_reply conn limit) as [rows|e]; cbn;
      (split; [lia|]); (split; [eauto|]); (split; [split|]).
    + intros [detail H]. discriminate H.
    + intros [e H]. discriminate H.
    + rewrite length_map, F. split; reflexivity.
    + eauto.
    + eauto.
    + split; reflexivity.
  - split; [lia|]. split; [eauto|]. split; [split; eauto|].
    split; reflexivity.
Qed.

(** X21.  [get_total_count] never raises and closes the connection it opens.
    It returns the count the server gives, and 0 when the server cannot
    be reached, when the query raises and when the count is [None]: a
    failure and an empty table look the same to the caller. *)
Theorem get_total_count_is_zero_on_failure (s : state) :
  let '(r, s') := get_total_count s in
  balanced s s'
  /\ r = Return match server s with
                | Some conn =>
                    match count_reply conn with
                    | Return (Some n) => n
                    | _ => 0%Z
                    end
                | None => 0%Z
                end.
Proof.
  destruct s as [[conn|] o c k]; run; unfold balanced; cbn.
  - destruct (count_reply conn) as [[n|]|e]; cbn; split; (lia || reflexivity).
  - split; [lia | reflexivity].
Qed.

(** X22.  [GET /health] answers "healthy" exactly when the server accepts the
    connection and answers [SELECT 1]; otherwise it raises
    [HTTPException] 503; on every path the connection it opened is
    closed, once. *)
Theorem health_check_is_healthy_only_with_an_answer (s : state) :
  let '(r, s') := health_check s in
  balanced s s'
  /\ (opened s' <= S (opened s))%nat
  /\ match server s with
     | Some conn =>
         match select_1_reply conn with
         | Return _ =>
             r = Return (Ok200 [("status", Str "healthy");
                                ("database", Str "connected")])
         | Raise e =>
             r = Return (HTTPException 503
                           (Some (Str ("資料庫錯誤: "
                                       ++ Data.str_of_exn e)%string)))
         end
     | None => r = Return (HTTPException 503 (Some (Str "資料庫連接失敗")))
     end.
Proof.
  destruct s as [[conn|] o c k]; run; unfold balanced; cbn.
  - destruct (select_1_reply conn) as [v|e]; cbn;
      (split; [lia|]); (split; [lia|]); reflexivity.
  - split; [lia|]. split; [lia | reflexivity].
Qed.

(** Three rows on the server, a limit of two. *)
Example history_example :
  let r := Data.reading_at in
  let rows := [r "2024-05-01T10:00:10"; r "2024-05-01T10:00:05";
               r "2024-05-01T10:00:00"] in
  let '(res, s') := read_all_data 2 (facing (Some (serving rows))) in
  (exists result,
     res = Return result
     /\ getitem result "total_records" = Some (Int 2)
     /\ getitem result "data"
        = Some (Rows [r "2024-05-01T10:00:10"; r "2024-05-01T10:00:05"]))
  /\ opened s' = 1%nat /\ closed s' = 1%nat.
Proof.
  cbv zeta. cbn. split; [eexists; repeat split|]. split; reflexivity.
Qed.

End QueryFacts.

(** ** The stream over the file *)

Module FileStreamFacts.

Import Eff Data1 Stream1 FileFacts.
Local Open Scope eff_scope.
Local Open Scope string_scope.
Local Open Scope list_scope.

Lemma str_eqb_refl (x : str) : str_eqb x x = true.
Proof.
  induction x as [|c x IH]; [reflexivity|].
  cbn [str_eqb]. now rewrite N.eqb_refl, IH.
Qed.

Lemma key_eqb_refl (k : key) : key_eqb k k = true.
Proof. destruct k as [x|]; [apply str_eqb_refl | reflexivity]. Qed.

Section Stream.

Variable str_of : entry -> str.

Ltac run :=
  cbv [mbind readlines datetime_now update_cache ret raise sleep subscript
       any_exception clock disk opens last_modified_time cached_data].

(** X26.  One pass of the file-backed stream over a file with data that is not
    in the cache yet: the key is the timestamp of the last non-blank
    line when the line has three fields (an empty timestamp counts), else
    the printed entry; a data event is yielded, and the key recorded,
    exactly when it differs from the last key sent on this connection.
    As long as the file keeps its modification time, the passes that
    follow yield nothing, whatever the file holds by then. *)
Theorem file_stream_sends_on_change_only (last : key) (s : state)
    (mtime : Z) (lines : list str) :
  readable s mtime lines -> cache_hit s mtime = None ->
  data_lines lines <> [] ->
  let latest := parse_line (List.last (data_lines lines) []) in
  let k := entry_key str_of latest in
  let '(r, s1) := poll str_of last s in
  r = Return (if key_eqb k last then [] else [data_event latest (clock s)],
              if key_eqb k last then last else k)
  /\ forall content elapsed,
       fst (poll str_of (if key_eqb k last then last else k)
              (later s1 (Present mtime content) elapsed))
       = Return ([], if key_eqb k last then last else k).
Proof.
  unfold readable. intros Hd Hc Hn. cbv zeta.
  unfold poll at 1, try_except, mbind at 1.
  unfold read_data_file at 1, try_except. rewrite Hd, Hc.
  cbv [mbind readlines].
  destruct (data_lines lines) as [|l0 ls] eqn:E; [congruence|].
  set (latest := parse_line (List.last (l0 :: ls) [])).
  cbv [mbind datetime_now update_cache ret].
  cbn [has_key getitem String.eqb Ascii.eqb Bool.eqb].
  unfold data_key.
  cbn [getitem String.eqb Ascii.eqb Bool.eqb].
  fold (entry_key str_of latest).
  destruct (key_eqb (entry_key str_of latest) last) eqn:K; cbn [negb].
  - run. split; [reflexivity|]. intros content elapsed.
    unfold poll, try_except, mbind at 1, read_data_file, try_except, later.
    cbn [disk]. unfold cache_hit. cbn [last_modified_time cached_data].
    rewrite Z.eqb_refl. cbv [ret].
    cbn [has_key getitem String.eqb Ascii.eqb Bool.eqb].
    unfold data_key. cbn [getitem String.eqb Ascii.eqb Bool.eqb].
    fold (entry_key str_of latest). rewrite K. reflexivity.
  - run. cbn [getitem String.eqb Ascii.eqb Bool.eqb].
    split; [reflexivity|]. intros content elapsed.
    unfold poll, try_except, mbind at 1, read_data_file, try_except, later.
    cbn [disk]. unfold cache_hit. cbn [last_modified_time cached_data].
    rewrite Z.eqb_refl. cbv [ret].
    cbn [has_key getitem String.eqb Ascii.eqb Bool.eqb].
    unfold data_key. cbn [getitem String.eqb Ascii.eqb Bool.eqb].
    fold (entry_key str_of latest). rewrite key_eqb_refl. reflexivity.
Qed.

(** X27.  The failures of the file-backed stream.  A missing or unreadable
    file gives an error event on every pass.  A file with no data line
    gives the "file is empty" dict, which has no [latest_data]: a
    connection that has sent nothing stays silent, one that has sent a
    reading gets, on every pass, an error event that names the missing
    key.  In all these cases the last key sent is kept. *)
Theorem file_stream_failures (last : key) (s : state) :
  match disk s with
  | Missing =>
      fst (poll str_of last s)
      = Return ([error_event "數據檔案未找到" (clock s)], last)
  | Present mtime (Raise e) =>
      cache_hit s mtime = None ->
      fst (poll str_of last s)
      = Return ([error_event ("讀取檔案時發生錯誤: " ++ Data.str_of_exn e)
                   (clock s)], last)
  | Present mtime (Return lines) =>
      cache_hit s mtime = None -> data_lines lines = [] ->
      fst (poll str_of last s)
      = Return (match last with
                | None => []
                | Some _ =>
                    [error_event "串流發生錯誤: 'latest_data'" (clock s)]
                end, last)
  end.
Proof.
  destruct s as [l c k d o]. cbn [disk clock].
  destruct d as [|mtime [lines|e]].
  - reflexivity.
  - intros Hc Hn.
    unfold poll, try_except, mbind at 1, read_data_file, try_except.
    cbn [disk]. rewrite Hc. cbv [mbind readlines]. rewrite Hn.
    destruct last; reflexivity.
  - intros Hc.
    unfold poll, try_except, mbind at 1, read_data_file, try_except.
    cbn [disk]. rewrite Hc. reflexivity.
Qed.

End Stream.

(** A file of one reading, read by a new connection, then by the same
    connection a minute later with the file rewritten in place. *)
Lemma file_stream_example :
  let l1 := of_ascii "2024-05-01 10:00:00, 7.02, 412" in
  let s := fresh (Present 100 (Return [l1])) in
  readable s 100 [l1]
  /\ cache_hit s 100 = None
  /\ data_lines [l1] <> []
  /\ forall str_of,
       fst (poll str_of None s)
       = Return ([data_event
                    [("timestamp", of_ascii "2024-05-01 10:00:00");
                     ("ph_value", of_ascii "7.02");
                     ("orp_value", of_ascii "412")] 0],
                 Some (of_ascii "2024-05-01 10:00:00"))
       /\ fst (poll str_of (Some (of_ascii "2024-05-01 10:00:00"))
                 (later (snd (poll str_of None s))
                    (Present 100 (Return [of_ascii "x"])) 60))
          = Return ([], Some (of_ascii "2024-05-01 10:00:00")).
Proof.
  cbv zeta. split; [reflexivity|]. split; [reflexivity|].
  assert (Hn : data_lines [of_ascii "2024-05-01 10:00:00, 7.02, 412"] <> [])
    by (vm_compute; discriminate).
  split; [exact Hn|]. intros str_of.
  pose proof (@file_stream_sends_on_change_only str_of None
                (fresh (Present 100
                          (Return [of_ascii "2024-05-01 10:00:00, 7.02, 412"])))
                100 _ eq_refl eq_refl Hn) as H.
  cbv zeta in H.
  destruct (poll str_of None
              (fresh (Present 100
                        (Return [of_ascii "2024-05-01 10:00:00, 7.02, 412"]))))
    as [r s1].
  destruct H as [H1 H2]. split; [exact H1|].
  exact (H2 (Return [of_ascii "x"]) 60%Z).
Defined.

(** A connection that has sent a reading finds the file emptied. *)
Lemma file_stream_failure_example :
  let sent := Some (of_ascii "2024-05-01 10:00:00") in
  let s := fresh (Present 101 (Return [[]; of_ascii "  "])) in
  cache_hit s 101 = None
  /\ data_lines [[]; of_ascii "  "] = []
  /\ forall str_of,
       fst (poll str_of sent s)
       = Return ([error_event "串流發生錯誤: 'latest_data'" 0], sent).
Proof.
  cbv zeta. split; [reflexivity|]. split; [reflexivity|]. intros str_of.
  exact (@file_stream_failures str_of
           (Some (of_ascii "2024-05-01 10:00:00"))
           (fresh (Present 101 (Return [[]; of_ascii "  "])))
           eq_refl eq_refl).
Defined.

End FileStreamFacts.

(** ** The stream over an empty table *)

Module EmptyTableFacts.

Import Eff Data CacheFacts StreamFacts.
Local Open Scope eff_scope.
Local Open Scope string_scope.
Local Open Scope list_scope.
Local Open Scope Z_scope.

(** X23.  The stream over an empty table.  The "no data" dict has no
    ["latest_data"], so its key is [None]: a connection that has sent
    nothing yet stays silent, and a connection that has sent a reading
    gets an error event naming the missing key on every pass, its last
    key kept. *)
Theorem stream_on_an_empty_table (last : key) (s : state)
    (rest : list answer) :
  cache_is_fresh s (clock s) = None -> answers s = NoRow :: rest ->
  fst (poll last s)
  = Return (match last with
            | KNone => []
            | _ => [error_event "串流發生錯誤: 'latest_data'" (clock s)]
            end, last).
Proof.
  intros Hc Ha. unfold poll, try_except, mbind at 1.
  unfold read_latest_data, mbind at 1 2, datetime_now. rewrite Hc.
  destruct s as [h c l k a n q]. cbn in Ha. subst a.
  destruct last; run; rewrite nth_new; reflexivity.
Qed.

(** A connection that has sent the reading of 10:00:00 meets an empty
    table. *)
Lemma empty_table_stream_example :
  cache_is_fresh (started [NoRow]) (clock (started [NoRow])) = None
  /\ answers (started [NoRow]) = [NoRow]
  /\ fst (poll (KTimestamp "2024-05-01T10:00:00") (started [NoRow]))
     = Return ([[("error", Str "串流發生錯誤: 'latest_data'");
                 ("timestamp", Iso 0)]],
               KTimestamp "2024-05-01T10:00:00").
Proof.
  split; [reflexivity|]. split; [reflexivity|].
  exact (@stream_on_an_empty_table (KTimestamp "2024-05-01T10:00:00")
           (started [NoRow]) [] eq_refl eq_refl).
Defined.

End EmptyTableFacts.

(** ** Lines as the board prints them *)

Module WireFacts.

Import Re Num SensorDataParser ReFacts NumFacts ParserFacts Wire.
Local Open Scope N_scope.

Lemma ascii_digit_value (c : N) :
  ascii_digit c -> decimal_value c = Some (c - 48).
Proof.
  intros [L U]. unfold decimal_value, decimal_runs. cbn [find fst snd].
  assert (E : (48 <=? c) && (c <? 48 + 10) = true).
  { apply andb_true_iff. split; [now apply N.leb_le | apply N.ltb_lt; lia]. }
  rewrite E. cbn [fst]. f_equal. apply N.mod_small. lia.
Qed.

Lemma ascii_digit_decimal (c : N) : ascii_digit c -> decimal c.
Proof.
  intros H. unfold decimal, isdecimal. now rewrite (ascii_digit_value H).
Qed.

Lemma ascii_digits_decimal (ds : str) :
  Forall ascii_digit ds -> Forall decimal ds.
Proof. apply Forall_impl, ascii_digit_decimal. Qed.

Lemma digit_values_ascii (ds : str) :
  Forall ascii_digit ds ->
  digit_values ds = Some (map (fun c => c - 48) ds).
Proof.
  induction 1 as [|c ds H _ IH]; [reflexivity|].
  cbn [digit_values map]. now rewrite (ascii_digit_value H), IH.
Qed.

Lemma integer_text_signed_digits negative (ds : str) :
  ds <> [] -> Forall ascii_digit ds ->
  signed_digits (integer_text negative ds) negative ds.
Proof.
  intros Hn F. repeat split; [exact Hn | now apply ascii_digits_decimal].
Qed.

(** [int()] reads an integer as printed. *)
Lemma py_int_integer_text (lim : nat) negative (ds : str) :
  ds <> [] -> Forall ascii_digit ds ->
  exceeds_limit lim (List.length ds) = false ->
  py_int lim (integer_text negative ds)
  = Return (signed negative (value_of ds)).
Proof.
  intros Hn F X. pose proof (integer_text_signed_digits negative Hn F) as S.
  unfold py_int.
  rewrite (signed_digits_strip S), (signed_digits_split S),
    (digit_values_ascii F).
  destruct ds as [|c ds']; [contradiction|]. cbn [map].
  cbn [map List.length] in *. rewrite length_map, X.
  unfold signed, value_of. cbn [map]. destruct negative; reflexivity.
Qed.

Lemma sre_lower_letter (a : N) :
  65 <= a <= 90 \/ 97 <= a <= 122 -> 97 <= sre_lower a <= 122.
Proof.
  unfold sre_lower. intros [[L U] | [L U]].
  - assert (E : (65 <=? a) && (a <=? 90) = true)
      by (apply andb_true_iff; split; now apply N.leb_le).
    rewrite E. lia.
  - assert (E4 : (65 <=? a) && (a <=? 90) = false)
      by (apply andb_false_iff; right; apply N.leb_gt; lia).
    assert (E5 : (a =? 304) = false) by (apply N.eqb_neq; lia).
    assert (E6 : (a =? 8490) = false) by (apply N.eqb_neq; lia).
    rewrite E4, E5, E6. lia.
Qed.

(** A character below [A] matches no letter. *)
Lemma letter_does_not_match (a c : N) :
  c < 65 -> 65 <= a <= 90 \/ 97 <= a <= 122 ->
  literal_matches true a c = false.
Proof.
  intros Hc Ha. pose proof (sre_lower_letter Ha) as [L U].
  unfold literal_matches, ignorecase_fix.
  assert (Ec : sre_lower c = c).
  { unfold sre_lower.
    assert (E1 : (65 <=? c) && (c <=? 90) = false)
      by (apply andb_false_iff; left; apply N.leb_gt; exact Hc).
    assert (E2 : (c =? 304) = false) by (apply N.eqb_neq; lia).
    assert (E3 : (c =? 8490) = false) by (apply N.eqb_neq; lia).
    now rewrite E1, E2, E3. }
  rewrite Ec.
  assert (E7 : (c =? sre_lower a) = false) by (apply N.eqb_neq; lia).
  assert (E8 : (c =? 305) = false) by (apply N.eqb_neq; lia).
  assert (E9 : (c =? 383) = false) by (apply N.eqb_neq; lia).
  now rewrite E7, E8, E9, !andb_false_r.
Qed.

Lemma integer_text_below_letters negative (ds : str) :
  Forall ascii_digit ds -> Forall (fun c => c < 65) (integer_text negative ds).
Proof.
  intros F. unfold integer_text. apply Forall_app. split.
  - destruct negative; repeat constructor.
  - eapply Forall_impl; [|exact F]. intros c [L U]. lia.
Qed.

Section Matching.

Variable A : Type.

Lemma star_in_all (items : list set_item) (w : str)
    (k : str -> option A) (x : A) :
  Forall (fun c => in_set true items c = true) w ->
  k [] = Some x -> star_in true items w k = Some x.
Proof.
  intros F K. induction F as [|c w H _ IH]; [exact K|].
  cbn [star_in]. now rewrite H, IH.
Qed.

(** [-?\d+] takes an integer as printed, whole, when what follows the
    pattern is content with nothing. *)
Lemma signed_integer_takes_it_all negative (ds : str) (g : option str)
    (k : str -> option str -> option A) (x : A) :
  ds <> [] -> Forall ascii_digit ds ->
  k [] g = Some x ->
  rmatch true signed_integer (integer_text negative ds) g k = Some x.
Proof.
  intros Hn F K. destruct ds as [|c ds']; [contradiction|].
  inversion F as [|? ? Hc F']; subst.
  assert (Dc : in_set true [Category_digit] c = true).
  { cbn. now rewrite (ascii_digit_decimal Hc). }
  assert (Dd : Forall (fun ch => in_set true [Category_digit] ch = true) ds').
  { eapply Forall_impl; [|exact F']. intros ch H. cbn.
    now rewrite (ascii_digit_decimal H). }
  assert (S : star_in true [Category_digit] ds' (fun s' => k s' g) = Some x)
    by now apply star_in_all.
  unfold signed_integer, integer_text. change (chr "-") with 45.
  destruct negative; cbn [app rmatch].
  - change (literal_matches true 45 45) with true. cbv iota.
    now rewrite Dc, S.
  - assert (M : literal_matches true 45 c = false).
    { destruct Hc as [L U]. unfold literal_matches, sre_lower, ignorecase_fix.
      assert (E1 : (65 <=? c) && (c <=? 90) = false)
        by (apply andb_false_iff; left; apply N.leb_gt; lia).
      assert (E2 : (c =? 304) = false) by (apply N.eqb_neq; lia).
      assert (E3 : (c =? 8490) = false) by (apply N.eqb_neq; lia).
      rewrite E1, E2, E3. cbn.
      assert (E7 : (c =? 45) = false) by (apply N.eqb_neq; lia).
      now rewrite E7. }
    now rewrite M, Dc, S.
Qed.

End Matching.

Ltac normal_expr p :=
  let e := eval vm_compute in (expr p) in change (expr p) with e.

(** A pattern that starts with a letter finds nothing in text that holds
    no character from [A] on. *)
Lemma search_finds_no_letter (p : Pattern) (w : str) :
  (forall c t, c < 65 -> match_here p (c :: t) = None) ->
  match_here p [] = None ->
  Forall (fun c => c < 65) w -> search p w = None.
Proof.
  intros Hc He F. induction F as [|c w H _ IH].
  - cbn [search]. now rewrite He.
  - cbn [search]. now rewrite (Hc c w H), IH.
Qed.

Lemma ph_pattern_skips (w : str) :
  Forall (fun c => c < 65) w -> search ph_pattern w = None.
Proof.
  apply search_finds_no_letter; [|reflexivity].
  intros c t H. unfold match_here. normal_expr ph_pattern.
  cbn [IGNORECASE ph_pattern rmatch].
  rewrite letter_does_not_match; [reflexivity | exact H | lia].
Qed.

Lemma orp_pattern_skips (w : str) :
  Forall (fun c => c < 65) w -> search orp_pattern w = None.
Proof.
  apply search_finds_no_letter; [|reflexivity].
  intros c t H. unfold match_here. normal_expr orp_pattern.
  cbn [IGNORECASE orp_pattern rmatch].
  rewrite letter_does_not_match; [reflexivity | exact H | lia].
Qed.

Lemma ntu_pattern_skips (w : str) :
  Forall (fun c => c < 65) w -> search ntu_pattern w = None.
Proof.
  apply search_finds_no_letter; [|reflexivity].
  intros c t H. unfold match_here. normal_expr ntu_pattern.
  cbn [IGNORECASE ntu_pattern rmatch].
  rewrite !letter_does_not_match; [reflexivity | exact H | lia
                                  | exact H | lia].
Qed.

Ltac closed_literals :=
  repeat match goal with
         | |- context [literal_matches true ?a ?b] =>
             let v := eval vm_compute in (literal_matches true a b) in
             lazymatch v with
             | true => change (literal_matches true a b) with true
             | false => change (literal_matches true a b) with false
             end
         end.

(** What a pattern makes of text that starts with known characters. *)
Ltac here p :=
  unfold match_here;
  let e := eval cbv -[signed_integer decimal_literal] in (expr p) in
  change (expr p) with e;
  cbn [IGNORECASE p rmatch]; closed_literals; cbv iota.

Lemma star_in_stops (A : Type) (items : list set_item) (c : N) (t : str)
    (k : str -> option A) :
  in_set true items c = false -> star_in true items (c :: t) k = k (c :: t).
Proof. intros H. cbn [star_in]. now rewrite H. Qed.

Lemma integer_text_starts negative (ds : str) :
  ds <> [] -> Forall ascii_digit ds ->
  exists c t, integer_text negative ds = c :: t
              /\ in_set true [Category_space] c = false.
Proof.
  intros Hn F. destruct negative.
  - exists 45, ds. now split.
  - destruct ds as [|c ds']; [contradiction|]. exists c, ds'.
    split; [reflexivity|]. cbn. rewrite orb_false_r.
    apply decimal_not_space, ascii_digit_decimal. now inversion F.
Qed.

(** The space after the colon, then the integer: the rest of both integer
    patterns, from the white space on. *)
Lemma integer_after_space negative (ds : str) :
  ds <> [] -> Forall ascii_digit ds ->
  let w := integer_text negative ds in
  star_in true [Category_space] (32 :: w)
    (fun s' =>
       rmatch true signed_integer s' None
         (fun s'' _ =>
            Some {| group_1 :=
                      firstn (List.length s' - List.length s'') s' |}))
  = Some {| group_1 := w |}.
Proof.
  intros Hn F w. cbn [star_in].
  change (in_set true [Category_space] 32) with true. cbv iota.
  destruct (@integer_text_starts negative ds Hn F) as (c & t & E & Hs).
  fold w in E. rewrite E, (@star_in_stops _ _ c t _ Hs), <- E.
  rewrite (@signed_integer_takes_it_all _ negative ds None _
             {| group_1 := w |} Hn F); [reflexivity|].
  cbn [List.length]. now rewrite Nat.sub_0_r, firstn_all.
Qed.

Lemma orp_line_matches negative (ds : str) :
  ds <> [] -> Forall ascii_digit ds ->
  let w := integer_text negative ds in
  search orp_pattern (of_ascii "ORP: " ++ w) = Some {| group_1 := w |}.
Proof.
  intros Hn F w. change (of_ascii "ORP: ") with [79; 82; 80; 58; 32].
  cbn [app search]. here orp_pattern.
  pose proof (@integer_after_space negative ds Hn F) as R.
  cbv zeta in R. fold w in R. now rewrite R.
Qed.

Lemma ntu_line_matches negative (ds : str) :
  ds <> [] -> Forall ascii_digit ds ->
  let w := integer_text negative ds in
  search ntu_pattern (of_ascii "NTU: " ++ w) = Some {| group_1 := w |}.
Proof.
  intros Hn F w. change (of_ascii "NTU: ") with [78; 84; 85; 58; 32].
  cbn [app search]. here ntu_pattern.
  pose proof (@integer_after_space negative ds Hn F) as R.
  cbv zeta in R. fold w in R. now rewrite R.
Qed.

Lemma orp_line_has_no_other (w : str) :
  Forall (fun c => c < 65) w ->
  search ph_pattern (of_ascii "ORP: " ++ w) = None
  /\ search ntu_pattern (of_ascii "ORP: " ++ w) = None.
Proof.
  intros F. change (of_ascii "ORP: ") with [79; 82; 80; 58; 32].
  cbn [app]. split.
  - do 5 (cbn [search]; here ph_pattern). now apply ph_pattern_skips.
  - do 5 (cbn [search]; here ntu_pattern). now apply ntu_pattern_skips.
Qed.

Lemma ntu_line_has_no_other (w : str) :
  Forall (fun c => c < 65) w ->
  search ph_pattern (of_ascii "NTU: " ++ w) = None
  /\ search orp_pattern (of_ascii "NTU: " ++ w) = None.
Proof.
  intros F. change (of_ascii "NTU: ") with [78; 84; 85; 58; 32].
  cbn [app]. split.
  - do 5 (cbn [search]; here ph_pattern). now apply ph_pattern_skips.
  - do 5 (cbn [search]; here orp_pattern). now apply orp_pattern_skips.
Qed.

Lemma line_is_clean (label w : str) :
  Forall (fun c => 32 <= c) label -> Forall (fun c => c < 65) w ->
  Forall (fun c => 45 <= c) w -> clean (label ++ w) = label ++ w.
Proof.
  intros Fl Fw Fw'. unfold clean. apply filter_all, Forall_app. split.
  - eapply Forall_impl; [|exact Fl]. intros c H. unfold printable.
    apply N.leb_le in H. now rewrite H.
  - eapply Forall_impl; [|exact Fw']. intros c H. unfold printable.
    cbv beta in H.
    assert (E : (32 <=? c) = true) by (apply N.leb_le; lia). now rewrite E.
Qed.

Lemma integer_text_above_comma negative (ds : str) :
  Forall ascii_digit ds -> Forall (fun c => 45 <= c) (integer_text negative ds).
Proof.
  intros F. unfold integer_text. apply Forall_app. split.
  - destruct negative; [constructor; [lia | constructor] | constructor].
  - eapply Forall_impl; [|exact F]. intros c [L U]. lia.
Qed.

(** X24.  The lines [ORP: n] and [NTU: n], for every integer [n] as the board
    prints it (a minus sign or none, then digits, as long as [int()]
    takes them), are read back as exactly that integer in the field of
    the line and nothing in the other two. *)
Theorem integer_lines_are_read_back (int_max_str_digits : nat)
    (negative : bool) (digits : str) :
  digits <> [] -> Forall ascii_digit digits ->
  exceeds_limit int_max_str_digits (List.length digits) = false ->
  let text := integer_text negative digits in
  let n := signed negative (value_of digits) in
  parse_sensor_data int_max_str_digits (Some (of_ascii "ORP: " ++ text))
  = (None, Some n, None)
  /\ parse_sensor_data int_max_str_digits (Some (of_ascii "NTU: " ++ text))
     = (None, None, Some n).
Proof.
  intros Hn F X text n.
  pose proof (@integer_text_below_letters negative digits F) as B.
  pose proof (@integer_text_above_comma negative digits F) as C.
  fold text in B, C.
  change (of_ascii "ORP: ") with [79; 82; 80; 58; 32].
  change (of_ascii "NTU: ") with [78; 84; 85; 58; 32].
  assert (O : clean ([79; 82; 80; 58; 32] ++ text)
              = [79; 82; 80; 58; 32] ++ text)
    by (apply line_is_clean; [repeat (constructor; [lia|]); constructor
                             | exact B | exact C]).
  assert (U : clean ([78; 84; 85; 58; 32] ++ text)
              = [78; 84; 85; 58; 32] ++ text)
    by (apply line_is_clean; [repeat (constructor; [lia|]); constructor
                             | exact B | exact C]).
  split.
  - unfold parse_sensor_data.
    change (negb (truthy (Some ([79; 82; 80; 58; 32] ++ text)))) with false.
    cbv iota. cbn [text_of]. cbv zeta. rewrite O.
    destruct (@orp_line_has_no_other _ B) as [P1 P2].
    change (of_ascii "ORP: ") with [79; 82; 80; 58; 32] in P1, P2.
    rewrite P1, P2.
    pose proof (@orp_line_matches negative digits Hn F) as M.
    cbv zeta in M. fold text in M.
    change (of_ascii "ORP: ") with [79; 82; 80; 58; 32] in M.
    change (of_ascii "NTU: ") with [78; 84; 85; 58; 32] in M.
    rewrite M. cbn [group_1].
    unfold text. now rewrite (@py_int_integer_text int_max_str_digits negative digits Hn F X).
  - unfold parse_sensor_data.
    change (negb (truthy (Some ([78; 84; 85; 58; 32] ++ text)))) with false.
    cbv iota. cbn [text_of]. cbv zeta. rewrite U.
    destruct (@ntu_line_has_no_other _ B) as [P1 P2].
    change (of_ascii "NTU: ") with [78; 84; 85; 58; 32] in P1, P2.
    rewrite P1, P2.
    pose proof (@ntu_line_matches negative digits Hn F) as M.
    cbv zeta in M. fold text in M.
    change (of_ascii "ORP: ") with [79; 82; 80; 58; 32] in M.
    change (of_ascii "NTU: ") with [78; 84; 85; 58; 32] in M.
    rewrite M. cbn [group_1].
    unfold text. now rewrite (@py_int_integer_text int_max_str_digits negative digits Hn F X).
Qed.

(** The lines [ORP: -250] and [NTU: -250]. *)
Lemma integer_lines_example :
  of_ascii "250" <> []
  /\ Forall ascii_digit (of_ascii "250")
  /\ exceeds_limit 4300 (List.length (of_ascii "250")) = false
  /\ parse_sensor_data 4300 (Some (of_ascii "ORP: -250"))
     = (None, Some (-250)%Z, None)
  /\ parse_sensor_data 4300 (Some (of_ascii "NTU: -250"))
     = (None, None, Some (-250)%Z).
Proof.
  assert (Hn : of_ascii "250" <> []) by discriminate.
  assert (F : Forall ascii_digit (of_ascii "250"))
    by (change (of_ascii "250") with [50; 53; 48]%N;
        repeat (constructor; [unfold ascii_digit; lia|]); constructor).
  split; [exact Hn|]. split; [exact F|]. split; [reflexivity|].
  exact (@integer_lines_are_read_back 4300 true (of_ascii "250") Hn F
           eq_refl).
Defined.

Ltac closed_sets :=
  repeat match goal with
         | |- context [in_set true ?items ?c] =>
             let v := eval vm_compute in (in_set true items c) in
             lazymatch v with
             | true => change (in_set true items c) with true
             | false => change (in_set true items c) with false
             end
         end.

Lemma digit_in_set (c : N) :
  ascii_digit c -> in_set true [Category_digit] c = true.
Proof. intros H. cbn. now rewrite (ascii_digit_decimal H). Qed.

Lemma digit_not_minus (c : N) :
  ascii_digit c -> literal_matches true 45 c = false.
Proof.
  intros [L U]. unfold literal_matches, sre_lower, ignorecase_fix.
  assert (E1 : (65 <=? c) && (c <=? 90) = false)
    by (apply andb_false_iff; left; apply N.leb_gt; lia).
  assert (E2 : (c =? 304) = false) by (apply N.eqb_neq; lia).
  assert (E3 : (c =? 8490) = false) by (apply N.eqb_neq; lia).
  rewrite E1, E2, E3. cbn.
  assert (E7 : (c =? 45) = false) by (apply N.eqb_neq; lia).
  now rewrite E7.
Qed.

Lemma star_in_up_to (A : Type) (items : list set_item) (w : str) (c : N)
    (t : str) (k : str -> option A) (x : A) :
  Forall (fun ch => in_set true items ch = true) w ->
  in_set true items c = false ->
  k (c :: t) = Some x -> star_in true items (w ++ c :: t) k = Some x.
Proof.
  intros F Hc K. induction F as [|a w H _ IH].
  - cbn [app]. now rewrite star_in_stops.
  - cbn [app star_in]. now rewrite H, IH.
Qed.

(** [-?\d+\.?\d*] takes digits, a point and digits whole. *)
Lemma decimal_literal_takes_it_all (A : Type) (whole fraction : str)
    (g : option str) (k : str -> option str -> option A) (x : A) :
  whole <> [] -> Forall ascii_digit whole -> Forall ascii_digit fraction ->
  k [] g = Some x ->
  rmatch true decimal_literal (whole ++ 46 :: fraction) g k = Some x.
Proof.
  intros Hn Fw Ff K. destruct whole as [|c w']; [contradiction|].
  inversion Fw as [|? ? Hc Fw']; subst.
  assert (Dw : Forall (fun ch => in_set true [Category_digit] ch = true) w')
    by (eapply Forall_impl; [|exact Fw']; apply digit_in_set).
  assert (Df : Forall (fun ch => in_set true [Category_digit] ch = true)
                 fraction)
    by (eapply Forall_impl; [|exact Ff]; apply digit_in_set).
  unfold decimal_literal. change (chr "-") with 45. change (chr ".") with 46.
  cbn [sequence fold_right app rmatch].
  rewrite (digit_not_minus Hc), (digit_in_set Hc).
  rewrite (@star_in_up_to _ [Category_digit] w' 46 fraction _ x Dw);
    [reflexivity | reflexivity|].
  change (literal_matches true 46 46) with true. cbv iota.
  now rewrite (@star_in_all _ [Category_digit] fraction _ x Df K).
Qed.

Lemma ph_line_matches (whole fraction : str) :
  whole <> [] -> Forall ascii_digit whole -> Forall ascii_digit fraction ->
  let w := whole ++ 46 :: fraction in
  search ph_pattern (of_ascii "pH value: " ++ w) = Some {| group_1 := w |}.
Proof.
  intros Hn Fw Ff w.
  change (of_ascii "pH value: ")
    with [112; 72; 32; 118; 97; 108; 117; 101; 58; 32].
  cbn [app search]. here ph_pattern.
  repeat (cbn [star_in rmatch]; closed_literals; closed_sets; cbv iota beta).
  assert (E : exists c t, w = c :: t
                          /\ in_set true [Category_space] c = false).
  { unfold w. destruct whole as [|c w']; [contradiction|].
    exists c, (w' ++ 46 :: fraction). split; [reflexivity|].
    cbn. rewrite orb_false_r.
    apply decimal_not_space, ascii_digit_decimal. now inversion Fw. }
  destruct E as (c & t & E & Hs).
  rewrite E, (@star_in_stops _ _ c t _ Hs), <- E. unfold w at 1.
  rewrite (@decimal_literal_takes_it_all _ whole fraction None _
             {| group_1 := w |} Hn Fw Ff); [reflexivity|].
  cbn [List.length]. now rewrite Nat.sub_0_r, firstn_all.
Qed.

Lemma ph_line_has_no_other (w : str) :
  Forall (fun c => c < 65) w ->
  search orp_pattern (of_ascii "pH value: " ++ w) = None
  /\ search ntu_pattern (of_ascii "pH value: " ++ w) = None.
Proof.
  intros F.
  change (of_ascii "pH value: ")
    with [112; 72; 32; 118; 97; 108; 117; 101; 58; 32].
  cbn [app]. split.
  - do 10 (cbn [search]; here orp_pattern). now apply orp_pattern_skips.
  - do 10 (cbn [search]; here ntu_pattern). now apply ntu_pattern_skips.
Qed.

(** [float()] reads digits, a point and digits as the nearest binary64
    to the decimal number they write. *)
Lemma py_float_decimal_text (whole fraction : str) :
  whole <> [] -> Forall ascii_digit whole -> Forall ascii_digit fraction ->
  py_float (whole ++ 46 :: fraction)
  = Return (binary64_of_decimal false (value_of (whole ++ fraction))
              (List.length fraction)).
Proof.
  intros Hn Fw Ff.
  pose proof (ascii_digits_decimal Fw) as Dw.
  pose proof (ascii_digits_decimal Ff) as Df.
  destruct whole as [|c w'] eqn:Ew; [contradiction|]. rewrite <- Ew in *.
  assert (Dc : decimal c) by (rewrite Ew in Dw; now inversion Dw).
  assert (Hs : strip (whole ++ 46 :: fraction) = whole ++ 46 :: fraction).
  { eapply strip_id with (z := 0) (c := c) (t := w' ++ 46 :: fraction).
    - now rewrite Ew.
    - now apply decimal_not_space.
    - exact (@last_nonspace whole true fraction Hn Dw Df). }
  assert (Hg : split_sign (whole ++ 46 :: fraction)
               = (false, whole ++ 46 :: fraction)).
  { rewrite Ew. cbn [app].
    destruct (decimal_not_punctuation Dc) as (H45 & H43 & _).
    unfold split_sign. destruct c as [|p]; [reflexivity|].
    repeat (destruct p as [p|p|]; try reflexivity); congruence. }
  unfold py_float. rewrite Hs, Hg.
  rewrite (@split_point_digits whole (46 :: fraction) Dw).
  cbn [split_point N.eqb Pos.eqb fst snd]. rewrite app_nil_r.
  rewrite (digit_values_ascii Fw), (digit_values_ascii Ff), !length_map.
  assert (Z : Nat.eqb (List.length whole + List.length fraction) 0 = false)
    by (rewrite Ew; reflexivity).
  rewrite Z. unfold value_of. now rewrite map_app.
Qed.

(** X25.  The line [pH value: d.f], for every run of digits [d] and every run
    [f], empty or not: the pH read back is the binary64 nearest to the
    decimal number written, and the other two fields are absent. *)
Theorem ph_line_is_read_back (int_max_str_digits : nat)
    (whole fraction : str) :
  whole <> [] -> Forall ascii_digit whole -> Forall ascii_digit fraction ->
  parse_sensor_data int_max_str_digits
    (Some (of_ascii "pH value: " ++ whole ++ 46 :: fraction))
  = (Some (binary64_of_decimal false (value_of (whole ++ fraction))
             (List.length fraction)),
     None, None).
Proof.
  intros Hn Fw Ff. set (w := whole ++ 46 :: fraction).
  assert (B : Forall (fun c => c < 65) w).
  { apply Forall_app. split.
    - eapply Forall_impl; [|exact Fw]. intros c [L U]. lia.
    - constructor; [reflexivity|].
      eapply Forall_impl; [|exact Ff]. intros c [L U]. lia. }
  assert (C : Forall (fun c => 45 <= c) w).
  { apply Forall_app. split.
    - eapply Forall_impl; [|exact Fw]. intros c [L U]. lia.
    - constructor; [lia|].
      eapply Forall_impl; [|exact Ff]. intros c [L U]. lia. }
  pose proof (@ph_line_matches whole fraction Hn Fw Ff) as M.
  cbv zeta in M. fold w in M.
  destruct (@ph_line_has_no_other w B) as [P1 P2].
  revert M P1 P2.
  change (of_ascii "pH value: ")
    with [112; 72; 32; 118; 97; 108; 117; 101; 58; 32].
  intros M P1 P2.
  assert (O : clean ([112; 72; 32; 118; 97; 108; 117; 101; 58; 32] ++ w)
              = [112; 72; 32; 118; 97; 108; 117; 101; 58; 32] ++ w)
    by (apply line_is_clean; [repeat (constructor; [lia|]); constructor
                             | exact B | exact C]).
  unfold parse_sensor_data.
  change (negb (truthy (Some ([112; 72; 32; 118; 97; 108; 117; 101; 58; 32]
                              ++ w)))) with false.
  cbv iota. cbn [text_of]. cbv zeta. rewrite O, M, P1, P2. cbn [group_1].
  unfold w. now rewrite (@py_float_decimal_text whole fraction Hn Fw Ff).
Qed.

(** The line [pH value: 7.02]. *)
Lemma ph_line_example :
  of_ascii "7" <> []
  /\ Forall ascii_digit (of_ascii "7")
  /\ Forall ascii_digit (of_ascii "02")
  /\ parse_sensor_data 4300 (Some (of_ascii "pH value: 7.02"))
     = (Some (binary64_of_decimal false 702 2), None, None).
Proof.
  assert (Hn : of_ascii "7" <> []) by discriminate.
  assert (Fw : Forall ascii_digit (of_ascii "7"))
    by (change (of_ascii "7") with [55]%N;
        repeat (constructor; [unfold ascii_digit; lia|]); constructor).
  assert (Ff : Forall ascii_digit (of_ascii "02"))
    by (change (of_ascii "02") with [48; 50]%N;
        repeat (constructor; [unfold ascii_digit; lia|]); constructor).
  split; [exact Hn|]. split; [exact Fw|]. split; [exact Ff|].
  exact (@ph_line_is_read_back 4300 (of_ascii "7") (of_ascii "02") Hn Fw Ff).
Defined.

End WireFacts.
